(** * Press-release processing: model of [lib/press_release.py]

    A shallow embedding of the document extractor ([clean_url],
    [extract_hyperlinks], [get_paragraph_html], [parse_docx]), of the image
    normaliser ([convert_png_to_jpg]), of [generate_month_folder] and of the
    folder processor ([find_files], [process_press_release]), followed by
    the properties proved about them.

    Python [str] values are sequences of Unicode code points; they are
    modelled as lists of code points ([N]), so that [len], slicing and
    [find] count what Python counts. *)

From Stdlib Require Import Ascii String Bool ZArith NArith Lia List Sorted.
From Stdlib Require Import Floats.SpecFloat.
Import ListNotations.

Open Scope Z_scope.
Open Scope list_scope.

(* ================================================================== *)
(** * Python strings *)
(* ================================================================== *)

Module Py.

Definition char := N.
Definition str := list char.

(** An ASCII literal as a Python string. *)
Definition lit (s : String.string) : str :=
  List.map N_of_ascii (list_ascii_of_string s).

(** The double quote, U+0022. *)
Definition dquote : char := 34%N.

(** [a == b] on strings. *)
Fixpoint eqb (a b : str) : bool :=
  match a, b with
  | [], [] => true
  | x :: a', y :: b' => N.eqb x y && eqb a' b'
  | _, _ => false
  end.

(** Truthiness of a string: [bool(s)]. *)
Definition truthy (s : str) : bool :=
  match s with [] => false | _ :: _ => true end.

(** [len(s)]. *)
Definition len (s : str) : Z := Z.of_nat (List.length s).

(** [s.startswith(p)]. *)
Fixpoint startswith (p s : str) : bool :=
  match p, s with
  | [], _ => true
  | x :: p', y :: s' => N.eqb x y && startswith p' s'
  | _ :: _, [] => false
  end.

(** [s.endswith(p)]. *)
Definition endswith (p s : str) : bool :=
  startswith (rev p) (rev s).

(** [s.find(sub)], counted from offset [i]: the lowest index at which
    [sub] occurs, [-1] when it does not occur. *)
Fixpoint find_from (sub s : str) (i : Z) : Z :=
  if startswith sub s then i
  else match s with
       | [] => -1
       | _ :: s' => find_from sub s' (i + 1)
       end.

Definition find (sub s : str) : Z := find_from sub s 0.

(** [sub in s]. *)
Definition contains (sub s : str) : bool := 0 <=? find sub s.

(** [c in s] for one character. *)
Definition has_char (c : char) (s : str) : bool :=
  existsb (N.eqb c) s.

(** Slice bounds as Python clamps them: a negative index counts from the
    end, and both ends are clamped to [0 .. len s]. *)
Definition clamp (s : str) (i : Z) : nat :=
  Z.to_nat (if i <? 0 then Z.max 0 (len s + i) else Z.min i (len s)).

(** [s[:i]] and [s[i:]]. *)
Definition slice_to (s : str) (i : Z) : str := firstn (clamp s i) s.
Definition slice_from (s : str) (i : Z) : str := skipn (clamp s i) s.

(** [str.isspace] on one code point (the table of CPython's
    [_PyUnicode_IsWhitespace]); it is also what [\s] matches in a [str]
    pattern. *)
Definition isspace (c : char) : bool :=
  ((9 <=? c) && (c <=? 13) || (28 <=? c) && (c <=? 32)
   || (c =? 133) || (c =? 160) || (c =? 5760)
   || (8192 <=? c) && (c <=? 8202)
   || (c =? 8232) || (c =? 8233) || (c =? 8239) || (c =? 8287)
   || (c =? 12288))%N.

Fixpoint lstrip (s : str) : str :=
  match s with
  | c :: s' => if isspace c then lstrip s' else s
  | [] => []
  end.

Definition rstrip (s : str) : str := rev (lstrip (rev s)).

(** [s.strip()]. *)
Definition strip (s : str) : str := rstrip (lstrip s).

(** [s.split(c)] for a one-character separator: the pieces between the
    occurrences of [c]; never an empty list. *)
Fixpoint split (c : char) (s : str) : list str :=
  match s with
  | [] => [[]]
  | x :: s' =>
      if N.eqb x c then [] :: split c s'
      else match split c s' with
           | piece :: rest => (x :: piece) :: rest
           | [] => [[x]]
           end
  end.

(** [sep.join(parts)]. *)
Fixpoint join (sep : str) (parts : list str) : str :=
  match parts with
  | [] => []
  | [p] => p
  | p :: rest => p ++ sep ++ join sep rest
  end.

(** [s.replace(old, new)] for a non-empty [old]: occurrences are replaced
    from the left and do not overlap.  [fuel] bounds the number of
    characters still to scan. *)
Fixpoint replace_fuel (fuel : nat) (old new s : str) : str :=
  match fuel with
  | O => s
  | S fuel' =>
      if startswith old s
      then new ++ replace_fuel fuel' old new (skipn (List.length old) s)
      else match s with
           | [] => []
           | x :: s' => x :: replace_fuel fuel' old new s'
           end
  end.

Definition replace (old new s : str) : str :=
  match old with
  | [] => s
  | _ :: _ => replace_fuel (S (List.length s)) old new s
  end.

(** [str(n)] for a non-negative integer. *)
Fixpoint digits_of_uint (d : Decimal.uint) : str :=
  match d with
  | Decimal.Nil => []
  | Decimal.D0 d' => 48%N :: digits_of_uint d'
  | Decimal.D1 d' => 49%N :: digits_of_uint d'
  | Decimal.D2 d' => 50%N :: digits_of_uint d'
  | Decimal.D3 d' => 51%N :: digits_of_uint d'
  | Decimal.D4 d' => 52%N :: digits_of_uint d'
  | Decimal.D5 d' => 53%N :: digits_of_uint d'
  | Decimal.D6 d' => 54%N :: digits_of_uint d'
  | Decimal.D7 d' => 55%N :: digits_of_uint d'
  | Decimal.D8 d' => 56%N :: digits_of_uint d'
  | Decimal.D9 d' => 57%N :: digits_of_uint d'
  end.

Definition str_of_Z (n : Z) : str :=
  match n with
  | Zneg p => 45%N :: digits_of_uint (Pos.to_uint p)
  | _ => digits_of_uint (N.to_uint (Z.to_N n))
  end.

(** [f"{n:02d}"] for a non-negative integer: at least two digits. *)
Definition pad2 (n : Z) : str :=
  let d := str_of_Z n in
  if len d <? 2 then 48%N :: d else d.

End Py.

Abbreviation pystr := Py.str.
Notation "'py' s" := (Py.lit s%string) (at level 9, s at level 0, only parsing).

(** An insertion-ordered [dict] with string keys: an association list
    with distinct keys.  Assigning to an existing key keeps its place. *)
Module Dict.

Definition t (V : Type) := list (pystr * V).

Fixpoint get {V} (d : t V) (k : pystr) : option V :=
  match d with
  | [] => None
  | (k', v) :: d' => if Py.eqb k' k then Some v else get d' k
  end.

(** [d[k] = v]. *)
Fixpoint set {V} (d : t V) (k : pystr) (v : V) : t V :=
  match d with
  | [] => [(k, v)]
  | (k', v') :: d' =>
      if Py.eqb k' k then (k', v) :: d' else (k', v') :: set d' k v
  end.

Definition keys {V} (d : t V) : list pystr := List.map fst d.
Definition values {V} (d : t V) : list V := List.map snd d.

End Dict.

(* ================================================================== *)
(** * Document parsing *)
(* ================================================================== *)

(** [clean_url]: remove tracking parameters from a URL. *)
Definition clean_url (url : pystr) : pystr :=
  if negb (Py.truthy url) then url
  else if Py.contains (py "?") url then hd [] (Py.split 63%N url)
  else url.


(** What the Python runtime supplies and the repository does not define:
    the Unicode table behind [\d] in a [str] pattern (category Nd),
    [str.lower], and [str.format] applied to a template with the keyword
    arguments [month_folder] and [folder_name] ([None] when it raises). *)
Class Runtime := {
  isdecimal : Py.char -> bool;
  lower : pystr -> pystr;
  format_path : pystr -> pystr -> pystr -> option pystr
}.

(** A [w:hyperlink] element of a paragraph: its [r:id] attribute and the
    texts of its [w:t] nodes ([None] for a node without text). *)
Record hyperlink := {
  r_id : option pystr;
  text_nodes : list (option pystr)
}.

(** A run of a paragraph: its text and its tri-state [italic] flag. *)
Record run := {
  run_text : pystr;
  run_italic : option bool
}.

(** A paragraph of the document as the extractor reads it: [para.text],
    the name of [para.style] when there is one, [para.runs], the hyperlink
    elements under [para._element] and the relationships of [para.part]
    (relationship id to [target_ref]). *)
Record paragraph := {
  para_text : pystr;
  para_style : option pystr;
  para_runs : list run;
  para_links : list hyperlink;
  para_rels : Dict.t pystr
}.

(** The text of a hyperlink element: the non-empty node texts joined. *)
Definition link_text_of (h : hyperlink) : pystr :=
  List.concat
    (List.map (fun n => match n with
                        | Some t => if Py.truthy t then t else []
                        | None => []
                        end) (text_nodes h)).

(** One iteration of the loop of [extract_hyperlinks]. *)
Definition extract_one (rels : Dict.t pystr) (hyperlinks : Dict.t pystr)
    (h : hyperlink) : Dict.t pystr :=
  match r_id h with
  | Some rid =>
      if Py.truthy rid then
        match Dict.get rels rid with
        | Some target_ref =>
            if Py.truthy target_ref then
              let link_text := link_text_of h in
              if Py.truthy link_text
              then Dict.set hyperlinks link_text target_ref
              else hyperlinks
            else hyperlinks
        | None => hyperlinks
        end
      else hyperlinks
  | None => hyperlinks
  end.

(** [extract_hyperlinks]: link text to URL, in document order; a repeated
    link text keeps its first place and takes the last URL. *)
Definition extract_hyperlinks (p : paragraph) : Dict.t pystr :=
  fold_left (extract_one (para_rels p)) (para_links p) [].

(** An entry of [link_positions]: [(pos, len(link_text), link_text, url)]. *)
Definition candidate := (Z * Z * pystr * pystr)%type.

Definition c_pos (c : candidate) : Z := fst (fst (fst c)).
Definition c_len (c : candidate) : Z := snd (fst (fst c)).
Definition c_text (c : candidate) : pystr := snd (fst c).
Definition c_url (c : candidate) : pystr := snd c.

(** The first loop of [get_paragraph_html]: one candidate per link text
    that occurs in the text, at its first occurrence. *)
Fixpoint link_positions_of (text : pystr) (items : Dict.t pystr)
  : list candidate :=
  match items with
  | [] => []
  | (link_text, url) :: rest =>
      let pos := Py.find link_text text in
      if pos >=? 0
      then (pos, Py.len link_text, link_text, url)
             :: link_positions_of text rest
      else link_positions_of text rest
  end.

(** The sort key [(-x[0], -x[1])] and the order of tuples on it. *)
Definition sort_key (c : candidate) : Z * Z := (- c_pos c, - c_len c).

Definition key_ltb (a b : Z * Z) : bool :=
  (fst a <? fst b) || ((fst a =? fst b) && (snd a <? snd b)).

(** [list.sort(key=...)] is stable: an element goes before the first one
    whose key is not smaller than its own. *)
Fixpoint insert_by_key (x : candidate) (l : list candidate)
  : list candidate :=
  match l with
  | [] => [x]
  | y :: l' =>
      if key_ltb (sort_key y) (sort_key x)
      then y :: insert_by_key x l'
      else x :: y :: l'
  end.

Definition sort_by_key (l : list candidate) : list candidate :=
  fold_right insert_by_key [] l.

(** The inner loop: does [pos, pos+length) overlap a linked range? *)
Definition overlaps (pos length : Z) (linked_ranges : list (Z * Z)) : bool :=
  existsb (fun r =>
             negb ((pos + length <=? fst r) || (pos >=? snd r)))
          linked_ranges.

(** The anchor tag of a link. *)
Definition link_html (link_text url : pystr) : pystr :=
  py "<a href=" ++ [Py.dquote] ++ clean_url url ++ [Py.dquote]
  ++ py " target=" ++ [Py.dquote] ++ py "_blank" ++ [Py.dquote]
  ++ py ">" ++ link_text ++ py "</a>".

(** One iteration of the second loop, on [(result_text, linked_ranges)]. *)
Definition splice_step (st : pystr * list (Z * Z)) (c : candidate)
  : pystr * list (Z * Z) :=
  let '(result_text, linked_ranges) := st in
  let '(pos, length, link_text, url) := c in
  if overlaps pos length linked_ranges then st
  else (Py.slice_to result_text pos ++ link_html link_text url
          ++ Py.slice_from result_text (pos + length),
        linked_ranges ++ [(pos, pos + length)]).

Definition splice_all (text : pystr) (cs : list candidate)
  : pystr * list (Z * Z) :=
  fold_left splice_step cs (text, []).

(** The branch of [get_paragraph_html] taken when there are hyperlinks:
    collect, sort, splice. *)
Definition render_links (text : pystr) (hyperlinks : Dict.t pystr) : pystr :=
  fst (splice_all text (sort_by_key (link_positions_of text hyperlinks))).

(** [bool(d)] for a dict or a list. *)
Definition nonempty {A} (l : list A) : bool :=
  match l with [] => false | _ :: _ => true end.

Definition get_paragraph_html (p : paragraph) (include_links : bool) : pystr :=
  let hyperlinks := if include_links then extract_hyperlinks p else [] in
  let text := para_text p in
  if nonempty hyperlinks && include_links
  then render_links text hyperlinks
  else text.


(** ** The extractor *)

Inductive section := body | about | trademarks.

Definition section_eqb (a b : section) : bool :=
  match a, b with
  | body, body | about, about | trademarks, trademarks => true
  | _, _ => false
  end.

(** The [result] dict of [parse_docx] as the loop fills it, with the two
    loop variables.  [meta_description] and [meta_keywords] are derived
    after the loop from [body_paragraphs] and [headline] without changing
    them, and are not represented. *)
Record parse_state := {
  headline : pystr;
  subheadline : pystr;
  date : pystr;
  body_paragraphs : list pystr;
  about_sections : Dict.t (list pystr);
  product_link : pystr;
  current_section : section;
  current_about_title : option pystr
}.

Definition initial_state : parse_state :=
  {| headline := []; subheadline := []; date := [];
     body_paragraphs := []; about_sections := []; product_link := [];
     current_section := body; current_about_title := None |}.

Definition set_headline (st : parse_state) (v : pystr) : parse_state :=
  {| headline := v; subheadline := subheadline st; date := date st;
     body_paragraphs := body_paragraphs st;
     about_sections := about_sections st; product_link := product_link st;
     current_section := current_section st;
     current_about_title := current_about_title st |}.

Definition set_subheadline (st : parse_state) (v : pystr) : parse_state :=
  {| headline := headline st; subheadline := v; date := date st;
     body_paragraphs := body_paragraphs st;
     about_sections := about_sections st; product_link := product_link st;
     current_section := current_section st;
     current_about_title := current_about_title st |}.

(** The three assignments that open an About section. *)
Definition start_about (st : parse_state) (title : pystr) : parse_state :=
  {| headline := headline st; subheadline := subheadline st; date := date st;
     body_paragraphs := body_paragraphs st;
     about_sections := Dict.set (about_sections st) title [];
     product_link := product_link st;
     current_section := about;
     current_about_title := Some title |}.

Definition set_section (st : parse_state) (s : section) : parse_state :=
  {| headline := headline st; subheadline := subheadline st; date := date st;
     body_paragraphs := body_paragraphs st;
     about_sections := about_sections st; product_link := product_link st;
     current_section := s;
     current_about_title := current_about_title st |}.

(** [result['about_sections'][title].append(para_html)]. *)
Definition append_about (st : parse_state) (title para_html : pystr)
  : parse_state :=
  {| headline := headline st; subheadline := subheadline st; date := date st;
     body_paragraphs := body_paragraphs st;
     about_sections :=
       match Dict.get (about_sections st) title with
       | Some l => Dict.set (about_sections st) title (l ++ [para_html])
       | None => about_sections st
       end;
     product_link := product_link st;
     current_section := current_section st;
     current_about_title := current_about_title st |}.

(** The body branch: date, product link, then the append. *)
Definition append_body (st : parse_state) (new_date new_link para_html : pystr)
  : parse_state :=
  {| headline := headline st; subheadline := subheadline st;
     date := new_date;
     body_paragraphs := body_paragraphs st ++ [para_html];
     about_sections := about_sections st;
     product_link := new_link;
     current_section := current_section st;
     current_about_title := current_about_title st |}.

Definition month_names : list pystr :=
  [py "January"; py "February"; py "March"; py "April"; py "May";
   py "June"; py "July"; py "August"; py "September"; py "October";
   py "November"; py "December"].

(** The closing marker written with en dashes (U+2013) and with hyphens. *)
Definition marker_en_dash : pystr :=
  [8211; 32; 51; 48; 32; 8211]%N.
Definition marker_hyphen : pystr := py "- 30 -".

Section Extractor.

Context {R : Runtime}.

(** Pieces of the two patterns, in continuation style: a matcher takes
    what must match after it and the text, and gives the text left after
    the whole match, trying the longest repetition first as [re] does. *)
Fixpoint re_space_star {A} (k : pystr -> option A) (s : pystr) : option A :=
  match s with
  | c :: s' =>
      if Py.isspace c
      then match re_space_star k s' with
           | Some r => Some r
           | None => k s
           end
      else k s
  | [] => k s
  end.

(** [\s+] *)
Definition re_space_plus {A} (k : pystr -> option A) (s : pystr) : option A :=
  match s with
  | c :: s' => if Py.isspace c then re_space_star k s' else None
  | [] => None
  end.

(** [\d] *)
Definition re_digit {A} (k : pystr -> option A) (s : pystr) : option A :=
  match s with
  | c :: s' => if isdecimal c then k s' else None
  | [] => None
  end.

(** [\d{1,2}] *)
Definition re_digit_1_2 {A} (k : pystr -> option A) (s : pystr) : option A :=
  re_digit (fun s1 =>
              match re_digit k s1 with
              | Some r => Some r
              | None => k s1
              end) s.

(** [\d{4}] *)
Definition re_digit_4 {A} (k : pystr -> option A) (s : pystr) : option A :=
  re_digit (re_digit (re_digit (re_digit k))) s.

(** A literal character. *)
Definition re_char {A} (c : Py.char) (k : pystr -> option A) (s : pystr)
  : option A :=
  match s with
  | x :: s' => if N.eqb x c then k s' else None
  | [] => None
  end.

(** The alternation of the month names, tried in order. *)
Fixpoint re_months {A} (months : list pystr) (k : pystr -> option A)
    (s : pystr) : option A :=
  match months with
  | [] => None
  | m :: rest =>
      match (if Py.startswith m s then k (skipn (List.length m) s)
             else None) with
      | Some r => Some r
      | None => re_months rest k s
      end
  end.

(** [re.match(r'^(January|...|December)\s+\d', text)] as a truth value. *)
Definition starts_with_month_digit (text : pystr) : bool :=
  match re_months month_names
          (re_space_plus (re_digit (fun _ => Some tt))) text with
  | Some _ => true
  | None => false
  end.

(** [re.match(r'^((?:January|...|December)\s+\d{1,2},\s+\d{4})', s)]:
    group 1 of the match, if any. *)
Definition match_date (s : pystr) : option pystr :=
  match re_months month_names
          (re_space_plus
             (re_digit_1_2
                (re_char 44%N
                   (re_space_plus (re_digit_4 (fun rest => Some rest))))))
          s with
  | Some rest => Some (firstn (List.length s - List.length rest) s)
  | None => None
  end.

(** [any(run.italic for run in para.runs if run.text.strip())] *)
Definition has_italic (para : paragraph) : bool :=
  existsb (fun r =>
             Py.truthy (Py.strip (run_text r))
             && match run_italic r with Some b => b | None => false end)
          (para_runs para).

(** The first URL of the paragraph's links that names the product domain
    under [/new/], cleaned; the empty string when there is none. *)
Fixpoint first_product_link (urls : list pystr) : pystr :=
  match urls with
  | [] => []
  | url :: rest =>
      if Py.contains (py "mouser.com") url && Py.contains (py "/new/") url
      then clean_url url
      else first_product_link rest
  end.

Definition style_name_of (para : paragraph) : pystr :=
  match para_style para with
  | Some name => name
  | None => py "Normal"
  end.

(** The subheadline block: does this paragraph become the subheadline? *)
Definition captures_subheadline (st : parse_state) (para : paragraph)
    (text style_name : pystr) : bool :=
  if Py.truthy (headline st) && negb (Py.truthy (subheadline st))
     && negb (nonempty (body_paragraphs st))
  then
    if Py.eqb style_name (py "Subtitle") then true
    else
      if has_italic para && (Py.len text <? 200)
         && negb (Py.eqb text (headline st))
      then negb (starts_with_month_digit text)
      else false
  else false.

(** The end of the loop body: what the paragraph contributes in the
    current section. *)
Definition contribute (st : parse_state) (para : paragraph) : parse_state :=
  if section_eqb (current_section st) trademarks then st
  else
    match current_section st, current_about_title st with
    | about, Some title =>
        if Py.truthy title
        then append_about st title (get_paragraph_html para true)
        else st
    | body, _ =>
        let para_html := get_paragraph_html para true in
        let new_date :=
          match match_date para_html with
          | Some d => if negb (Py.truthy (date st)) then d else date st
          | None => date st
          end in
        let new_link :=
          if negb (Py.truthy (product_link st))
          then first_product_link (Dict.values (extract_hyperlinks para))
          else product_link st in
        append_body st new_date new_link para_html
    | _, _ => st
    end.

(** The section block and what follows it. *)
Definition section_step (st : parse_state) (para : paragraph)
    (text style_name : pystr) : parse_state :=
  let after_about_test :=
    if Py.contains (py "Trademarks") text
       && (Py.eqb style_name (py "Heading 1")
           || Py.startswith (py "Trademarks") text)
    then set_section st trademarks
    else contribute st para in
  if Py.eqb style_name (py "Heading 1") || Py.startswith (py "About ") text
  then
    if Py.startswith (py "About ") text
    then start_about st text
    else after_about_test
  else after_about_test.

(** One iteration of the loop of [parse_docx]. *)
Definition parse_step (st : parse_state) (para : paragraph) : parse_state :=
  let text := Py.strip (para_text para) in
  let style_name := style_name_of para in
  if negb (Py.truthy text) then st
  else if Py.eqb text marker_en_dash || Py.eqb text marker_hyphen then st
  else if Py.eqb style_name (py "Title")
          || (Py.eqb style_name (py "Title2")
              && negb (Py.truthy (headline st)))
  then
    if Py.contains (py "New Product Announcement") text then st
    else set_headline st text
  else if negb (Py.truthy (headline st))
          && (Py.eqb style_name (py "Title")
              || Py.eqb style_name (py "Heading 1"))
          && (Py.len text >? 20)
  then set_headline st text
  else if captures_subheadline st para text style_name
  then set_subheadline st text
  else section_step st para text style_name.

(** The loop of [parse_docx] from a given state, and from the start. *)
Definition parse_from (st : parse_state) (paragraphs : list paragraph)
  : parse_state :=
  fold_left parse_step paragraphs st.

Definition parse_docx (paragraphs : list paragraph) : parse_state :=
  parse_from initial_state paragraphs.

End Extractor.

(* ================================================================== *)
(** * Image processing *)
(* ================================================================== *)

(** Python floats are IEEE binary64 values. *)
Definition float := spec_float.

(** [float(n)] for an integer, rounded to nearest. *)
Definition float_of_int (n : Z) : float := binary_normalize 53 1024 n 0 false.

(** [a / b] on integers: [None] stands for [ZeroDivisionError].  For
    operands below 2^53 the quotient of the two conversions is the
    correctly rounded quotient that Python returns. *)
Definition true_div (a b : Z) : option float :=
  if b =? 0 then None
  else Some (SFdiv 53 1024 (float_of_int a) (float_of_int b)).

(** [n * x] for an integer and a float. *)
Definition int_mul_float (n : Z) (x : float) : float :=
  SFmul 53 1024 (float_of_int n) x.

(** The texts of the arithmetic errors. *)
Definition msg_zero_division : pystr := py "division by zero".
Definition msg_infinity : pystr := py "cannot convert float infinity to integer".
Definition msg_nan : pystr := py "cannot convert float NaN to integer".

(** [int(x)]: truncation toward zero, or the text of the error raised on
    an infinity or a NaN. *)
Definition int_of_float (x : float) : pystr + Z :=
  match x with
  | S754_zero _ => inr 0
  | S754_finite s m e =>
      let magnitude :=
        if e >=? 0 then Zpos m * 2 ^ e else Zpos m / 2 ^ (- e) in
      inr (if s then - magnitude else magnitude)
  | S754_infinity _ => inl msg_infinity
  | S754_nan => inl msg_nan
  end.

(** What [Image.open] gives the function: the size and the mode. *)
Record image := {
  img_width : Z;
  img_height : Z;
  img_mode : pystr
}.

(** The result dict of [convert_png_to_jpg]. *)
Record convert_result := {
  cr_success : bool;
  cr_output_path : pystr;
  cr_dimensions : option (Z * Z);
  cr_error : option pystr
}.

Definition convert_failed (output_path msg : pystr) : convert_result :=
  {| cr_success := false; cr_output_path := output_path;
     cr_dimensions := None; cr_error := Some msg |}.

(** [convert_png_to_jpg].  [opened] is what [Image.open(png_path)] gives
    (an error text when it raises); [codec img w h quality] is the text of
    the exception raised by the colour conversion, the resize to [(w, h)],
    the sharpening or the save, if one of them raises.  Pixel data is not
    modelled. *)
Definition convert_png_to_jpg
    (opened : pystr + image)
    (codec : image -> Z -> Z -> Z -> option pystr)
    (output_path : pystr) (target_width jpeg_quality : Z) : convert_result :=
  match opened with
  | inl msg => convert_failed output_path msg
  | inr img =>
      match true_div target_width (img_width img) with
      | None => convert_failed output_path msg_zero_division
      | Some ratio =>
          match int_of_float (int_mul_float (img_height img) ratio) with
          | inl msg => convert_failed output_path msg
          | inr new_height =>
              match codec img target_width new_height jpeg_quality with
              | Some msg => convert_failed output_path msg
              | None =>
                  {| cr_success := true; cr_output_path := output_path;
                     cr_dimensions := Some (target_width, new_height);
                     cr_error := None |}
              end
          end
      end
  end.

(** The height the specification names: [n / d] rounded to the nearest
    integer, a tie going to the even neighbour as Python's [round] does. *)
Definition round_div (n d : Z) : Z :=
  let q := n / d in
  let r := n mod d in
  if 2 * r <? d then q
  else if d <? 2 * r then q + 1
  else if Z.even q then q else q + 1.

(* ================================================================== *)
(** * HTML generation *)
(* ================================================================== *)

Definition ascii_lower_char (c : Py.char) : Py.char :=
  if ((65 <=? c) && (c <=? 90))%N then (c + 32)%N else c.

Definition ascii_digit (c : Py.char) : option Z :=
  if ((48 <=? c) && (c <=? 57))%N then Some (Z.of_N c - 48) else None.

(** Number of days of a month of the proleptic Gregorian calendar. *)
Definition is_leap (y : Z) : bool :=
  (y mod 4 =? 0) && (negb (y mod 100 =? 0) || (y mod 400 =? 0)).

Definition days_in_month (y m : Z) : Z :=
  if m =? 2 then (if is_leap y then 29 else 28)
  else if (m =? 4) || (m =? 6) || (m =? 9) || (m =? 11) then 30
  else 31.

(** The month whose English name the text starts with, letter case
    ignored, and the text after the name. *)
Fixpoint match_month_name (months : list pystr) (index : Z) (s : pystr)
  : option (Z * pystr) :=
  match months with
  | [] => None
  | m :: rest =>
      if Py.eqb (List.map ascii_lower_char m)
                (List.map ascii_lower_char (firstn (List.length m) s))
      then Some (index, skipn (List.length m) s)
      else match_month_name rest (index + 1) s
  end.

(** The decimal digits of all scripts, which [\d] matches and [int]
    reads: they come in runs of ten, zero to nine, and these are the code
    points of the zeros (Unicode 14.0, the table of CPython 3.11). *)
Definition decimal_zeros : list N :=
  [48; 1632; 1776; 1984; 2406; 2534; 2662; 2790; 2918; 3046; 3174; 3302;
   3430; 3558; 3664; 3792; 3872; 4160; 4240; 6112; 6160; 6470; 6608; 6784;
   6800; 6992; 7088; 7232; 7248; 42528; 43216; 43264; 43472; 43504; 43600;
   44016; 65296; 66720; 68912; 69734; 69872; 69942; 70096; 70384; 70736;
   70864; 71248; 71360; 71472; 71904; 72016; 72784; 73040; 73120; 92768;
   92864; 93008; 120782; 120792; 120802; 120812; 120822; 123200; 123632;
   125264; 130032]%N.

Definition decimal_value (c : Py.char) : option Z :=
  match List.find (fun z => (z <=? c) && (c <? z + 10))%N decimal_zeros with
  | Some z => Some (Z.of_N (c - z))
  | None => None
  end.

(** The day field [3[0-1]|[1-2]\d|0[1-9]|[1-9]| [1-9]] followed by the
    comma: the alternatives in order, the first one after which the comma
    follows.  The classes written with brackets take ASCII digits only;
    the [\d] of the second alternative takes a decimal digit of any
    script, and [int] reads the two characters as a number. *)
Definition match_day_comma (s : pystr) : option (Z * pystr) :=
  let two :=
    match s with
    | a :: b :: 44%N :: rest =>
        match ascii_digit a with
        | Some 3 =>
            match ascii_digit b with
            | Some y => if y <=? 1 then Some (30 + y, rest) else None
            | None => None
            end
        | Some 1 =>
            match decimal_value b with
            | Some y => Some (10 + y, rest)
            | None => None
            end
        | Some 2 =>
            match decimal_value b with
            | Some y => Some (20 + y, rest)
            | None => None
            end
        | Some 0 =>
            match ascii_digit b with
            | Some y => if 1 <=? y then Some (y, rest) else None
            | None => None
            end
        | _ =>
            if N.eqb a 32%N then
              match ascii_digit b with
              | Some y => if 1 <=? y then Some (y, rest) else None
              | None => None
              end
            else None
        end
    | _ => None
    end in
  match two with
  | Some r => Some r
  | None =>
      match s with
      | a :: 44%N :: rest =>
          match ascii_digit a with
          | Some y => if 1 <=? y then Some (y, rest) else None
          | None => None
          end
      | _ => None
      end
  end.

(** The year field [\d\d\d\d], which must end the text. *)
Definition match_year_end (s : pystr) : option Z :=
  match s with
  | [a; b; c; d] =>
      match decimal_value a, decimal_value b,
            decimal_value c, decimal_value d with
      | Some x3, Some x2, Some x1, Some x0 =>
          Some (1000 * x3 + 100 * x2 + 10 * x1 + x0)
      | _, _, _, _ => None
      end
  | _ => None
  end.

(** [datetime.strptime(s, "%B %d, %Y")] in the C locale: the year, month
    and day, or [None] for [ValueError].  The blank of the format stands
    for [\s+].  A letter outside ASCII never gives a date: where the
    pattern, which ignores case, lets one through ([U+0130], [U+0131],
    [U+017F]), the name found is not in the list of months and the call
    raises [ValueError] all the same. *)
Definition strptime_B_d_Y (s : pystr) : option (Z * Z * Z) :=
  match match_month_name month_names 1 s with
  | None => None
  | Some (month, s1) =>
      re_space_plus
        (fun s2 =>
           match match_day_comma s2 with
           | None => None
           | Some (day, s3) =>
               re_space_plus
                 (fun s4 =>
                    match match_year_end s4 with
                    | Some year =>
                        if (1 <=? year) && (day <=? days_in_month year month)
                        then Some (year, month, day)
                        else None
                    | None => None
                    end) s3
           end) s1
  end.

(** [f"{year}-{month:02d} - Mouser"] *)
Definition month_folder_name (year month : Z) : pystr :=
  Py.str_of_Z year ++ py "-" ++ Py.pad2 month ++ py " - Mouser".

(** [generate_month_folder]; [now] is the year and month that
    [datetime.now()] reads. *)
Definition generate_month_folder (now : Z * Z) (date_str : option pystr)
  : pystr :=
  let fallback := month_folder_name (fst now) (snd now) in
  match date_str with
  | Some s =>
      if Py.truthy s then
        match strptime_B_d_Y s with
        | Some (year, month, _) => month_folder_name year month
        | None => fallback
        end
      else fallback
  | None => fallback
  end.

(* ================================================================== *)
(** * Main processing *)
(* ================================================================== *)

Module Path.

(** Index of the last occurrence of a character, [-1] when absent. *)
Fixpoint rfind_from (c : Py.char) (s : pystr) (i : Z) (last : Z) : Z :=
  match s with
  | [] => last
  | x :: s' => rfind_from c s' (i + 1) (if N.eqb x c then i else last)
  end.

Definition rfind (c : Py.char) (s : pystr) : Z := rfind_from c s 0 (-1).

Definition sep : Py.char := 47%N.
Definition extsep : Py.char := 46%N.

(** [os.path.basename] (POSIX). *)
Definition basename (p : pystr) : pystr :=
  Py.slice_from p (rfind sep p + 1).

(** [os.path.join(a, b)] (POSIX). *)
Definition join (a b : pystr) : pystr :=
  if Py.startswith [sep] b then b
  else if negb (Py.truthy a) || Py.endswith [sep] a then a ++ b
  else a ++ [sep] ++ b.

(** [os.path.splitext(p)[0]] (POSIX): the extension starts at the last dot
    of the last component, unless only dots precede it there. *)
Definition splitext_root (p : pystr) : pystr :=
  let sep_index := rfind sep p in
  let dot_index := rfind extsep p in
  if sep_index <? dot_index then
    let before :=
      firstn (Z.to_nat (dot_index - (sep_index + 1)))
             (skipn (Z.to_nat (sep_index + 1)) p) in
    if existsb (fun c => negb (N.eqb c extsep)) before
    then Py.slice_to p dot_index
    else p
  else p.

End Path.

(** The [files] dict of [find_files]. *)
Record found_files := {
  f_docx : option pystr;
  f_png : option pystr;
  f_pdf : option pystr;
  f_folder_name : pystr
}.

Definition is_none {A} (o : option A) : bool :=
  match o with None => true | Some _ => false end.

(** [not files[k]]: the entry is [None] or an empty path. *)
Definition not_found (o : option pystr) : bool :=
  match o with None => true | Some path => negb (Py.truthy path) end.

(** What the folder processor reads from outside: the file system, the
    documents and images behind the paths, the failures of the codec and
    of file writes, and the clock at each call of [datetime.now()]. *)
Record world := {
  w_isdir : pystr -> bool;
  w_listdir : pystr -> list pystr;
  w_isfile : pystr -> bool;
  w_document : pystr -> pystr + list paragraph;
  w_image : pystr -> pystr + image;
  w_codec : image -> Z -> Z -> Z -> option pystr;
  w_write_error : pystr -> option pystr;
  w_now : nat -> Z * Z
}.

(** A file written by the folder processor. *)
Inductive file_write :=
| WriteJpeg (path : pystr) (dimensions : Z * Z)
| WriteText (path content : pystr).

(** The part of the configuration that [process_press_release] reads
    itself, and the contacts it hands to the renderers. *)
Record contact := {
  c_name : pystr; c_title : pystr; c_company : pystr;
  c_phone : pystr; c_email : pystr
}.

Record config := {
  output_width : Z;
  jpeg_quality : Z;
  base_url : pystr;
  marketing : contact;
  press : contact
}.

Definition DEFAULT_CONFIG : config :=
  {| output_width := 336;
     jpeg_quality := 95;
     base_url := py "https://pr.ezwire.com/Mouser/{month_folder}/{folder_name}/";
     marketing :=
       {| c_name := py "Kevin Hess";
          c_title := py "Senior Vice President of Marketing";
          c_company := py "Mouser Electronics";
          c_phone := py "(817) 804-3833";
          c_email := py "Kevin.Hess@mouser.com" |};
     press :=
       {| c_name := py "Kelly DeGarmo";
          c_title := py "Manager, Corporate Communications and Media Relations";
          c_company := py "Mouser Electronics";
          c_phone := py "(817) 804-7764";
          c_email := py "Kelly.DeGarmo@mouser.com" |} |}.

(** The result dict of [process_press_release]. *)
Record process_result := {
  success : bool;
  folder_name : option pystr;
  files_to_upload : list (pystr * pystr);
  preview_urls : Dict.t pystr;
  errors : list pystr;
  month_folder : option pystr
}.

(** How a call ends: it returns its result, or an exception leaves it.
    Either way [writes] are the files written before. *)
Inductive outcome :=
| Returns (result : process_result) (writes : list file_write)
| Raises (writes : list file_write).

(** The arguments of a renderer. *)
Record render_args := {
  ra_template : pystr;
  ra_content : parse_state;
  ra_folder_name : pystr;
  ra_jpg_filename : pystr;
  ra_png_filename : pystr;
  ra_pdf_filename : pystr;
  ra_image_dimensions : Z * Z;
  ra_config : config;
  ra_product_link : pystr;
  ra_image_url : option pystr;
  ra_subject : option pystr;
  ra_now : Z * Z
}.

Section FolderProcessor.

Context {R : Runtime}.

(** The texts produced by [generate_press_release_html] and
    [generate_email_html] (an error text when they raise).  The properties
    below do not depend on what the HTML contains. *)
Variable render_web : render_args -> pystr + pystr.
Variable render_email : render_args -> pystr + pystr.

(** One iteration of the loop of [find_files]. *)
Definition find_step (w : world) (folder_path : pystr) (files : found_files)
    (filename : pystr) : found_files :=
  let filepath := Path.join folder_path filename in
  if negb (w_isfile w filepath) then files
  else
    let lower := lower filename in
    if Py.endswith (py ".docx") lower
       && negb (Py.contains (py "instruction") lower)
    then
      if is_none (f_docx files) || Py.contains (py "publicrelations") lower
      then {| f_docx := Some filepath; f_png := f_png files;
              f_pdf := f_pdf files; f_folder_name := f_folder_name files |}
      else files
    else if Py.endswith (py ".png") lower
    then {| f_docx := f_docx files; f_png := Some filepath;
            f_pdf := f_pdf files; f_folder_name := f_folder_name files |}
    else if Py.endswith (py ".pdf") lower
    then
      if negb (Py.contains (py "instruction") lower)
         && negb (Py.contains (py "order") lower)
      then
        if is_none (f_pdf files) || Py.contains (py "publicrelations") lower
        then {| f_docx := f_docx files; f_png := f_png files;
                f_pdf := Some filepath;
                f_folder_name := f_folder_name files |}
        else files
      else files
    else files.

Definition find_files (w : world) (folder_path : pystr) : found_files :=
  fold_left (find_step w folder_path) (w_listdir w folder_path)
    {| f_docx := None; f_png := None; f_pdf := None;
       f_folder_name := Path.basename folder_path |}.

(** The list [missing] built from the three tests. *)
Definition missing_kinds (files : found_files) : list pystr :=
  (if not_found (f_docx files) then [py "Word document (.docx)"] else [])
  ++ (if not_found (f_png files) then [py "PNG image (.png)"] else [])
  ++ (if not_found (f_pdf files) then [py "PDF file (.pdf)"] else []).

Definition failed (name : option pystr) (error : pystr) : process_result :=
  {| success := false; folder_name := name; files_to_upload := [];
     preview_urls := []; errors := [error]; month_folder := None |}.

Definition path_of (o : option pystr) : pystr :=
  match o with Some path => path | None => [] end.

(** The steps of [process_press_release] after the required files were
    found. *)
Definition process_found (w : world) (folder_path name : pystr)
    (press_release_template email_template : pystr)
    (image_url subject : option pystr) (cfg : config) (files : found_files)
  : outcome :=
  let docx := path_of (f_docx files) in
  let png := path_of (f_png files) in
  let pdf := path_of (f_pdf files) in
  match w_document w docx with
  | inl e =>
      Returns (failed (Some name) (py "Failed to parse Word document: " ++ e)) []
  | inr paragraphs =>
      let content := parse_docx paragraphs in
      let png_basename := Path.splitext_root (Path.basename png) in
      let jpg_path := Path.join folder_path (png_basename ++ py ".jpg") in
      let img_result :=
        convert_png_to_jpg (w_image w png) (w_codec w) jpg_path
          (output_width cfg) (jpeg_quality cfg) in
      match cr_success img_result, cr_dimensions img_result with
      | true, Some image_dimensions =>
          let written_jpg := [WriteJpeg jpg_path image_dimensions] in
          let jpg_filename := Path.basename jpg_path in
          let png_filename := Path.basename png in
          let pdf_filename := Path.basename pdf in
          let html_filename := name ++ py ".html" in
          let email_filename := name ++ py "_email.html" in
          let args now :=
            {| ra_template := press_release_template;
               ra_content := content; ra_folder_name := name;
               ra_jpg_filename := jpg_filename;
               ra_png_filename := png_filename;
               ra_pdf_filename := pdf_filename;
               ra_image_dimensions := image_dimensions;
               ra_config := cfg;
               ra_product_link := product_link content;
               ra_image_url := image_url; ra_subject := None;
               ra_now := now |} in
          let email_args now :=
            {| ra_template := email_template;
               ra_content := content; ra_folder_name := name;
               ra_jpg_filename := jpg_filename;
               ra_png_filename := png_filename;
               ra_pdf_filename := pdf_filename;
               ra_image_dimensions := image_dimensions;
               ra_config := cfg;
               ra_product_link := product_link content;
               ra_image_url := image_url; ra_subject := subject;
               ra_now := now |} in
          let html_failed e writes :=
            Returns (failed (Some name) (py "Failed to generate HTML: " ++ e))
                    writes in
          match render_web (args (w_now w 0%nat)) with
          | inl e => html_failed e written_jpg
          | inr press_release_html =>
              let html_path := Path.join folder_path html_filename in
              match w_write_error w html_path with
              | Some e => html_failed e written_jpg
              | None =>
                  let written_html :=
                    written_jpg ++ [WriteText html_path press_release_html] in
                  match render_email (email_args (w_now w 1%nat)) with
                  | inl e => html_failed e written_html
                  | inr email_html =>
                      let email_path := Path.join folder_path email_filename in
                      match w_write_error w email_path with
                      | Some e => html_failed e written_html
                      | None =>
                          let written :=
                            written_html ++ [WriteText email_path email_html] in
                          let month :=
                            generate_month_folder (w_now w 2%nat)
                              (Some (date content)) in
                          match format_path (base_url cfg)
                                  (Py.replace (py " ") (py "%20") month)
                                  (Py.replace (py " ") (py "%20") name) with
                          | None => Raises written
                          | Some url =>
                              Returns
                                {| success := true;
                                   folder_name := Some name;
                                   files_to_upload :=
                                     [(html_path, html_filename);
                                      (email_path, email_filename);
                                      (jpg_path, jpg_filename);
                                      (png, png_filename);
                                      (pdf, pdf_filename)];
                                   preview_urls :=
                                     [(py "html", url ++ html_filename);
                                      (py "email", url ++ email_filename)];
                                   errors := [];
                                   month_folder := Some month |}
                                written
                          end
                      end
                  end
              end
          end
      | _, _ =>
          let e := match cr_error img_result with
                   | Some e => e
                   | None => py "None"
                   end in
          Returns (failed (Some name) (py "Failed to process image: " ++ e)) []
      end
  end.

(** [process_press_release]; [cfg] is [None] when no config is passed. *)
Definition process_press_release (w : world) (folder_path : pystr)
    (press_release_template email_template : pystr)
    (image_url subject : option pystr) (cfg : option config) : outcome :=
  let cfg := match cfg with Some c => c | None => DEFAULT_CONFIG end in
  if negb (w_isdir w folder_path)
  then Returns (failed None (py "Folder not found: " ++ folder_path)) []
  else
    let name := Path.basename folder_path in
    let files := find_files w folder_path in
    let missing := missing_kinds files in
    if nonempty missing
    then Returns (failed (Some name)
                    (py "Missing files: " ++ Py.join (py ", ") missing)) []
    else process_found w folder_path name press_release_template
           email_template image_url subject cfg files.

End FolderProcessor.

(** A runtime for running the model on ASCII text: ASCII digits and
    letters, and the two fields of the URL template filled in place. *)
Definition ascii_runtime : Runtime :=
  {| isdecimal := fun c => ((48 <=? c) && (c <=? 57))%N;
     lower := List.map ascii_lower_char;
     format_path := fun template month_folder folder_name =>
       Some (Py.replace (py "{folder_name}") folder_name
               (Py.replace (py "{month_folder}") month_folder template)) |}.

(* ================================================================== *)
(** * Notions used to state the properties *)
(* ================================================================== *)

(** A paragraph with a style and a text, without runs or hyperlinks. *)
Definition styled (style text : String.string) : paragraph :=
  {| para_text := Py.lit text; para_style := Some (Py.lit style);
     para_runs := []; para_links := []; para_rels := [] |}.

(** The text the loop works on. *)
Definition text_of (para : paragraph) : pystr := Py.strip (para_text para).

(** The paragraph is not skipped: its text is neither empty nor a closing
    marker. *)
Definition considered (para : paragraph) : bool :=
  Py.truthy (text_of para)
  && negb (Py.eqb (text_of para) marker_en_dash
           || Py.eqb (text_of para) marker_hyphen).

(** A considered paragraph styled [Title] whose text does not contain
    the announcement banner. *)
Definition replaces_headline (para : paragraph) : bool :=
  considered para
  && Py.eqb (style_name_of para) (py "Title")
  && negb (Py.contains (py "New Product Announcement") (text_of para)).

(** The test that guards the transition to [trademarks]. *)
Definition trademarks_rule (para : paragraph) : bool :=
  Py.contains (py "Trademarks") (text_of para)
  && (Py.eqb (style_name_of para) (py "Heading 1")
      || Py.startswith (py "Trademarks") (text_of para)).

Section Notions.

Context {R : Runtime}.

(** The paragraph gets as far as the section block: it is considered and
    neither of the headline tests nor the subheadline block takes it. *)
Definition reaches_section_step (st : parse_state) (para : paragraph) : bool :=
  considered para
  && negb (Py.eqb (style_name_of para) (py "Title")
           || (Py.eqb (style_name_of para) (py "Title2")
               && negb (Py.truthy (headline st))))
  && negb (negb (Py.truthy (headline st))
           && (Py.eqb (style_name_of para) (py "Title")
               || Py.eqb (style_name_of para) (py "Heading 1"))
           && (Py.len (text_of para) >? 20))
  && negb (captures_subheadline st para (text_of para) (style_name_of para)).

End Notions.

(** The moves of the section state that the loop can make. *)
Definition section_move (s s' : section) : Prop :=
  s' = s
  \/ (s = body /\ s' = about)
  \/ (s = body /\ s' = trademarks)
  \/ (s = about /\ s' = trademarks)
  \/ (s = trademarks /\ s' = about).

(** ** Notions for the paragraph renderer *)

(** The character range a candidate would link. *)
Definition range_of (c : candidate) : Z * Z := (c_pos c, c_pos c + c_len c).

(** Two ranges share no character. *)
Definition disjoint (r1 r2 : Z * Z) : Prop :=
  snd r1 <= fst r2 \/ snd r2 <= fst r1.

(** The candidates that the second loop accepts, in the order in which it
    meets them, given the ranges linked so far. *)
Fixpoint select (linked_ranges : list (Z * Z)) (cs : list candidate)
  : list candidate :=
  match cs with
  | [] => []
  | c :: cs' =>
      if overlaps (c_pos c) (c_len c) linked_ranges
      then select linked_ranges cs'
      else c :: select (linked_ranges ++ [range_of c]) cs'
  end.

Definition selected (text : pystr) (hyperlinks : Dict.t pystr)
  : list candidate :=
  select [] (sort_by_key (link_positions_of text hyperlinks)).

(** The original text with every range of [sel] replaced by its anchor:
    [sel] lists the ranges from the highest to the lowest, [bound] is the
    offset up to which the text is still to be copied, and [suffix] is what
    has been built to the right of it. *)
Fixpoint spliced (text : pystr) (sel : list candidate) (bound : Z)
    (suffix : pystr) : pystr :=
  match sel with
  | [] => Py.slice_to text bound ++ suffix
  | c :: sel' =>
      spliced text sel' (c_pos c)
        (link_html (c_text c) (c_url c)
         ++ Py.slice_from (Py.slice_to text bound) (c_pos c + c_len c)
         ++ suffix)
  end.

(** The part of a URL before its first question mark. *)
Fixpoint before_question (u : pystr) : pystr :=
  match u with
  | [] => []
  | c :: u' => if N.eqb c 63%N then [] else c :: before_question u'
  end.

(** The order that the sort puts on candidates. *)
Definition key_le (a b : candidate) : Prop :=
  key_ltb (sort_key b) (sort_key a) = false.

(** What the first loop guarantees of a candidate: it is an occurrence of
    a link text of the map inside the text. *)
Definition occurs_in (text : pystr) (hyperlinks : Dict.t pystr)
    (c : candidate) : Prop :=
  0 <= c_pos c /\
  c_len c = Py.len (c_text c) /\
  c_pos c + c_len c <= Py.len text /\
  Py.slice_from (Py.slice_to text (c_pos c + c_len c)) (c_pos c) = c_text c /\
  In (c_text c, c_url c) hyperlinks.

(** Ranges listed from the highest to the lowest, each ending where the
    one before starts or earlier, all below [bound]. *)
Inductive chain : Z -> list candidate -> Prop :=
| chain_nil : forall bound, chain bound []
| chain_cons : forall bound c sel,
    0 <= c_pos c -> 0 <= c_len c -> c_pos c + c_len c <= bound ->
    chain (c_pos c) sel ->
    chain bound (c :: sel).

(** One splice of the second loop on the working text alone. *)
Definition splice_text (result_text : pystr) (c : candidate) : pystr :=
  Py.slice_to result_text (c_pos c)
  ++ link_html (c_text c) (c_url c)
  ++ Py.slice_from result_text (c_pos c + c_len c).

(** Number of places at which [sub] occurs in [s]. *)
Fixpoint count_occurrences (sub s : pystr) : nat :=
  (if Py.startswith sub s then 1 else 0)
  + match s with
    | [] => 0
    | _ :: s' => count_occurrences sub s'
    end.

(** The paragraph of the example: two hyperlinks with the same text. *)
Definition twice_linked : paragraph :=
  {| para_text := py "See ABC and ABC again";
     para_style := None;
     para_runs := [];
     para_links :=
       [ {| r_id := Some (py "rId1"); text_nodes := [Some (py "ABC")] |};
         {| r_id := Some (py "rId2"); text_nodes := [Some (py "ABC")] |} ];
     para_rels :=
       [ (py "rId1", py "https://www.mouser.com/new/abc?utm_source=x");
         (py "rId2", py "https://www.example.org/abc?ref=pr") ] |}.

(** ** Notions for the image normaliser and the folder processor *)

(** An image of the given size, and a codec that never fails. *)
Definition rgba_image (w h : Z) : image :=
  {| img_width := w; img_height := h; img_mode := py "RGBA" |}.

Definition codec_ok : image -> Z -> Z -> Z -> option pystr :=
  fun _ _ _ _ => None.

(** The height reported for a [w] by [h] image at the default width, when
    the codec does not fail. *)
Definition reported_height (w h : Z) : option Z :=
  match cr_dimensions
          (convert_png_to_jpg (inr (rgba_image w h)) codec_ok
             (py "out.jpg") 336 95) with
  | Some (_, height) => Some height
  | None => None
  end.

(** The integers from [lo] on, [n] of them. *)
Fixpoint Zseq (lo : Z) (n : nat) : list Z :=
  match n with
  | O => []
  | S n' => lo :: Zseq (lo + 1) n'
  end.

(** An entry of [files] that is set holds a path. *)
Definition holds_path (o : option pystr) : Prop :=
  forall path, o = Some path -> Py.truthy path = true.

Section FolderNotions.

Context {R : Runtime}.

(** A regular file of the folder that [find_files] can take as the Word
    document, as the image, as the PDF. *)
Definition docx_candidate (w : world) (folder_path filename : pystr) : bool :=
  w_isfile w (Path.join folder_path filename)
  && Py.endswith (py ".docx") (lower filename)
  && negb (Py.contains (py "instruction") (lower filename)).

Definition png_candidate (w : world) (folder_path filename : pystr) : bool :=
  w_isfile w (Path.join folder_path filename)
  && Py.endswith (py ".png") (lower filename).

Definition pdf_candidate (w : world) (folder_path filename : pystr) : bool :=
  w_isfile w (Path.join folder_path filename)
  && Py.endswith (py ".pdf") (lower filename)
  && negb (Py.contains (py "instruction") (lower filename))
  && negb (Py.contains (py "order") (lower filename)).

(** The folder holds no file of a kind. *)
Definition absent (candidate : world -> pystr -> pystr -> bool)
    (w : world) (folder_path : pystr) : bool :=
  forallb (fun filename => negb (candidate w folder_path filename))
          (w_listdir w folder_path).

(** The names of the kinds that the folder does not hold, in the order
    docx, png, pdf. *)
Definition absent_kinds (w : world) (folder_path : pystr) : list pystr :=
  (if absent docx_candidate w folder_path
   then [py "Word document (.docx)"] else [])
  ++ (if absent png_candidate w folder_path
      then [py "PNG image (.png)"] else [])
  ++ (if absent pdf_candidate w folder_path
      then [py "PDF file (.pdf)"] else []).

End FolderNotions.

(** A folder with a Word document and an image, and no PDF. *)
Definition folder_without_pdf : world :=
  {| w_isdir := fun path => Py.eqb path (py "/tmp/Widget Launch");
     w_listdir := fun _ => [py "report.docx"; py "photo.png"];
     w_isfile := fun _ => true;
     w_document := fun _ => inr [];
     w_image := fun _ => inr (rgba_image 800 600);
     w_codec := codec_ok;
     w_write_error := fun _ => None;
     w_now := fun _ => (2026, 1) |}.

(** Renderers that give the template back. *)
Definition echo_renderer (args : render_args) : pystr + pystr :=
  inr (ra_template args).

(** ** Notions for the further properties of the extractor *)

(** [l1] is [l2] with some elements left out, the order kept. *)
Inductive subseq {A} : list A -> list A -> Prop :=
| subseq_nil : subseq [] []
| subseq_skip : forall x l1 l2, subseq l1 l2 -> subseq l1 (x :: l2)
| subseq_take : forall x l1 l2, subseq l1 l2 -> subseq (x :: l1) (x :: l2).

(** The paragraph has one of the three styles that the headline tests
    look at. *)
Definition headline_style (para : paragraph) : bool :=
  Py.eqb (style_name_of para) (py "Title")
  || Py.eqb (style_name_of para) (py "Title2")
  || Py.eqb (style_name_of para) (py "Heading 1").

(** A matcher hands to what follows a text that is not longer than its
    own. *)
Definition passes_on {A} (f : (pystr -> option A) -> pystr -> option A)
  : Prop :=
  forall k s r, f k s = Some r ->
                exists s', (length s' <= length s)%nat /\ k s' = Some r.

Section ExtractorNotions.

Context {R : Runtime}.

(** The date prefix of the first fragment that has one; the empty string
    when none has. *)
Fixpoint first_date (fragments : list pystr) : pystr :=
  match fragments with
  | [] => []
  | html :: rest =>
      match match_date html with
      | Some d => d
      | None => first_date rest
      end
  end.

(** The section dict and the open section agree: the open title is a
    non-empty key of the dict, and in state [about] a title is open. *)
Definition about_consistent (st : parse_state) : Prop :=
  (forall title, current_about_title st = Some title ->
                 Py.truthy title = true /\
                 exists content,
                   Dict.get (about_sections st) title = Some content) /\
  (current_section st = about -> current_about_title st <> None) /\
  Forall (fun k => Py.startswith (py "About ") k = true)
         (Dict.keys (about_sections st)) /\
  NoDup (Dict.keys (about_sections st)).

End ExtractorNotions.

(** ** Notions for the hyperlink extractor and the file search *)

(** The hyperlink element gives the map an entry with this URL: it has a
    relationship id, the relationship has a target, and the element has
    a text. *)
Definition resolves (rels : Dict.t pystr) (h : hyperlink) (url : pystr)
  : Prop :=
  exists rid,
    r_id h = Some rid /\ Py.truthy rid = true /\
    Dict.get rels rid = Some url /\ Py.truthy url = true /\
    Py.truthy (link_text_of h) = true.

(** The first and the last element of a list that pass a test. *)
Definition first_such {A} (test : A -> bool) (l : list A) : option A :=
  find test l.

Definition last_such {A} (test : A -> bool) (l : list A) : option A :=
  find test (rev l).

Section SearchNotions.

Context {R : Runtime}.

Definition prefers (filename : pystr) : bool :=
  Py.contains (py "publicrelations") (lower filename).

(** The file that [find_files] keeps among the candidates of a kind for
    which a name with "publicrelations" is preferred: the last preferred
    candidate, and without one the first candidate. *)
Definition preferred_choice (candidate : pystr -> bool)
    (names : list pystr) : option pystr :=
  match last_such (fun n => candidate n && prefers n) names with
  | Some n => Some n
  | None => first_such candidate names
  end.

End SearchNotions.

(** ** Notions for the outcomes of the folder processor *)

Definition write_path (wr : file_write) : pystr :=
  match wr with
  | WriteJpeg path _ => path
  | WriteText path _ => path
  end.

Definition writes_of (out : outcome) : list file_write :=
  match out with
  | Returns _ writes => writes
  | Raises writes => writes
  end.

(** A folder with the three kinds of file, holding an 800 by 600 image
    and a document of three paragraphs. *)
Definition complete_folder : world :=
  {| w_isdir := fun path => Py.eqb path (py "/tmp/Widget Launch");
     w_listdir := fun _ => [py "report.docx"; py "photo.png"; py "spec.pdf"];
     w_isfile := fun _ => true;
     w_document := fun _ =>
       inr [styled "Title" "Widget Launch";
            styled "Normal" "January 19, 2026 - A new widget.";
            styled "Normal" "About Mouser"];
     w_image := fun _ => inr (rgba_image 800 600);
     w_codec := codec_ok;
     w_write_error := fun _ => None;
     w_now := fun _ => (2026, 2) |}.

(* ================================================================== *)
(** * The description derived after the loop *)
(* ================================================================== *)

(** The text after the first [>] of a text, if there is one. *)
Fixpoint after_close (s : pystr) : option pystr :=
  match s with
  | [] => None
  | c :: s' => if N.eqb c 62%N then Some s' else after_close s'
  end.

(** What follows a [<]: when [[^>]+>] matches there, the text after the
    match. *)
Definition tag_end (s : pystr) : option pystr :=
  match s with
  | x :: _ => if N.eqb x 62%N then None else after_close s
  | [] => None
  end.

(** [re.sub(r'<[^>]+>', '', s)]: the text is scanned from the left; where
    a tag starts it is left out and the scan goes on after it.  [fuel]
    bounds the number of characters still to scan. *)
Fixpoint strip_tags_fuel (fuel : nat) (s : pystr) : pystr :=
  match fuel with
  | O => s
  | S fuel' =>
      match s with
      | [] => []
      | c :: s' =>
          if N.eqb c 60%N then
            match tag_end s' with
            | Some rest => strip_tags_fuel fuel' rest
            | None => c :: strip_tags_fuel fuel' s'
            end
          else c :: strip_tags_fuel fuel' s'
      end
  end.

Definition strip_tags (s : pystr) : pystr := strip_tags_fuel (length s) s.

(** [s.rsplit(' ', 1)[0]]: the text before the last blank, the whole
    text when it has no blank. *)
Definition before_last_space (s : pystr) : pystr :=
  let i := Path.rfind 32%N s in
  if i <? 0 then s else Py.slice_to s i.

(** [result['meta_description']] as the lines after the loop set it from
    [result['body_paragraphs']]. *)
Definition meta_description (body : list pystr) : pystr :=
  match body with
  | [] => []
  | first_para :: _ =>
      let clean_text := strip_tags first_para in
      if Py.len clean_text >? 160
      then before_last_space (Py.slice_to clean_text 160) ++ py "..."
      else clean_text
  end.

(** A paragraph with one hyperlink. *)
Definition linked_once : paragraph :=
  {| para_text := py "Visit Mouser today";
     para_style := None;
     para_runs := [];
     para_links :=
       [ {| r_id := Some (py "rId7"); text_nodes := [Some (py "Mouser")] |} ];
     para_rels := [ (py "rId7", py "https://www.mouser.com/new/?utm=1") ] |}.

(* ================================================================== *)
(** * The ticket parser ([lib/jira_parser.py]) *)
(* ================================================================== *)

Module Jira.

(** A literal character of a pattern against a character of the text
    under [re.IGNORECASE]: the two have the same lower case; besides, [i]
    matches the dotted capital and the dotless small i, [s] the long s
    and [k] the Kelvin sign. *)
Definition ci_match (p c : Py.char) : bool :=
  let lp := ascii_lower_char p in
  N.eqb (ascii_lower_char c) lp
  || (N.eqb lp 105%N && (N.eqb c 304%N || N.eqb c 305%N))
  || (N.eqb lp 115%N && N.eqb c 383%N)
  || (N.eqb lp 107%N && N.eqb c 8490%N).

(** The literal at the start of the text: the text after it. *)
Fixpoint ci_prefix (label s : pystr) : option pystr :=
  match label with
  | [] => Some s
  | p :: label' =>
      match s with
      | c :: s' => if ci_match p c then ci_prefix label' s' else None
      | [] => None
      end
  end.

(** [(.+?)(?:\n|$)] at the start of the text: group 1.  The group takes
    one character that is no newline, and then as few more as it needs
    to stand before a newline or at the end. *)
Fixpoint lazy_line (s : pystr) : option pystr :=
  match s with
  | [] => None
  | c :: s' =>
      if N.eqb c 10%N then None
      else match s' with
           | [] => Some [c]
           | x :: _ =>
               if N.eqb x 10%N then Some [c]
               else match lazy_line s' with
                    | Some g => Some (c :: g)
                    | None => None
                    end
           end
  end.

(** The pattern [label\s*(.+?)(?:\n|$)] at the start of the text. *)
Definition match_field (label s : pystr) : option pystr :=
  match ci_prefix label s with
  | Some rest => re_space_star lazy_line rest
  | None => None
  end.

(** [re.search] of the pattern: the match at the first offset that has
    one; its group 1. *)
Fixpoint search_field (label s : pystr) : option pystr :=
  match match_field label s with
  | Some g => Some g
  | None =>
      match s with
      | [] => None
      | _ :: s' => search_field label s'
      end
  end.

(** The dict that [parse_jira_ticket] returns. *)
Record ticket := {
  folder_path : option pystr;
  image_url : option pystr;
  subject : option pystr;
  raw_description : pystr
}.

Definition field (label description : pystr) : option pystr :=
  match search_field label description with
  | Some g => Some (Py.strip g)
  | None => None
  end.

Definition parse_jira_ticket (description : pystr) : ticket :=
  {| folder_path := field (py "FILES ON SERVER:") description;
     image_url := field (py "LINK EMBEDDED IMAGE TO:") description;
     subject := field (py "EMAIL SUBJECT LINE:") description;
     raw_description := description |}.

(** [validate_parsed_data]: the flag and the list of missing fields. *)
Definition validate_parsed_data (data : ticket) : bool * list pystr :=
  let missing :=
    (if not_found (folder_path data)
     then [py "FILES ON SERVER (folder path)"] else [])
    ++ (if not_found (image_url data)
        then [py "LINK EMBEDDED IMAGE TO (tracking URL)"] else [])
    ++ (if not_found (subject data)
        then [py "EMAIL SUBJECT LINE"] else []) in
  (match missing with [] => true | _ :: _ => false end, missing).

(** The label does not match at any offset inside [pre] of the text
    [pre ++ tail]. *)
Fixpoint label_free (label pre tail : pystr) : bool :=
  match pre with
  | [] => true
  | _ :: pre' =>
      match ci_prefix label (pre ++ tail) with
      | Some _ => false
      | None => label_free label pre' tail
      end
  end.

End Jira.

(* ================================================================== *)
(** * FTP upload *)
(* ================================================================== *)

Module Ftp.

(** What [upload_to_ftp] asks of the FTP connection and of the local
    file system, in the order of the calls. *)
Inductive command :=
| Connect (host : pystr) (port : Z)
| Login (username password : option pystr)
| Cwd (path : pystr)
| Mkd (path : pystr)
| OpenLocal (path : pystr)
| Stor (path : pystr)
| Quit.

(** The answer to a command after the commands before it: [None] when
    the call returns, the text of the exception when it raises. *)
Definition server := list command -> command -> option pystr.

Record ftp_config := {
  host : pystr;
  port : Z;
  username : option pystr;
  password : option pystr;
  base_remote_path : pystr
}.

(** An entry of [files]: [local_path], and [remote_filename] when the
    key is there. *)
Record file_info := {
  local_path : pystr;
  remote_filename : option pystr
}.

(** The result dict. *)
Record upload_result := {
  success : bool;
  error : option pystr;
  uploaded : Z
}.

(** The state that the body of the [try] threads: the commands issued so
    far and the counter [result['uploaded']]. *)
Record session := {
  trace : list command;
  count : Z
}.

(** A step of the body: it ends in a new state, normally or with the
    text of an exception. *)
Definition action := session -> session * option pystr.

Definition call (srv : server) (cmd : command) : action :=
  fun st =>
    ({| trace := trace st ++ [cmd]; count := count st |},
     srv (trace st) cmd).

Definition then_ (a b : action) : action :=
  fun st =>
    match a st with
    | (st', None) => b st'
    | (st', Some e) => (st', Some e)
    end.

(** [try: a  except: b] *)
Definition or_else (a b : action) : action :=
  fun st =>
    match a st with
    | (st', None) => (st', None)
    | (st', Some _) => b st'
    end.

Definition skip : action := fun st => (st, None).

Definition count_one : action :=
  fun st => ({| trace := trace st; count := count st + 1 |}, None).

(** [s.strip('/')] *)
Fixpoint lstrip_sep (s : pystr) : pystr :=
  match s with
  | c :: s' => if N.eqb c Path.sep then lstrip_sep s' else s
  | [] => []
  end.

Definition strip_sep (s : pystr) : pystr :=
  rev (lstrip_sep (rev (lstrip_sep s))).

(** The loop over [dirs]: enter each directory on the way, and make the
    one that cannot be entered. *)
Fixpoint make_dirs (srv : server) (current : pystr) (dirs : list pystr)
  : action :=
  match dirs with
  | [] => skip
  | d :: rest =>
      let current := current ++ [Path.sep] ++ d in
      then_ (or_else (call srv (Cwd current)) (call srv (Mkd current)))
            (make_dirs srv current rest)
  end.

(** The remote name of a file. *)
Definition remote_name (f : file_info) : pystr :=
  match remote_filename f with
  | Some name => name
  | None => Path.basename (local_path f)
  end.

(** The loop over [files]. *)
Fixpoint store_files (srv : server) (remote_path : pystr)
    (files : list file_info) : action :=
  match files with
  | [] => skip
  | f :: rest =>
      then_ (call srv (OpenLocal (local_path f)))
        (then_ (call srv (Stor (remote_path ++ remote_name f)))
           (then_ count_one (store_files srv remote_path rest)))
  end.

Section Upload.

Context {R : Runtime}.

(** [upload_to_ftp]: the result and the commands issued; [None] when the
    formatting of the remote path raises, before the [try]. *)
Definition upload_to_ftp (srv : server) (files : list file_info)
    (cfg : ftp_config) (folder_name month_folder : pystr)
  : option (upload_result * list command) :=
  match format_path (base_remote_path cfg) month_folder folder_name with
  | None => None
  | Some remote_path =>
      let body :=
        then_ (call srv (Connect (host cfg) (port cfg)))
          (then_ (call srv (Login (username cfg) (password cfg)))
             (then_ (make_dirs srv [] (Py.split Path.sep
                                         (strip_sep remote_path)))
                (then_ (call srv (Cwd [Path.sep]))
                   (then_ (store_files srv remote_path files)
                      (call srv Quit))))) in
      match body {| trace := []; count := 0 |} with
      | (st, None) =>
          Some ({| success := true; error := None; uploaded := count st |},
                trace st)
      | (st, Some e) =>
          Some ({| success := false; error := Some e;
                   uploaded := count st |},
                trace st)
      end
  end.

End Upload.

(** The paths of the [STOR] commands of a trace, in order. *)
Fixpoint stored (t : list command) : list pystr :=
  match t with
  | [] => []
  | Stor path :: t' => path :: stored t'
  | _ :: t' => stored t'
  end.

(** A server on which every call returns. *)
Definition willing : server := fun _ _ => None.

End Ftp.

(* ================================================================== *)
(** * The folder search of the file store ([lib/dropbox_client.py]) *)
(* ================================================================== *)

Module Dropbox.

(** An entry of a folder listing as the search reads it: the value of
    [entry.get('.tag')], and the strings under ['name'] and
    ['path_display'] ([None] when reading the key raises). *)
Record entry := {
  tag : option pystr;
  name : option pystr;
  path_display : option pystr
}.

(** What the file store answers to a listing request for a path: the
    entries, or [None] when the request raises. *)
Definition store := pystr -> option (list entry).

(** [list_folder]: the path is given a leading slash. *)
Definition list_folder (s : store) (path : pystr) : option (list entry) :=
  s (if Py.startswith [Path.sep] path then path else Path.sep :: path).

Definition is_folder (e : entry) : bool :=
  match tag e with
  | Some t => Py.eqb t (py "folder")
  | None => false
  end.

(** How a loop over entries ends: it returns a path, an exception leaves
    it, or it runs to its end. *)
Inductive scan_result :=
| Found (path : pystr)
| Raised
| NotFound.

(** The loop that looks for a folder whose name holds [folder_name]. *)
Fixpoint scan (folder_name : pystr) (entries : list entry) : scan_result :=
  match entries with
  | [] => NotFound
  | e :: rest =>
      if is_folder e then
        match name e with
        | None => Raised
        | Some n =>
            if Py.contains folder_name n then
              match path_display e with
              | Some p => Found p
              | None => Raised
              end
            else scan folder_name rest
        end
      else scan folder_name rest
  end.

(** The second loop: the folders of the listing are searched one after
    the other; a folder whose search raises is passed over. *)
Fixpoint scan_subfolders (s : store) (folder_name : pystr)
    (entries : list entry) : option pystr :=
  match entries with
  | [] => None
  | e :: rest =>
      if is_folder e then
        match path_display e with
        | None => scan_subfolders s folder_name rest
        | Some p =>
            match list_folder s p with
            | None => scan_subfolders s folder_name rest
            | Some sub_entries =>
                match scan folder_name sub_entries with
                | Found q => Some q
                | Raised | NotFound => scan_subfolders s folder_name rest
                end
            end
        end
      else scan_subfolders s folder_name rest
  end.

(** [find_folder_by_name] *)
Definition find_folder_by_name (s : store) (folder_name search_path : pystr)
  : option pystr :=
  match list_folder s search_path with
  | None => None
  | Some entries =>
      match scan folder_name entries with
      | Found p => Some p
      | Raised => None
      | NotFound => scan_subfolders s folder_name entries
      end
  end.

(** The entry is a folder with this path whose name holds
    [folder_name]. *)
Definition matches (folder_name : pystr) (e : entry) (p : pystr) : Prop :=
  is_folder e = true /\ path_display e = Some p /\
  exists n, name e = Some n /\ Py.contains folder_name n = true.

(** The entry cannot end the first loop: it is no folder, or a folder
    with a name that does not hold [folder_name]. *)
Definition passed_over (folder_name : pystr) (e : entry) : bool :=
  negb (is_folder e)
  || match name e with
     | Some n => negb (Py.contains folder_name n)
     | None => false
     end.

(** A store with a month folder that holds the folder looked for. *)
Definition month_store : store :=
  fun path =>
    if Py.eqb path (py "/Mouser") then
      Some [ {| tag := Some (py "folder"); name := Some (py "2026-01");
                path_display := Some (py "/Mouser/2026-01") |} ]
    else if Py.eqb path (py "/Mouser/2026-01") then
      Some [ {| tag := Some (py "file"); name := Some (py "notes.txt");
                path_display := Some (py "/Mouser/2026-01/notes.txt") |};
             {| tag := Some (py "folder"); name := Some (py "Widget Launch");
                path_display := Some (py "/Mouser/2026-01/Widget Launch") |} ]
    else None.

End Dropbox.

(* ================================================================== *)
(** * The HTML renderers *)
(* ================================================================== *)

Definition newline : pystr := [10%N].

(** [format_body_paragraphs] *)
Definition format_body_paragraphs (paragraphs : list pystr)
    (for_email : bool) : pystr :=
  if for_email then
    Py.join newline
      (map (fun p =>
              py "<p style=" ++ [Py.dquote]
              ++ py "font:14px Helvetica, Arial, sans-serif; line-height: 20px;"
              ++ [Py.dquote] ++ py ">" ++ p ++ py "</p>")
           paragraphs)
  else
    Py.join newline
      (map (fun p => py "                    <p>" ++ p ++ py "</p>")
           paragraphs).

(** The lines of one section in [format_about_sections]. *)
Definition about_lines (for_email : bool) (item : pystr * list pystr)
  : list pystr :=
  let '(title, paragraphs) := item in
  if for_email then
    (py "<h2 style=" ++ [Py.dquote]
     ++ py "font:16px Helvetica, Arial, sans-serif; line-height: 20px; font-weight: bold;"
     ++ [Py.dquote] ++ py "><u>" ++ title ++ py "</u></h2>")
    :: map (fun para =>
              py "<p style=" ++ [Py.dquote]
              ++ py "font:14px Helvetica, Arial, sans-serif; line-height: 20px;"
              ++ [Py.dquote] ++ py ">" ++ para ++ py "</p>")
           paragraphs
  else
    (py "                    <h1><u>" ++ title ++ py "</u></h1>")
    :: map (fun para => py "                    <p>" ++ para ++ py "</p>")
           paragraphs.

(** [format_about_sections] *)
Definition format_about_sections (about_sections : Dict.t (list pystr))
    (for_email : bool) : pystr :=
  match about_sections with
  | [] => []
  | _ :: _ => Py.join newline (flat_map (about_lines for_email) about_sections)
  end.

(** The loop over [replacements.items()]. *)
Definition substitute (template : pystr) (replacements : Dict.t pystr)
  : pystr :=
  fold_left (fun result item => Py.replace (fst item) (snd item) result)
            replacements template.

(** The replacements of the ten contact fields. *)
Definition contact_replacements (cfg : config) : Dict.t pystr :=
  [ (py "{{contact_marketing_name}}", c_name (marketing cfg));
    (py "{{contact_marketing_company}}", c_company (marketing cfg));
    (py "{{contact_marketing_title}}", c_title (marketing cfg));
    (py "{{contact_marketing_phone}}", c_phone (marketing cfg));
    (py "{{contact_marketing_email}}", c_email (marketing cfg));
    (py "{{contact_press_name}}", c_name (press cfg));
    (py "{{contact_press_company}}", c_company (press cfg));
    (py "{{contact_press_title}}", c_title (press cfg));
    (py "{{contact_press_phone}}", c_phone (press cfg));
    (py "{{contact_press_email}}", c_email (press cfg)) ].

Definition or_default (o : option pystr) (default : pystr) : pystr :=
  match o with
  | Some s => if Py.truthy s then s else default
  | None => default
  end.

Section Renderers.

Context {R : Runtime}.

(** [base_url]: the URL template of the configuration filled with the
    month folder and the folder name, blanks written [%20]; [None] when
    the formatting raises. *)
Definition base_url_of (args : render_args) : option pystr :=
  format_path (base_url (ra_config args))
    (Py.replace (py " ") (py "%20")
       (generate_month_folder (ra_now args)
          (Some (date (ra_content args)))))
    (Py.replace (py " ") (py "%20") (ra_folder_name args)).

(** The replacements of [generate_email_html]. *)
Definition email_replacements (args : render_args) (url : pystr)
  : Dict.t pystr :=
  let content := ra_content args in
  let product := if Py.truthy (ra_product_link args)
                 then ra_product_link args else product_link content in
  let paragraphs := body_paragraphs content in
  [ (py "{{title}}", ra_folder_name args);
    (py "{{subject}}", or_default (ra_subject args) (headline content));
    (py "{{web_version_url}}", url ++ ra_folder_name args ++ py ".html");
    (py "{{headline}}", headline content);
    (py "{{subheadline}}", subheadline content);
    (py "{{jpg_url}}",
     or_default (ra_image_url args) (url ++ ra_jpg_filename args));
    (py "{{png_url}}", url ++ ra_png_filename args);
    (py "{{pdf_url}}", url ++ ra_pdf_filename args);
    (py "{{product_link}}", product);
    (py "{{image_alt}}", headline content);
    (py "{{image_width}}", Py.str_of_Z (fst (ra_image_dimensions args)));
    (py "{{image_height}}", Py.str_of_Z (snd (ra_image_dimensions args)));
    (py "{{first_paragraph}}",
     match paragraphs with p :: _ => p | [] => [] end);
    (py "{{remaining_paragraphs}}",
     match paragraphs with
     | _ :: (_ :: _) as remaining => format_body_paragraphs remaining true
     | _ => []
     end);
    (py "{{about_sections_email}}",
     format_about_sections (about_sections content) true) ]
  ++ contact_replacements (ra_config args).

(** [generate_email_html] on the content that [parse_docx] returns. *)
Definition generate_email_html (args : render_args) : option pystr :=
  match base_url_of args with
  | None => None
  | Some url => Some (substitute (ra_template args)
                        (email_replacements args url))
  end.

End Renderers.

(** Every key of the replacements starts with two opening braces. *)
Definition placeholder_keys (replacements : Dict.t pystr) : Prop :=
  Forall (fun k => Py.startswith (py "{{") k = true)
         (Dict.keys replacements).

(** ** Sample inputs *)

(** A document with a headline, a subheadline and a product link. *)
Definition sample_document : list paragraph :=
  [styled "Title" "Widget Launch"; styled "Subtitle" "A new widget";
   linked_once].

(** A paragraph whose hyperlink text does not occur in its text. *)
Definition stale_link : paragraph :=
  {| para_text := py "No link here";
     para_style := None;
     para_runs := [];
     para_links :=
       [ {| r_id := Some (py "rId3"); text_nodes := [Some (py "Mouser")] |} ];
     para_rels := [ (py "rId3", py "https://www.mouser.com/") ] |}.

(** A ticket description with its three fields. *)
Definition sample_description : pystr :=
  py "Please publish." ++ [10%N]
  ++ py "Files on Server:   /Mouser/Widget Launch  " ++ [10%N]
  ++ py "LINK EMBEDDED IMAGE TO: https://t.example.org/a?b=1" ++ [10%N]
  ++ py "EMAIL SUBJECT LINE: New widget".

Definition sample_ftp_config : Ftp.ftp_config :=
  {| Ftp.host := py "ftp.example.org"; Ftp.port := 21;
     Ftp.username := Some (py "user"); Ftp.password := Some (py "secret");
     Ftp.base_remote_path := py "/Mouser/{month_folder}/{folder_name}/" |}.

Definition sample_files : list Ftp.file_info :=
  [ {| Ftp.local_path := py "/tmp/Widget Launch/Widget Launch.html";
       Ftp.remote_filename := Some (py "Widget Launch.html") |};
    {| Ftp.local_path := py "/tmp/Widget Launch/photo.jpg";
       Ftp.remote_filename := None |} ].

Definition sample_args : render_args :=
  {| ra_template := py "<html><body>Nothing to fill in</body></html>";
     ra_content := parse_docx (R := ascii_runtime) sample_document;
     ra_folder_name := py "Widget Launch";
     ra_jpg_filename := py "photo.jpg";
     ra_png_filename := py "photo.png";
     ra_pdf_filename := py "spec.pdf";
     ra_image_dimensions := (336, 252);
     ra_config := DEFAULT_CONFIG;
     ra_product_link := [];
     ra_image_url := None;
     ra_subject := None;
     ra_now := (2026, 2) |}.

(* ================================================================== *)
(** * Properties of the string operations *)
(* ================================================================== *)

Lemma eqb_refl (a : pystr) : Py.eqb a a = true.
Proof.
  induction a as [|x a IH]; simpl; [reflexivity|].
  now rewrite N.eqb_refl, IH.
Qed.

Lemma eqb_eq (a b : pystr) : Py.eqb a b = true <-> a = b.
Proof.
  split.
  - revert b; induction a as [|x a IH]; intros [|y b] H; simpl in H;
      try discriminate; [reflexivity|].
    apply andb_true_iff in H as [Hx Hab].
    apply N.eqb_eq in Hx. apply IH in Hab. now subst.
  - intros ->. apply eqb_refl.
Qed.

Lemma eqb_neq (a b : pystr) : Py.eqb a b = false <-> a <> b.
Proof.
  split.
  - intros H E. apply eqb_eq in E. congruence.
  - intro H. destruct (Py.eqb a b) eqn:E; [|reflexivity].
    apply eqb_eq in E. contradiction.
Qed.

Lemma startswith_app (p s : pystr) :
  Py.startswith p s = true <-> exists rest, s = p ++ rest.
Proof.
  split.
  - revert s; induction p as [|x p IH]; intros s H.
    + now exists s.
    + destruct s as [|y s]; simpl in H; [discriminate|].
      apply andb_true_iff in H as [Hx Hp].
      apply N.eqb_eq in Hx. destruct (IH _ Hp) as [rest ->].
      exists rest. now subst.
  - intros [rest ->]. induction p as [|x p IH]; simpl; [reflexivity|].
    now rewrite N.eqb_refl.
Qed.

(** [find] answers [-1] or an index at which the needle occurs. *)
Lemma find_from_spec (sub s : pystr) (i : Z) :
  Py.find_from sub s i = -1 \/
  exists n : nat,
    Py.find_from sub s i = i + Z.of_nat n /\
    (n + length sub <= length s)%nat /\
    firstn (length sub) (skipn n s) = sub.
Proof.
  revert i; induction s as [|x s IH]; intro i; simpl.
  - destruct (Py.startswith sub []) eqn:E; [|now left].
    right. exists 0%nat. apply startswith_app in E as [rest E].
    symmetry in E. apply app_eq_nil in E as [-> _]. simpl.
    repeat split; [lia | lia].
  - destruct (Py.startswith sub (x :: s)) eqn:E.
    + right. exists 0%nat. apply startswith_app in E as [rest E].
      assert (Hlen : length (x :: s) = length (sub ++ rest))
        by now rewrite E.
      rewrite length_app in Hlen. simpl in Hlen.
      split; [lia|]. split; [lia|].
      simpl skipn. rewrite E, firstn_app, firstn_all, Nat.sub_diag. simpl.
      apply app_nil_r.
    + destruct (IH (i + 1)) as [H | (n & Hn & Hlen & Hsub)]; [now left|].
      right. exists (S n). simpl. repeat split; [lia | lia | exact Hsub].
Qed.

Lemma find_from_char (c : Py.char) (s : pystr) (i : Z) :
  0 <= i -> (0 <=? Py.find_from [c] s i) = Py.has_char c s.
Proof.
  revert i; induction s as [|x s IH]; intros i Hi; simpl.
  - reflexivity.
  - rewrite ?andb_true_r. destruct (N.eqb c x); simpl.
    + apply Z.leb_le. exact Hi.
    + apply IH. lia.
Qed.

Lemma contains_char (c : Py.char) (s : pystr) :
  Py.contains [c] s = Py.has_char c s.
Proof. unfold Py.contains, Py.find. apply find_from_char. lia. Qed.

(* ================================================================== *)
(** * Properties of [clean_url] *)
(* ================================================================== *)

Lemma split_hd_no_sep (c : Py.char) (s : pystr) :
  Py.has_char c (hd [] (Py.split c s)) = false.
Proof.
  induction s as [|x s IH]; simpl; [reflexivity|].
  destruct (N.eqb x c) eqn:E; simpl; [reflexivity|].
  destruct (Py.split c s) as [|piece rest]; simpl in *.
  - rewrite N.eqb_sym, E. reflexivity.
  - rewrite N.eqb_sym, E. exact IH.
Qed.

Lemma clean_url_query_free (u : pystr) :
  Py.contains (py "?") (clean_url u) = false.
Proof.
  unfold clean_url.
  destruct (Py.truthy u) eqn:T; simpl negb; cbv iota.
  - destruct (Py.contains (py "?") u) eqn:H; [|exact H].
    change (py "?") with [63%N]. rewrite contains_char.
    apply split_hd_no_sep.
  - destruct u; [reflexivity | discriminate].
Qed.

(** The cleaned URL is the part of the URL before its first question
    mark. *)
Lemma split_hd_prefix (c : Py.char) (s : pystr) :
  exists rest, s = hd [] (Py.split c s) ++ rest /\
               (Py.has_char c s = true -> exists tl, rest = c :: tl).
Proof.
  induction s as [|x s IH]; simpl.
  - exists []. split; [reflexivity | discriminate].
  - destruct IH as (rest & Hs & Hc).
    rewrite (N.eqb_sym c x). destruct (N.eqb x c) eqn:E; simpl.
    + apply N.eqb_eq in E; subst x. exists (c :: s). split; [reflexivity|].
      intros _. now exists s.
    + destruct (Py.split c s) as [|piece tl]; simpl in *.
      * exists rest. split; [now rewrite Hs at 1 | exact Hc].
      * exists rest. split; [now rewrite Hs at 1 | exact Hc].
Qed.

(** C10: [clean_url u] contains no question mark, and cleaning an already
    cleaned URL changes nothing. *)
Theorem clean_url_idempotent_query_free :
  forall u : pystr,
    Py.contains (py "?") (clean_url u) = false /\
    clean_url (clean_url u) = clean_url u.
Proof.
  intro u.
  pose proof (clean_url_query_free u) as Hq.
  split; [exact Hq|].
  unfold clean_url at 1. rewrite Hq.
  destruct (Py.truthy (clean_url u)); reflexivity.
Qed.

(* ================================================================== *)
(** * Properties of the extractor *)
(* ================================================================== *)

Ltac case_if :=
  match goal with
  | |- context [if ?c then _ else _] => destruct c eqn:?
  end.

Ltac unfold_updates :=
  unfold set_headline, set_subheadline, start_about, set_section,
    append_about, append_body;
  cbn [headline subheadline date body_paragraphs about_sections
       product_link current_section current_about_title].

Section ExtractorProperties.

Context {R : Runtime}.

Lemma contribute_headline st para :
  headline (contribute st para) = headline st.
Proof.
  unfold contribute.
  destruct (section_eqb (current_section st) trademarks); [reflexivity|].
  destruct (current_section st) eqn:Es, (current_about_title st) eqn:Et;
    unfold_updates; try case_if; unfold_updates; rewrite ?Es; reflexivity.
Qed.

Lemma contribute_section st para :
  current_section (contribute st para) = current_section st.
Proof.
  unfold contribute.
  destruct (section_eqb (current_section st) trademarks); [reflexivity|].
  destruct (current_section st) eqn:Es, (current_about_title st) eqn:Et;
    unfold_updates; try case_if; unfold_updates; rewrite ?Es; reflexivity.
Qed.

Lemma contribute_body_closed st para :
  current_section st <> body ->
  body_paragraphs (contribute st para) = body_paragraphs st.
Proof.
  intro H. unfold contribute.
  destruct (section_eqb (current_section st) trademarks); [reflexivity|].
  destruct (current_section st) eqn:Es, (current_about_title st) eqn:Et;
    try contradiction; unfold_updates; try case_if; unfold_updates;
    reflexivity.
Qed.

Lemma section_step_headline st para text style :
  headline (section_step st para text style) = headline st.
Proof.
  unfold section_step.
  repeat case_if; unfold_updates; auto using contribute_headline.
Qed.

Lemma section_step_body_closed st para text style :
  current_section st <> body ->
  body_paragraphs (section_step st para text style) = body_paragraphs st.
Proof.
  intro H. unfold section_step.
  repeat case_if; unfold_updates; auto using contribute_body_closed.
Qed.

Lemma section_step_move st para text style :
  section_move (current_section st)
               (current_section (section_step st para text style)).
Proof.
  unfold section_step, section_move.
  repeat case_if; unfold_updates; rewrite ?contribute_section;
    destruct (current_section st); intuition congruence.
Qed.

Lemma parse_step_move st para :
  section_move (current_section st) (current_section (parse_step st para)).
Proof.
  unfold parse_step.
  repeat case_if; unfold_updates;
    try apply section_step_move; left; reflexivity.
Qed.

Lemma section_move_not_body s s' :
  section_move s s' -> s <> body -> s' <> body.
Proof. unfold section_move. intros H Hs. intuition congruence. Qed.

Lemma parse_step_body_closed st para :
  current_section st <> body ->
  body_paragraphs (parse_step st para) = body_paragraphs st.
Proof.
  intro H. unfold parse_step.
  repeat case_if; unfold_updates;
    try apply section_step_body_closed; auto.
Qed.

Lemma parse_from_cons st para ps :
  parse_from st (para :: ps) = parse_from (parse_step st para) ps.
Proof. reflexivity. Qed.

Lemma parse_from_body_closed ps : forall st,
  current_section st <> body ->
  body_paragraphs (parse_from st ps) = body_paragraphs st /\
  current_section (parse_from st ps) <> body.
Proof.
  induction ps as [|para ps IH]; intros st H; [now split|].
  rewrite parse_from_cons.
  assert (H' : current_section (parse_step st para) <> body)
    by (eapply section_move_not_body; [apply parse_step_move | exact H]).
  destruct (IH _ H') as [Hb Hs]. split; [|exact Hs].
  rewrite Hb. now apply parse_step_body_closed.
Qed.

Lemma parse_from_app st ps1 ps2 :
  parse_from st (ps1 ++ ps2) = parse_from (parse_from st ps1) ps2.
Proof. unfold parse_from. apply fold_left_app. Qed.

(** The headline after one paragraph, when one was already captured. *)
Lemma parse_step_headline st para :
  Py.truthy (headline st) = true ->
  headline (parse_step st para)
  = if replaces_headline para then text_of para else headline st.
Proof.
  intro H. unfold parse_step, replaces_headline, considered, text_of.
  rewrite H. cbn [negb andb].
  rewrite ?andb_false_r, ?orb_false_r.
  destruct (Py.truthy (Py.strip (para_text para))); cbn [negb andb];
    [|reflexivity].
  destruct (Py.eqb (Py.strip (para_text para)) marker_en_dash
            || Py.eqb (Py.strip (para_text para)) marker_hyphen);
    cbn [negb andb]; [reflexivity|].
  destruct (Py.eqb (style_name_of para) (py "Title")); cbn [negb andb].
  - destruct (Py.contains (py "New Product Announcement")
                (Py.strip (para_text para))); reflexivity.
  - case_if; [reflexivity|]. apply section_step_headline.
Qed.

Lemma replaces_headline_truthy para :
  replaces_headline para = true -> Py.truthy (text_of para) = true.
Proof.
  unfold replaces_headline, considered. intro H.
  repeat (apply andb_true_iff in H as [H ?]). exact H.
Qed.

Lemma parse_from_headline_kept ps : forall st,
  Py.truthy (headline st) = true ->
  Forall (fun para => replaces_headline para = false) ps ->
  headline (parse_from st ps) = headline st.
Proof.
  induction ps as [|para ps IH]; intros st H HF; [reflexivity|].
  rewrite parse_from_cons.
  inversion HF as [|? ? Hp HF']; subst.
  pose proof (parse_step_headline st para H) as E. rewrite Hp in E.
  rewrite IH; [exact E | now rewrite E | exact HF'].
Qed.

(** C1 (amended): once a headline has been captured, a paragraph replaces
    it exactly when it is a considered paragraph styled [Title] whose text
    does not contain the announcement banner, and then its text becomes
    the headline; paragraphs of any other kind, whatever their number,
    leave the headline as it is. *)
Theorem headline_replaced_only_by_title :
  forall st : parse_state,
    Py.truthy (headline st) = true ->
    (forall para,
        headline (parse_step st para)
        = if replaces_headline para then text_of para else headline st) /\
    (forall ps,
        Forall (fun para => replaces_headline para = false) ps ->
        headline (parse_from st ps) = headline st).
Proof.
  intros st H. split.
  - intro para. now apply parse_step_headline.
  - intros ps HF. now apply parse_from_headline_kept.
Qed.

(** A paragraph that gets as far as the section block is handled by it,
    and one that does not leaves the section state alone. *)
Lemma parse_step_reaches st para :
  reaches_section_step st para = true ->
  parse_step st para
  = section_step st para (text_of para) (style_name_of para).
Proof.
  intro Hr. unfold reaches_section_step, considered in Hr.
  repeat (apply andb_true_iff in Hr as [Hr ?]).
  repeat match goal with
         | H : negb _ = true |- _ => apply negb_true_iff in H
         end.
  unfold parse_step. fold (text_of para).
  rewrite Hr. cbn [negb].
  repeat match goal with
         | H : ?c = false |- context [if ?c then _ else _] => rewrite H
         end.
  reflexivity.
Qed.

Lemma parse_step_unreached st para :
  reaches_section_step st para = false ->
  current_section (parse_step st para) = current_section st.
Proof.
  intro Hr. unfold reaches_section_step, considered in Hr.
  unfold parse_step. fold (text_of para).
  destruct (Py.truthy (text_of para)); cbn [negb andb] in *;
    [|reflexivity].
  destruct (Py.eqb (text_of para) marker_en_dash
            || Py.eqb (text_of para) marker_hyphen);
    cbn [negb andb] in *; [reflexivity|].
  destruct (Py.eqb (style_name_of para) (py "Title")
            || Py.eqb (style_name_of para) (py "Title2")
               && negb (Py.truthy (headline st)));
    cbn [negb andb] in *; [case_if; reflexivity|].
  destruct (negb (Py.truthy (headline st))
            && (Py.eqb (style_name_of para) (py "Title")
                || Py.eqb (style_name_of para) (py "Heading 1"))
            && (Py.len (text_of para) >? 20));
    cbn [negb andb] in *; [reflexivity|].
  destruct (captures_subheadline st para (text_of para)
              (style_name_of para));
    cbn [negb] in *; [reflexivity | discriminate].
Qed.

(** The three ways through the section block. *)
Lemma section_step_opens_about st para text style :
  Py.startswith (py "About ") text = true ->
  section_step st para text style = start_about st text.
Proof.
  intro Ha. unfold section_step. rewrite Ha, orb_true_r. reflexivity.
Qed.

Lemma section_step_to_trademarks st para text style :
  Py.startswith (py "About ") text = false ->
  Py.contains (py "Trademarks") text
  && (Py.eqb style (py "Heading 1")
      || Py.startswith (py "Trademarks") text) = true ->
  section_step st para text style = set_section st trademarks.
Proof.
  intros Ha Ht. unfold section_step. rewrite Ha, Ht.
  now destruct (Py.eqb style (py "Heading 1") || false).
Qed.

Lemma section_step_contributes st para text style :
  Py.startswith (py "About ") text = false ->
  Py.contains (py "Trademarks") text
  && (Py.eqb style (py "Heading 1")
      || Py.startswith (py "Trademarks") text) = false ->
  section_step st para text style = contribute st para.
Proof.
  intros Ha Ht. unfold section_step. rewrite Ha, Ht.
  now destruct (Py.eqb style (py "Heading 1") || false).
Qed.





(** C4 (amended): a paragraph leaves the section state as it is or moves
    it from [body] to [about], from [body] to [trademarks], from [about]
    to [trademarks] or from [trademarks] to [about]; the state never
    returns to [body].  Which move is made: a paragraph that does not get
    as far as the section block makes none; one that does and starts with
    "About " opens an About section under its text, whatever the state
    was; one that does and has no such start moves to [trademarks] when
    the trademarks test holds and makes no move otherwise. *)
Theorem section_transitions :
  forall (st : parse_state) (para : paragraph),
    section_move (current_section st) (current_section (parse_step st para))
    /\ (current_section (parse_step st para) = body ->
        current_section st = body)
    /\ (reaches_section_step st para = false ->
        current_section (parse_step st para) = current_section st)
    /\ (reaches_section_step st para = true ->
        Py.startswith (py "About ") (text_of para) = true ->
        current_section (parse_step st para) = about /\
        current_about_title (parse_step st para) = Some (text_of para) /\
        about_sections (parse_step st para)
        = Dict.set (about_sections st) (text_of para) [])
    /\ (reaches_section_step st para = true ->
        Py.startswith (py "About ") (text_of para) = false ->
        current_section (parse_step st para)
        = if trademarks_rule para then trademarks else current_section st).
Proof.
  intros st para.
  pose proof (parse_step_move st para) as H. split; [exact H|].
  split; [unfold section_move in H; intuition congruence|].
  split; [apply parse_step_unreached|].
  split.
  - intros Hr Ha. rewrite (parse_step_reaches st para Hr).
    rewrite (section_step_opens_about st para _ _ Ha).
    unfold_updates. auto.
  - intros Hr Ha. rewrite (parse_step_reaches st para Hr).
    unfold trademarks_rule.
    destruct (Py.contains (py "Trademarks") (text_of para)
              && (Py.eqb (style_name_of para) (py "Heading 1")
                  || Py.startswith (py "Trademarks") (text_of para)))
      eqn:Ht.
    + now rewrite (section_step_to_trademarks st para _ _ Ha Ht).
    + rewrite (section_step_contributes st para _ _ Ha Ht).
      apply contribute_section.
Qed.

(** C5: once the section state is [about] or [trademarks], no paragraph
    that follows is appended to [body_paragraphs], and the state does not
    return to [body]; in particular what a document has put in
    [body_paragraphs] when the state leaves [body] is all it ever has. *)
Theorem body_closed_after_section_change :
  forall (st : parse_state) (ps : list paragraph),
    current_section st <> body ->
    body_paragraphs (parse_from st ps) = body_paragraphs st /\
    current_section (parse_from st ps) <> body /\
    (forall before,
        st = parse_docx before ->
        body_paragraphs (parse_docx (before ++ ps)) = body_paragraphs st).
Proof.
  intros st ps H.
  destruct (parse_from_body_closed ps st H) as [Hb Hs].
  repeat split; [exact Hb | exact Hs |].
  intros before ->. unfold parse_docx in *.
  now rewrite parse_from_app.
Qed.

End ExtractorProperties.

(** ** The extractor on concrete documents *)

(** C1, as stated, fails: a second paragraph styled [Title] replaces the
    headline that the first one set. *)
Lemma later_title_replaces_headline :
  headline (parse_docx (R := ascii_runtime)
              [styled "Title" "Widget Launch"])
  = py "Widget Launch" /\
  headline (parse_docx (R := ascii_runtime)
              [styled "Title" "Widget Launch";
               styled "Title" "Gadget Update"])
  = py "Gadget Update".
Proof. split; vm_compute; reflexivity. Qed.

Lemma headline_replaced_only_by_title_witness :
  Py.truthy
    (headline (parse_docx (R := ascii_runtime)
                 [styled "Title" "Widget Launch"])) = true /\
  headline
    (parse_step (R := ascii_runtime)
       (parse_docx (R := ascii_runtime) [styled "Title" "Widget Launch"])
       (styled "Heading 1" "A long first-level heading of the body"))
  = py "Widget Launch".
Proof.
  split; [reflexivity|].
  exact (proj1
           (@headline_replaced_only_by_title ascii_runtime
              (parse_docx (R := ascii_runtime)
                 [styled "Title" "Widget Launch"]) eq_refl)
           (styled "Heading 1" "A long first-level heading of the body")).
Defined.



(** C3 at the failing input: the announcement banner styled [Heading 1]
    is taken as the headline. *)
Theorem heading_announcement_captured :
  headline
    (parse_docx (R := ascii_runtime)
       [styled "Heading 1" "New Product Announcement";
        styled "Heading 1" "Mouser Now Stocking the New Widget Series"])
  = py "New Product Announcement".
Proof. vm_compute. reflexivity. Qed.

(** C4, as stated, fails: after the trademarks paragraph an "About "
    paragraph moves the state from [trademarks] to [about], and what
    follows is collected under it. *)
Lemma about_after_trademarks :
  current_section
    (parse_docx (R := ascii_runtime) [styled "Normal" "Trademarks"])
  = trademarks /\
  current_section
    (parse_docx (R := ascii_runtime)
       [styled "Normal" "Trademarks"; styled "Normal" "About Mouser"])
  = about /\
  about_sections
    (parse_docx (R := ascii_runtime)
       [styled "Normal" "Trademarks"; styled "Normal" "About Mouser";
        styled "Normal" "Mouser is a distributor."])
  = [(py "About Mouser", [py "Mouser is a distributor."])].
Proof. repeat split; vm_compute; reflexivity. Qed.

Lemma section_transitions_witness :
  reaches_section_step (R := ascii_runtime)
    (parse_docx (R := ascii_runtime)
       [styled "Title" "Widget Launch"; styled "Normal" "Body text"])
    (styled "Normal" "About Mouser") = true /\
  Py.startswith (py "About ") (text_of (styled "Normal" "About Mouser"))
  = true /\
  current_section
    (parse_step (R := ascii_runtime)
       (parse_docx (R := ascii_runtime)
          [styled "Title" "Widget Launch"; styled "Normal" "Body text"])
       (styled "Normal" "About Mouser")) = about /\
  about_sections
    (parse_step (R := ascii_runtime)
       (parse_docx (R := ascii_runtime)
          [styled "Title" "Widget Launch"; styled "Normal" "Body text"])
       (styled "Normal" "About Mouser"))
  = [(py "About Mouser", [])].
Proof.
  split; [reflexivity|]. split; [reflexivity|].
  pose proof
    (proj1
       (proj2
          (proj2
             (proj2
                (@section_transitions ascii_runtime
                   (parse_docx (R := ascii_runtime)
                      [styled "Title" "Widget Launch";
                       styled "Normal" "Body text"])
                   (styled "Normal" "About Mouser")))))
       eq_refl eq_refl) as H.
  exact (conj (proj1 H) (proj2 (proj2 H))).
Defined.

Lemma body_closed_after_section_change_witness :
  current_section
    (parse_docx (R := ascii_runtime)
       [styled "Normal" "Body text"; styled "Normal" "About Mouser"])
  <> body /\
  body_paragraphs
    (parse_from (R := ascii_runtime)
       (parse_docx (R := ascii_runtime)
          [styled "Normal" "Body text"; styled "Normal" "About Mouser"])
       [styled "Normal" "More text"; styled "Heading 1" "Overview"])
  = [py "Body text"].
Proof.
  split; [discriminate|].
  exact (proj1
           (@body_closed_after_section_change ascii_runtime
              (parse_docx (R := ascii_runtime)
                 [styled "Normal" "Body text"; styled "Normal" "About Mouser"])
              [styled "Normal" "More text"; styled "Heading 1" "Overview"]
              ltac:(discriminate))).
Defined.

(* ================================================================== *)
(** * Properties of the paragraph renderer *)
(* ================================================================== *)

Lemma split_hd_before_question (s : pystr) :
  hd [] (Py.split 63%N s) = before_question s.
Proof.
  induction s as [|x s IH]; cbn [Py.split before_question hd];
    [reflexivity|].
  destruct (N.eqb x 63%N); [reflexivity|].
  destruct (Py.split 63%N s); cbn [hd] in *; now rewrite <- IH.
Qed.

Lemma before_question_no_mark (s : pystr) :
  Py.has_char 63%N s = false -> before_question s = s.
Proof.
  unfold Py.has_char.
  induction s as [|x s IH]; cbn [existsb before_question]; [reflexivity|].
  rewrite (N.eqb_sym 63%N x). destruct (N.eqb x 63%N); cbn [orb];
    [discriminate|].
  intro H. now rewrite IH.
Qed.

(** The href of an anchor is the URL cut at its first question mark. *)
Lemma clean_url_before_question (u : pystr) :
  clean_url u = before_question u.
Proof.
  unfold clean_url. destruct u as [|x u]; [reflexivity|].
  cbn [Py.truthy negb]. change (py "?") with [63%N].
  rewrite contains_char.
  destruct (Py.has_char 63%N (x :: u)) eqn:H.
  - apply split_hd_before_question.
  - symmetry. now apply before_question_no_mark.
Qed.

(** *** The sort *)

Lemma key_le_refl (a : candidate) : key_le a a.
Proof.
  unfold key_le, key_ltb. rewrite !Z.ltb_irrefl. now rewrite andb_false_r.
Qed.

Lemma key_ltb_false (a b : Z * Z) :
  key_ltb a b = false <->
  fst b < fst a \/ (fst a = fst b /\ snd b <= snd a).
Proof.
  unfold key_ltb. rewrite orb_false_iff, andb_false_iff.
  rewrite !Z.ltb_ge, Z.eqb_neq. lia.
Qed.

Lemma key_ltb_true (a b : Z * Z) :
  key_ltb a b = true <->
  fst a < fst b \/ (fst a = fst b /\ snd a < snd b).
Proof.
  unfold key_ltb. rewrite orb_true_iff, andb_true_iff.
  rewrite !Z.ltb_lt, Z.eqb_eq. lia.
Qed.

(** [a] before [b] after the sort: [b] starts lower, or at the same
    offset and is not longer. *)
Lemma key_le_spec (a b : candidate) :
  key_le a b <->
  c_pos b < c_pos a \/ (c_pos b = c_pos a /\ c_len b <= c_len a).
Proof.
  unfold key_le. rewrite key_ltb_false. unfold sort_key. simpl. lia.
Qed.

Lemma key_le_trans (a b c : candidate) :
  key_le a b -> key_le b c -> key_le a c.
Proof. rewrite !key_le_spec. lia. Qed.

Lemma insert_by_key_Forall (P : candidate -> Prop) x l :
  P x -> Forall P l -> Forall P (insert_by_key x l).
Proof.
  intros Hx Hl. induction Hl as [|y l Hy Hl IH]; simpl.
  - now constructor.
  - destruct (key_ltb (sort_key y) (sort_key x)); repeat constructor; auto.
Qed.

Lemma insert_by_key_sorted x l :
  StronglySorted key_le l -> StronglySorted key_le (insert_by_key x l).
Proof.
  induction 1 as [|y l Hl IH Hy]; simpl.
  - repeat constructor.
  - destruct (key_ltb (sort_key y) (sort_key x)) eqn:E.
    + constructor; [exact IH|].
      apply insert_by_key_Forall; [|exact Hy].
      apply key_le_spec. apply key_ltb_true in E. unfold sort_key in E.
      simpl in E. lia.
    + assert (Hxy : key_le x y) by exact E.
      constructor; [now constructor|].
      constructor; [exact Hxy|].
      eapply Forall_impl; [|exact Hy].
      intros z Hz. eapply key_le_trans; eassumption.
Qed.

Lemma sort_by_key_sorted l : StronglySorted key_le (sort_by_key l).
Proof.
  induction l as [|x l IH]; simpl; [constructor|].
  now apply insert_by_key_sorted.
Qed.

Lemma sort_by_key_Forall (P : candidate -> Prop) l :
  Forall P l -> Forall P (sort_by_key l).
Proof.
  induction 1 as [|x l Hx Hl IH]; simpl; [constructor|].
  now apply insert_by_key_Forall.
Qed.

(** *** The candidates *)

Lemma slice_to_nonneg (s : pystr) (i : Z) :
  0 <= i -> Py.slice_to s i = firstn (Z.to_nat i) s.
Proof.
  intro H. unfold Py.slice_to, Py.clamp, Py.len.
  destruct (Z.ltb_spec i 0); [lia|].
  destruct (Z.le_ge_cases i (Z.of_nat (length s))) as [Hle | Hge].
  - now rewrite Z.min_l.
  - rewrite Z.min_r by exact Hge. rewrite Nat2Z.id.
    rewrite firstn_all. symmetry. apply firstn_all2. lia.
Qed.

Lemma slice_from_nonneg (s : pystr) (i : Z) :
  0 <= i -> Py.slice_from s i = skipn (Z.to_nat i) s.
Proof.
  intro H. unfold Py.slice_from, Py.clamp, Py.len.
  destruct (Z.ltb_spec i 0); [lia|].
  destruct (Z.le_ge_cases i (Z.of_nat (length s))) as [Hle | Hge].
  - now rewrite Z.min_l.
  - rewrite Z.min_r by exact Hge. rewrite Nat2Z.id.
    rewrite skipn_all. symmetry. apply skipn_all2. lia.
Qed.

Lemma link_positions_occur text hyperlinks :
  Forall (occurs_in text hyperlinks) (link_positions_of text hyperlinks).
Proof.
  assert (G : forall items,
             incl items hyperlinks ->
             Forall (occurs_in text hyperlinks)
                    (link_positions_of text items)).
  { induction items as [|[link_text url] items IH]; intro Hincl; simpl;
      [constructor|].
    assert (Hrest : incl items hyperlinks)
      by (intros y Hy; apply Hincl; now right).
    destruct (Z.geb_spec (Py.find link_text text) 0) as [Hpos | Hneg];
      [|now apply IH].
    constructor; [|now apply IH].
    unfold Py.find in *.
    destruct (find_from_spec link_text text 0)
      as [Hnone | (n & Hn & Hlen & Hsub)]; [lia|].
    unfold occurs_in, c_pos, c_len, c_text, c_url; simpl.
    rewrite Hn. unfold Py.len.
    repeat split; try lia.
    - rewrite slice_to_nonneg, slice_from_nonneg by lia.
      replace (Z.to_nat (0 + Z.of_nat n + Z.of_nat (length link_text)))
        with (n + length link_text)%nat by lia.
      replace (Z.to_nat (0 + Z.of_nat n)) with n by lia.
      rewrite skipn_firstn_comm.
      replace (n + length link_text - n)%nat with (length link_text) by lia.
      exact Hsub.
    - apply Hincl. now left. }
  apply G. apply incl_refl.
Qed.

(** *** The second loop *)

Lemma walk_select cs : forall result_text linked_ranges,
  fold_left splice_step cs (result_text, linked_ranges)
  = (fold_left splice_text (select linked_ranges cs) result_text,
     linked_ranges ++ map range_of (select linked_ranges cs)).
Proof.
  induction cs as [|c cs IH]; intros result_text linked_ranges.
  - simpl. now rewrite app_nil_r.
  - cbn [fold_left select].
    destruct c as [[[pos len] link_text] url].
    unfold splice_step at 2, c_pos, c_len. cbn [fst snd].
    destruct (overlaps pos len linked_ranges).
    + apply IH.
    + rewrite IH. cbn [fold_left map]. unfold splice_text at 2, range_of.
      unfold c_pos, c_len, c_text, c_url. cbn [fst snd].
      now rewrite <- app_assoc.
Qed.

Lemma overlaps_false pos len linked_ranges :
  overlaps pos len linked_ranges = false ->
  Forall (fun r => disjoint r (pos, pos + len)) linked_ranges.
Proof.
  unfold overlaps. induction linked_ranges as [|r rs IH];
    cbn [existsb]; intro H; [constructor|].
  apply orb_false_iff in H as [Hr Hrs].
  constructor; [|now apply IH].
  apply negb_false_iff, orb_true_iff in Hr.
  unfold disjoint. cbn [fst snd].
  destruct Hr as [Hr | Hr]; [apply Z.leb_le in Hr | apply Z.geb_le in Hr];
    lia.
Qed.

Lemma ordered_pairs_snoc {A} (P : A -> A -> Prop) l x :
  ForallOrdPairs P l -> Forall (fun y => P y x) l ->
  ForallOrdPairs P (l ++ [x]).
Proof.
  induction 1 as [|y l Hy Hl IH]; intro HF; simpl.
  - repeat constructor.
  - inversion HF; subst. constructor; [|now apply IH].
    apply Forall_app. split; [exact Hy | now constructor].
Qed.

Lemma select_disjoint cs : forall linked_ranges,
  ForallOrdPairs disjoint linked_ranges ->
  ForallOrdPairs disjoint
    (linked_ranges ++ map range_of (select linked_ranges cs)).
Proof.
  induction cs as [|c cs IH]; intros linked_ranges H; cbn [select map].
  - now rewrite app_nil_r.
  - destruct (overlaps (c_pos c) (c_len c) linked_ranges) eqn:E.
    + now apply IH.
    + cbn [map].
      change (range_of c :: map range_of
                (select (linked_ranges ++ [range_of c]) cs))
        with ([range_of c] ++ map range_of
                (select (linked_ranges ++ [range_of c]) cs)).
      rewrite app_assoc. apply IH.
      apply ordered_pairs_snoc; [exact H|].
      now apply overlaps_false.
Qed.

Lemma select_Forall (P : candidate -> Prop) cs : forall linked_ranges,
  Forall P cs -> Forall P (select linked_ranges cs).
Proof.
  induction cs as [|c cs IH]; intros linked_ranges H; cbn [select];
    [constructor|].
  inversion H; subst.
  destruct (overlaps (c_pos c) (c_len c) linked_ranges); auto.
Qed.

(** The accepted candidates go down the text without touching: this is
    where the order of the sort is used. *)
Lemma select_chain cs : forall linked_ranges bound,
  StronglySorted key_le cs ->
  Forall (fun c => 0 <= c_pos c /\ 0 <= c_len c) cs ->
  (forall c, In c cs ->
             overlaps (c_pos c) (c_len c) linked_ranges = false ->
             c_pos c + c_len c <= bound) ->
  chain bound (select linked_ranges cs).
Proof.
  induction cs as [|c cs IH]; intros linked_ranges bound Hs Hn Hb;
    cbn [select]; [constructor|].
  inversion Hs as [|? ? Hs' Hc]; subst.
  inversion Hn as [|? ? [Hp Hl] Hn']; subst.
  destruct (overlaps (c_pos c) (c_len c) linked_ranges) eqn:E.
  - apply IH; auto. intros c' Hin. apply Hb. now right.
  - constructor; auto.
    + apply Hb; [now left | exact E].
    + apply IH; auto.
      intros c' Hin Ho.
      unfold overlaps in Ho. rewrite existsb_app in Ho.
      apply orb_false_iff in Ho as [_ Ho]. cbn [existsb] in Ho.
      rewrite orb_false_r in Ho.
      apply negb_false_iff, orb_true_iff in Ho.
      unfold range_of in Ho. cbn [fst snd] in Ho.
      rewrite Forall_forall in Hc, Hn'.
      specialize (Hc c' Hin). apply key_le_spec in Hc.
      destruct (Hn' c' Hin) as [Hp' Hl'].
      destruct Ho as [Ho | Ho]; [apply Z.leb_le in Ho | apply Z.geb_le in Ho];
        lia.
Qed.

Lemma firstn_below (text suffix : pystr) (p b : nat) :
  (p <= b)%nat -> (b <= length text)%nat ->
  firstn p (firstn b text ++ suffix) = firstn p text.
Proof.
  intros Hp Hb. rewrite firstn_app, firstn_firstn.
  rewrite length_firstn.
  replace (p - Nat.min b (length text))%nat with 0%nat by lia.
  replace (Nat.min p b) with p by lia.
  simpl. apply app_nil_r.
Qed.

Lemma splice_text_below (text suffix : pystr) (bound : Z) (c : candidate) :
  0 <= c_pos c -> 0 <= c_len c -> c_pos c + c_len c <= bound ->
  bound <= Py.len text ->
  splice_text (Py.slice_to text bound ++ suffix) c
  = Py.slice_to text (c_pos c)
    ++ link_html (c_text c) (c_url c)
    ++ Py.slice_from (Py.slice_to text bound) (c_pos c + c_len c)
    ++ suffix.
Proof.
  intros Hp Hl Hb Ht. unfold splice_text, Py.len in *.
  rewrite !slice_to_nonneg, !slice_from_nonneg by lia.
  rewrite firstn_below by lia.
  rewrite skipn_app, length_firstn.
  replace (Z.to_nat (c_pos c + c_len c)
           - Nat.min (Z.to_nat bound) (length text))%nat with 0%nat by lia.
  reflexivity.
Qed.

Lemma walk_spliced (text : pystr) sel : forall bound suffix,
  chain bound sel -> bound <= Py.len text ->
  fold_left splice_text sel (Py.slice_to text bound ++ suffix)
  = spliced text sel bound suffix.
Proof.
  induction sel as [|c sel IH]; intros bound suffix Hc Hb; [reflexivity|].
  inversion Hc; subst. cbn [fold_left spliced].
  rewrite splice_text_below by assumption.
  apply IH; [assumption | lia].
Qed.

Lemma spliced_below (text : pystr) sel : forall bound suffix p,
  chain bound sel -> bound <= Py.len text ->
  0 <= p -> p <= bound -> Forall (fun c => p <= c_pos c) sel ->
  Py.slice_to (spliced text sel bound suffix) p = Py.slice_to text p.
Proof.
  induction sel as [|c sel IH]; intros bound suffix p Hc Hb Hp Hpb HF;
    cbn [spliced].
  - unfold Py.len in Hb.
    rewrite !slice_to_nonneg by lia. apply firstn_below; lia.
  - inversion Hc; subst. inversion HF; subst.
    apply IH; auto; lia.
Qed.

Lemma strongly_sorted_prefix {A} (P : A -> A -> Prop) l1 l2 :
  StronglySorted P (l1 ++ l2) -> StronglySorted P l1.
Proof.
  induction l1 as [|x l1 IH]; simpl; intro H; [constructor|].
  inversion H as [|? ? Hs Hx]; subst.
  constructor; [now apply IH|].
  apply Forall_app in Hx. tauto.
Qed.

Lemma strongly_sorted_before {A} (P : A -> A -> Prop) l1 x l2 :
  StronglySorted P (l1 ++ x :: l2) -> Forall (fun y => P y x) l1.
Proof.
  induction l1 as [|y l1 IH]; simpl; intro H; [constructor|].
  inversion H as [|? ? Hs Hy]; subst.
  constructor; [|now apply IH].
  apply Forall_app in Hy as [_ Hy]. now inversion Hy.
Qed.

(** The chain of the candidates accepted from a sorted list of
    occurrences. *)
Lemma sorted_occurrences_chain text hyperlinks cs :
  StronglySorted key_le cs ->
  Forall (occurs_in text hyperlinks) cs ->
  chain (Py.len text) (select [] cs).
Proof.
  intros Hs Ho. apply select_chain; [exact Hs | |].
  - eapply Forall_impl; [|exact Ho].
    intros c (Hp & Hl & _). split; [exact Hp|].
    rewrite Hl. unfold Py.len. lia.
  - intros c Hin _. rewrite Forall_forall in Ho.
    now destruct (Ho c Hin) as (_ & _ & Hb & _).
Qed.

Lemma slice_to_len (text : pystr) : Py.slice_to text (Py.len text) = text.
Proof.
  unfold Py.len. rewrite slice_to_nonneg by lia.
  rewrite Nat2Z.id. apply firstn_all.
Qed.

Lemma walk_from_text text hyperlinks cs :
  StronglySorted key_le cs ->
  Forall (occurs_in text hyperlinks) cs ->
  fst (splice_all text cs) = spliced text (select [] cs) (Py.len text) [].
Proof.
  intros Hs Ho. unfold splice_all. rewrite walk_select. cbn [fst].
  transitivity (fold_left splice_text (select [] cs)
                  (Py.slice_to text (Py.len text) ++ [])).
  - now rewrite slice_to_len, app_nil_r.
  - apply walk_spliced; [|lia].
    eapply sorted_occurrences_chain; eassumption.
Qed.

Lemma render_links_spliced text hyperlinks :
  render_links text hyperlinks
  = spliced text (selected text hyperlinks) (Py.len text) [].
Proof.
  unfold render_links, selected.
  apply walk_from_text with (hyperlinks := hyperlinks).
  - apply sort_by_key_sorted.
  - apply sort_by_key_Forall, link_positions_occur.
Qed.

Lemma spliced_nothing text : spliced text [] (Py.len text) [] = text.
Proof. cbn [spliced]. now rewrite slice_to_len, app_nil_r. Qed.

Lemma get_paragraph_html_spliced para :
  get_paragraph_html para true
  = spliced (para_text para)
      (selected (para_text para) (extract_hyperlinks para))
      (Py.len (para_text para)) [].
Proof.
  unfold get_paragraph_html. rewrite andb_true_r.
  destruct (extract_hyperlinks para) as [|item items] eqn:E.
  - cbn [nonempty]. symmetry. apply spliced_nothing.
  - cbn [nonempty]. apply render_links_spliced.
Qed.

(** After a candidate has been handled, the working text below its start
    is still the original text. *)
Lemma text_below_candidate text hyperlinks pre c post :
  sort_by_key (link_positions_of text hyperlinks) = pre ++ c :: post ->
  Py.slice_to (fst (splice_all text (pre ++ [c]))) (c_pos c)
  = Py.slice_to text (c_pos c).
Proof.
  intro E.
  pose proof (sort_by_key_sorted (link_positions_of text hyperlinks)) as Hs.
  pose proof (sort_by_key_Forall _ _ (link_positions_occur text hyperlinks))
    as Ho.
  rewrite E in Hs, Ho.
  assert (Hbefore : Forall (fun y => key_le y c) pre)
    by (eapply strongly_sorted_before; exact Hs).
  replace (pre ++ c :: post) with ((pre ++ [c]) ++ post) in Hs, Ho
    by (now rewrite <- app_assoc).
  apply strongly_sorted_prefix in Hs. apply Forall_app in Ho as [Ho _].
  assert (Hc : occurs_in text hyperlinks c).
  { apply Forall_app in Ho as [_ Ho]. now inversion Ho. }
  destruct Hc as (Hp & Hl & Hb & _).
  rewrite (walk_from_text text hyperlinks) by assumption.
  apply spliced_below.
  - eapply sorted_occurrences_chain; eassumption.
  - lia.
  - exact Hp.
  - rewrite Hl in Hb. unfold Py.len in *. lia.
  - apply select_Forall. apply Forall_app. split.
    + eapply Forall_impl; [|exact Hbefore].
      intros y Hy. apply key_le_spec in Hy. lia.
    + constructor; [lia | constructor].
Qed.

(** C6: the Paragraph Renderer links pairwise disjoint character ranges
    of the original text, each an occurrence of a link text of the map;
    its result is the original text with exactly these ranges replaced by
    anchors whose href is the URL cut at its first question mark; when a
    candidate has been handled the working text below its start is still
    the original text; and for "See ABC and ABC again" with two
    hyperlinks of text "ABC" one anchor is made, at the first "ABC", and
    the second "ABC" stays plain text. *)
Theorem paragraph_renderer_splices :
  forall (text : pystr) (hyperlinks : Dict.t pystr),
    snd (splice_all text (sort_by_key (link_positions_of text hyperlinks)))
    = map range_of (selected text hyperlinks) /\
    ForallOrdPairs disjoint (map range_of (selected text hyperlinks)) /\
    Forall (occurs_in text hyperlinks) (selected text hyperlinks) /\
    render_links text hyperlinks
    = spliced text (selected text hyperlinks) (Py.len text) [] /\
    (forall para,
        get_paragraph_html para true
        = spliced (para_text para)
            (selected (para_text para) (extract_hyperlinks para))
            (Py.len (para_text para)) []) /\
    (forall link_text url,
        link_html link_text url
        = py "<a href=" ++ [Py.dquote] ++ before_question url
          ++ [Py.dquote] ++ py " target=" ++ [Py.dquote] ++ py "_blank"
          ++ [Py.dquote] ++ py ">" ++ link_text ++ py "</a>") /\
    (forall pre c post,
        sort_by_key (link_positions_of text hyperlinks) = pre ++ c :: post ->
        Py.slice_to (fst (splice_all text (pre ++ [c]))) (c_pos c)
        = Py.slice_to text (c_pos c)) /\
    (selected (para_text twice_linked) (extract_hyperlinks twice_linked)
     = [(4, 3, py "ABC", py "https://www.example.org/abc?ref=pr")] /\
     get_paragraph_html twice_linked true
     = py "See <a href=" ++ [Py.dquote] ++ py "https://www.example.org/abc"
       ++ [Py.dquote] ++ py " target=" ++ [Py.dquote] ++ py "_blank"
       ++ [Py.dquote] ++ py ">ABC</a> and ABC again" /\
     count_occurrences (py "<a ") (get_paragraph_html twice_linked true)
     = 1%nat).
Proof.
  intros text hyperlinks.
  split.
  { unfold splice_all, selected. now rewrite walk_select. }
  split.
  { unfold selected.
    apply (select_disjoint
             (sort_by_key (link_positions_of text hyperlinks)) []).
    constructor. }
  split.
  { unfold selected. apply select_Forall, sort_by_key_Forall,
      link_positions_occur. }
  split; [apply render_links_spliced|].
  split; [apply get_paragraph_html_spliced|].
  split.
  { intros link_text url. unfold link_html.
    now rewrite clean_url_before_question. }
  split; [apply text_below_candidate|].
  repeat split; vm_compute; reflexivity.
Qed.

Lemma paragraph_renderer_splices_witness :
  sort_by_key
    (link_positions_of (py "Visit Mouser Electronics today")
       [(py "Mouser", py "https://www.mouser.com/?a=1");
        (py "Mouser Electronics", py "https://www.mouser.com/about");
        (py "today", py "https://www.mouser.com/new/?b=2")])
  = [(25, 5, py "today", py "https://www.mouser.com/new/?b=2")]
    ++ (6, 18, py "Mouser Electronics", py "https://www.mouser.com/about")
    :: [(6, 6, py "Mouser", py "https://www.mouser.com/?a=1")]
  /\
  Py.slice_to
    (fst (splice_all (py "Visit Mouser Electronics today")
            ([(25, 5, py "today", py "https://www.mouser.com/new/?b=2")]
             ++ [(6, 18, py "Mouser Electronics",
                  py "https://www.mouser.com/about")])))
    6
  = Py.slice_to (py "Visit Mouser Electronics today") 6.
Proof.
  split; [reflexivity|].
  exact (proj1
           (proj2 (proj2 (proj2 (proj2 (proj2 (proj2
              (paragraph_renderer_splices
                 (py "Visit Mouser Electronics today")
                 [(py "Mouser", py "https://www.mouser.com/?a=1");
                  (py "Mouser Electronics",
                   py "https://www.mouser.com/about");
                  (py "today",
                   py "https://www.mouser.com/new/?b=2")])))))))
           [(25, 5, py "today", py "https://www.mouser.com/new/?b=2")]
           (6, 18, py "Mouser Electronics",
            py "https://www.mouser.com/about")
           [(6, 6, py "Mouser", py "https://www.mouser.com/?a=1")]
           eq_refl).
Defined.

(* ================================================================== *)
(** * Properties of the image normaliser *)
(* ================================================================== *)

(** C7 (amended): a successful run reports the target width unchanged
    and, as height, the double-precision product of the source height and
    of the quotient target width / source width, truncated toward zero. *)
Theorem convert_reports_truncated_height :
  forall (opened : pystr + image)
         (codec : image -> Z -> Z -> Z -> option pystr)
         (output_path : pystr) (target_width quality : Z),
    cr_success
      (convert_png_to_jpg opened codec output_path target_width quality)
    = true ->
    exists img ratio new_height,
      opened = inr img /\
      true_div target_width (img_width img) = Some ratio /\
      int_of_float (int_mul_float (img_height img) ratio) = inr new_height /\
      cr_dimensions
        (convert_png_to_jpg opened codec output_path target_width quality)
      = Some (target_width, new_height).
Proof.
  intros opened codec output_path target_width quality.
  unfold convert_png_to_jpg.
  destruct opened as [msg | img]; [discriminate|].
  destruct (true_div target_width (img_width img)) as [ratio|] eqn:Er;
    [|discriminate].
  destruct (int_of_float (int_mul_float (img_height img) ratio))
    as [msg | new_height] eqn:Eh; [discriminate|].
  destruct (codec img target_width new_height quality); [discriminate|].
  intros _. exists img, ratio, new_height. now rewrite Er.
Qed.

Lemma convert_reports_truncated_height_witness :
  cr_success
    (convert_png_to_jpg (inr (rgba_image 1000 5)) codec_ok
       (py "out.jpg") 336 95) = true /\
  exists img ratio new_height,
    @inr pystr image (rgba_image 1000 5) = inr img /\
    true_div 336 (img_width img) = Some ratio /\
    int_of_float (int_mul_float (img_height img) ratio) = inr new_height /\
    cr_dimensions
      (convert_png_to_jpg (inr (rgba_image 1000 5)) codec_ok
         (py "out.jpg") 336 95)
    = Some (336, new_height).
Proof.
  split; [reflexivity|].
  exact (convert_reports_truncated_height
           (inr (rgba_image 1000 5)) codec_ok (py "out.jpg") 336 95
           eq_refl).
Defined.

(** C7, as stated, fails: a 1000 by 5 image is reported 336 by 1, and
    [round(5 * 336 / 1000)] is 2; a 15 by 45 image is reported 336 by
    1007, and [45 * 336 / 15] is 1008. *)
Lemma height_is_truncated_not_rounded :
  cr_success
    (convert_png_to_jpg (inr (rgba_image 1000 5)) codec_ok
       (py "out.jpg") 336 95) = true /\
  cr_dimensions
    (convert_png_to_jpg (inr (rgba_image 1000 5)) codec_ok
       (py "out.jpg") 336 95) = Some (336, 1) /\
  round_div (5 * 336) 1000 = 2 /\
  cr_dimensions
    (convert_png_to_jpg (inr (rgba_image 15 45)) codec_ok
       (py "out.jpg") 336 95) = Some (336, 1007) /\
  round_div (45 * 336) 15 = 1008.
Proof. repeat split; vm_compute; reflexivity. Qed.

(** On every size up to 96 by 96 the reported height is the exact
    quotient rounded down, or one less. *)
Lemma reported_height_on_small_sizes :
  forallb (fun w =>
             forallb (fun h =>
                        match reported_height w h with
                        | Some height =>
                            (height =? h * 336 / w)
                            || (height =? h * 336 / w - 1)
                        | None => false
                        end)
                     (Zseq 1 96))
          (Zseq 1 96) = true.
Proof. vm_compute. reflexivity. Qed.

(* ================================================================== *)
(** * Properties of [generate_month_folder] *)
(* ================================================================== *)

(** C9: the date "January 19, 2026" gives "2026-01 - Mouser"; without a
    date, or with an empty one, the folder is named after the year and
    the month of the clock, the month written with two digits. *)
Theorem generate_month_folder_format :
  forall now : Z * Z,
    generate_month_folder now (Some (py "January 19, 2026"))
    = py "2026-01 - Mouser" /\
    generate_month_folder now None
    = Py.str_of_Z (fst now) ++ py "-" ++ Py.pad2 (snd now) ++ py " - Mouser"
    /\
    generate_month_folder now (Some [])
    = Py.str_of_Z (fst now) ++ py "-" ++ Py.pad2 (snd now) ++ py " - Mouser"
    /\
    List.map Py.pad2 (Zseq 1 12)
    = [py "01"; py "02"; py "03"; py "04"; py "05"; py "06";
       py "07"; py "08"; py "09"; py "10"; py "11"; py "12"] /\
    generate_month_folder (2026, 3) None = py "2026-03 - Mouser".
Proof.
  intro now. repeat split; vm_compute; reflexivity.
Qed.

(* ================================================================== *)
(** * Properties of the folder processor *)
(* ================================================================== *)

Lemma endswith_png_not_docx (s : pystr) :
  Py.endswith (py ".png") s = true -> Py.endswith (py ".docx") s = false.
Proof.
  unfold Py.endswith.
  change (rev (py ".png")) with [103; 110; 112; 46]%N.
  change (rev (py ".docx")) with [120; 99; 111; 100; 46]%N.
  destruct (rev s) as [|c r]; [discriminate|].
  cbn [Py.startswith]. intro H.
  apply andb_true_iff in H as [Hc _]. apply N.eqb_eq in Hc. subst c.
  reflexivity.
Qed.

Lemma endswith_pdf_not_docx (s : pystr) :
  Py.endswith (py ".pdf") s = true -> Py.endswith (py ".docx") s = false.
Proof.
  unfold Py.endswith.
  change (rev (py ".pdf")) with [102; 100; 112; 46]%N.
  change (rev (py ".docx")) with [120; 99; 111; 100; 46]%N.
  destruct (rev s) as [|c r]; [discriminate|].
  cbn [Py.startswith]. intro H.
  apply andb_true_iff in H as [Hc _]. apply N.eqb_eq in Hc. subst c.
  reflexivity.
Qed.

Lemma endswith_pdf_not_png (s : pystr) :
  Py.endswith (py ".pdf") s = true -> Py.endswith (py ".png") s = false.
Proof.
  unfold Py.endswith.
  change (rev (py ".pdf")) with [102; 100; 112; 46]%N.
  change (rev (py ".png")) with [103; 110; 112; 46]%N.
  destruct (rev s) as [|c r]; [discriminate|].
  cbn [Py.startswith]. intro H.
  apply andb_true_iff in H as [Hc _]. apply N.eqb_eq in Hc. subst c.
  reflexivity.
Qed.

Lemma join_truthy (a b : pystr) :
  a <> [] -> Py.truthy (Path.join a b) = true.
Proof.
  intro Ha. unfold Path.join.
  destruct (Py.startswith [Path.sep] b) eqn:E.
  - destruct b; [discriminate | reflexivity].
  - destruct a as [|x a]; [contradiction|].
    destruct (negb (Py.truthy (x :: a)) || Py.endswith [Path.sep] (x :: a));
      reflexivity.
Qed.

Section FolderProperties.

Context {R : Runtime}.

Lemma find_step_spec (w : world) (folder_path : pystr) (files : found_files)
    (filename : pystr) :
  folder_path <> [] ->
  let files' := find_step w folder_path files filename in
  is_none (f_docx files')
  = is_none (f_docx files) && negb (docx_candidate w folder_path filename)
  /\ is_none (f_png files')
     = is_none (f_png files) && negb (png_candidate w folder_path filename)
  /\ is_none (f_pdf files')
     = is_none (f_pdf files) && negb (pdf_candidate w folder_path filename)
  /\ (holds_path (f_docx files) -> holds_path (f_docx files'))
  /\ (holds_path (f_png files) -> holds_path (f_png files'))
  /\ (holds_path (f_pdf files) -> holds_path (f_pdf files')).
Proof.
  intros Hp files'. subst files'.
  pose proof (join_truthy folder_path filename Hp) as Hj.
  assert (Hnew : holds_path (Some (Path.join folder_path filename)))
    by (intros path [= <-]; exact Hj).
  unfold find_step, docx_candidate, png_candidate, pdf_candidate.
  destruct (w_isfile w (Path.join folder_path filename));
    cbn [negb andb]; [|rewrite !andb_true_r; tauto].
  destruct (Py.endswith (py ".docx") (lower filename)) eqn:Ed;
    destruct (Py.contains (py "instruction") (lower filename)) eqn:Ei;
    cbn [negb andb].
  - (* a Word document with instructions: the other tests follow *)
    destruct (Py.endswith (py ".png") (lower filename)) eqn:Eg;
      [apply endswith_png_not_docx in Eg; congruence|].
    destruct (Py.endswith (py ".pdf") (lower filename)) eqn:Ef;
      [apply endswith_pdf_not_docx in Ef; congruence|].
    cbn [negb andb]. rewrite !andb_true_r. tauto.
  - destruct (Py.endswith (py ".png") (lower filename)) eqn:Eg;
      [apply endswith_png_not_docx in Eg; congruence|].
    destruct (Py.endswith (py ".pdf") (lower filename)) eqn:Ef;
      [apply endswith_pdf_not_docx in Ef; congruence|].
    cbn [negb andb]. rewrite !andb_true_r, !andb_false_r.
    destruct (is_none (f_docx files)) eqn:En; cbn [orb];
      [|destruct (Py.contains (py "publicrelations") (lower filename))];
      cbn [f_docx f_png f_pdf is_none]; rewrite ?En; tauto.
  - destruct (Py.endswith (py ".png") (lower filename)) eqn:Eg.
    + assert (Ef : Py.endswith (py ".pdf") (lower filename) = false).
      { destruct (Py.endswith (py ".pdf") (lower filename)) eqn:Ef;
          [apply endswith_pdf_not_png in Ef; congruence | reflexivity]. }
      rewrite Ef. cbn [negb andb f_docx f_png f_pdf is_none].
      rewrite !andb_true_r, !andb_false_r. tauto.
    + destruct (Py.endswith (py ".pdf") (lower filename)) eqn:Ef;
        cbn [negb andb]; [|rewrite !andb_true_r; tauto].
      rewrite !andb_true_r. tauto.
  - destruct (Py.endswith (py ".png") (lower filename)) eqn:Eg.
    + assert (Ef : Py.endswith (py ".pdf") (lower filename) = false).
      { destruct (Py.endswith (py ".pdf") (lower filename)) eqn:Ef;
          [apply endswith_pdf_not_png in Ef; congruence | reflexivity]. }
      rewrite Ef. cbn [negb andb f_docx f_png f_pdf is_none].
      rewrite !andb_true_r, !andb_false_r. tauto.
    + destruct (Py.endswith (py ".pdf") (lower filename)) eqn:Ef;
        cbn [negb andb]; [|rewrite !andb_true_r; tauto].
      destruct (Py.contains (py "order") (lower filename));
        cbn [negb andb]; [rewrite !andb_true_r; tauto|].
      rewrite !andb_true_r, ?andb_false_r.
      destruct (is_none (f_pdf files)) eqn:En; cbn [orb];
        [|destruct (Py.contains (py "publicrelations") (lower filename))];
        cbn [f_docx f_png f_pdf is_none];
        rewrite ?En, ?andb_true_r, ?andb_false_r; tauto.
Qed.

Lemma find_loop_spec (w : world) (folder_path : pystr) names :
  folder_path <> [] ->
  forall files,
    holds_path (f_docx files) -> holds_path (f_png files) ->
    holds_path (f_pdf files) ->
    let files' := fold_left (find_step w folder_path) names files in
    is_none (f_docx files')
    = is_none (f_docx files)
      && forallb (fun n => negb (docx_candidate w folder_path n)) names
    /\ is_none (f_png files')
       = is_none (f_png files)
         && forallb (fun n => negb (png_candidate w folder_path n)) names
    /\ is_none (f_pdf files')
       = is_none (f_pdf files)
         && forallb (fun n => negb (pdf_candidate w folder_path n)) names
    /\ holds_path (f_docx files') /\ holds_path (f_png files')
    /\ holds_path (f_pdf files').
Proof.
  intro Hp. induction names as [|name names IH]; intros files Hd Hg Hf.
  - cbn [fold_left forallb]. rewrite !andb_true_r. tauto.
  - cbn [fold_left forallb].
    destruct (find_step_spec w folder_path files name Hp)
      as (Ed & Eg & Ef & Hd' & Hg' & Hf').
    destruct (IH (find_step w folder_path files name)
                 (Hd' Hd) (Hg' Hg) (Hf' Hf))
      as (Ed2 & Eg2 & Ef2 & rest).
    rewrite Ed2, Eg2, Ef2, Ed, Eg, Ef, !andb_assoc. tauto.
Qed.

Lemma not_found_is_none (o : option pystr) :
  holds_path o -> not_found o = is_none o.
Proof.
  intro H. destruct o as [path|]; [|reflexivity].
  cbn [not_found is_none]. now rewrite (H path eq_refl).
Qed.

(** What [find_files] misses is what the folder does not hold. *)
Lemma find_files_missing (w : world) (folder_path : pystr) :
  folder_path <> [] ->
  not_found (f_docx (find_files w folder_path))
  = absent docx_candidate w folder_path
  /\ not_found (f_png (find_files w folder_path))
     = absent png_candidate w folder_path
  /\ not_found (f_pdf (find_files w folder_path))
     = absent pdf_candidate w folder_path.
Proof.
  intro Hp. unfold find_files, absent.
  assert (Hnone : holds_path None) by (intros path H; discriminate).
  destruct (find_loop_spec w folder_path (w_listdir w folder_path) Hp
              {| f_docx := None; f_png := None; f_pdf := None;
                 f_folder_name := Path.basename folder_path |}
              Hnone Hnone Hnone)
    as (Ed & Eg & Ef & Hd & Hg & Hf).
  rewrite !not_found_is_none by assumption.
  rewrite Ed, Eg, Ef. cbn [f_docx f_png f_pdf is_none andb]. tauto.
Qed.

(** C8: when the folder does not hold one of the three kinds of file,
    [process_press_release] returns without success, its only error
    names exactly the kinds that the folder does not hold, and no file
    has been written. *)
Theorem missing_files_abort :
  forall (render_web render_email : render_args -> pystr + pystr)
         (w : world) (folder_path press_release_template email_template : pystr)
         (image_url subject : option pystr) (cfg : option config),
    w_isdir w folder_path = true ->
    folder_path <> [] ->
    absent docx_candidate w folder_path
    || absent png_candidate w folder_path
    || absent pdf_candidate w folder_path = true ->
    process_press_release render_web render_email w folder_path
      press_release_template email_template image_url subject cfg
    = Returns
        {| success := false;
           folder_name := Some (Path.basename folder_path);
           files_to_upload := [];
           preview_urls := [];
           errors :=
             [py "Missing files: "
              ++ Py.join (py ", ") (absent_kinds w folder_path)];
           month_folder := None |}
        [].
Proof.
  intros render_web render_email w folder_path t1 t2 image_url subject cfg
    Hdir Hp Habsent.
  unfold process_press_release. rewrite Hdir. cbn [negb].
  destruct (find_files_missing w folder_path Hp) as (Ed & Eg & Ef).
  unfold missing_kinds. rewrite Ed, Eg, Ef.
  fold (absent_kinds w folder_path).
  assert (Hne : nonempty (absent_kinds w folder_path) = true).
  { unfold absent_kinds.
    destruct (absent docx_candidate w folder_path); [reflexivity|].
    destruct (absent png_candidate w folder_path); [reflexivity|].
    destruct (absent pdf_candidate w folder_path); [reflexivity|].
    discriminate. }
  rewrite Hne. reflexivity.
Qed.

End FolderProperties.

Lemma missing_files_abort_witness :
  w_isdir folder_without_pdf (py "/tmp/Widget Launch") = true /\
  py "/tmp/Widget Launch" <> [] /\
  process_press_release (R := ascii_runtime) echo_renderer echo_renderer
    folder_without_pdf (py "/tmp/Widget Launch") (py "<html>{{headline}}")
    (py "<html>{{subject}}") None None None
  = Returns
      {| success := false;
         folder_name := Some (py "Widget Launch");
         files_to_upload := [];
         preview_urls := [];
         errors := [py "Missing files: PDF file (.pdf)"];
         month_folder := None |}
      [].
Proof.
  split; [reflexivity|]. split; [discriminate|].
  exact (@missing_files_abort ascii_runtime echo_renderer echo_renderer
           folder_without_pdf (py "/tmp/Widget Launch")
           (py "<html>{{headline}}") (py "<html>{{subject}}")
           None None None eq_refl ltac:(discriminate) eq_refl).
Defined.

(* ================================================================== *)
(** * Further properties of the extractor *)
(* ================================================================== *)

(** *** The dict operations *)

Lemma dict_get_set_same {V} (d : Dict.t V) k v :
  Dict.get (Dict.set d k v) k = Some v.
Proof.
  induction d as [|[k' v'] d IH]; simpl.
  - now rewrite eqb_refl.
  - destruct (Py.eqb k' k) eqn:E; simpl; rewrite E; [reflexivity | exact IH].
Qed.

Lemma dict_get_set_other {V} (d : Dict.t V) k k' v :
  k <> k' -> Dict.get (Dict.set d k v) k' = Dict.get d k'.
Proof.
  intro Hk. induction d as [|[k0 v0] d IH]; simpl.
  - destruct (Py.eqb k k') eqn:E; [apply eqb_eq in E; contradiction|].
    reflexivity.
  - destruct (Py.eqb k0 k) eqn:E; simpl.
    + apply eqb_eq in E. subst k0.
      destruct (Py.eqb k k') eqn:E'; [apply eqb_eq in E'; contradiction|].
      reflexivity.
    + destruct (Py.eqb k0 k'); [reflexivity | exact IH].
Qed.

Lemma dict_get_in_keys {V} (d : Dict.t V) k :
  (exists v, Dict.get d k = Some v) <-> In k (Dict.keys d).
Proof.
  induction d as [|[k0 v0] d IH]; simpl.
  - split; [intros [v H]; discriminate | tauto].
  - destruct (Py.eqb k0 k) eqn:E.
    + apply eqb_eq in E. split; [now left | intros _; now exists v0].
    + apply eqb_neq in E. rewrite IH. tauto.
Qed.

Lemma dict_keys_set_present {V} (d : Dict.t V) k v :
  In k (Dict.keys d) -> Dict.keys (Dict.set d k v) = Dict.keys d.
Proof.
  induction d as [|[k0 v0] d IH]; simpl; [tauto|].
  intro H. destruct (Py.eqb k0 k) eqn:E; [reflexivity|].
  apply eqb_neq in E. simpl. f_equal. apply IH. tauto.
Qed.

Lemma dict_keys_set_absent {V} (d : Dict.t V) k v :
  ~ In k (Dict.keys d) -> Dict.keys (Dict.set d k v) = Dict.keys d ++ [k].
Proof.
  induction d as [|[k0 v0] d IH]; simpl; [reflexivity|].
  intro H. destruct (Py.eqb k0 k) eqn:E.
  - apply eqb_eq in E. tauto.
  - simpl. f_equal. apply IH. tauto.
Qed.

Lemma in_keys_dec {V} (d : Dict.t V) k :
  In k (Dict.keys d) \/ ~ In k (Dict.keys d).
Proof.
  destruct (Dict.get d k) as [v|] eqn:E.
  - left. apply dict_get_in_keys. now exists v.
  - right. intro H. apply dict_get_in_keys in H as [v H]. congruence.
Qed.

Lemma dict_keys_set_nodup {V} (d : Dict.t V) k v :
  NoDup (Dict.keys d) -> NoDup (Dict.keys (Dict.set d k v)).
Proof.
  intro H. destruct (in_keys_dec d k) as [Hin | Hout].
  - now rewrite dict_keys_set_present.
  - rewrite dict_keys_set_absent by exact Hout.
    apply NoDup_app; [exact H | repeat constructor; simpl; tauto |].
    intros x Hx [<- | []]. contradiction.
Qed.

Lemma dict_keys_set_Forall {V} (P : pystr -> Prop) (d : Dict.t V) k v :
  P k -> Forall P (Dict.keys d) -> Forall P (Dict.keys (Dict.set d k v)).
Proof.
  intros Hk H. destruct (in_keys_dec d k) as [Hin | Hout].
  - now rewrite dict_keys_set_present.
  - rewrite dict_keys_set_absent by exact Hout.
    apply Forall_app. split; [exact H | now constructor].
Qed.

(** *** What one paragraph changes *)

Ltac solve_contribute st :=
  unfold contribute;
  destruct (section_eqb (current_section st) trademarks); [reflexivity|];
  destruct (current_section st) eqn:?, (current_about_title st) eqn:?;
  unfold_updates; try case_if; unfold_updates; try reflexivity.

Section ExtractorInvariants.

Context {R : Runtime}.

Lemma contribute_subheadline st para :
  subheadline (contribute st para) = subheadline st.
Proof. solve_contribute st. Qed.

Lemma contribute_title st para :
  current_about_title (contribute st para) = current_about_title st.
Proof. solve_contribute st; congruence. Qed.

(** The fields that a paragraph arriving at the section block leaves
    alone. *)
Lemma section_step_subheadline st para text style :
  subheadline (section_step st para text style) = subheadline st.
Proof.
  unfold section_step.
  repeat case_if; unfold_updates; auto using contribute_subheadline.
Qed.

(** [body_paragraphs] after one paragraph: unchanged, or longer by the
    rendering of this paragraph. *)
Lemma contribute_body st para :
  body_paragraphs (contribute st para) = body_paragraphs st \/
  body_paragraphs (contribute st para)
  = body_paragraphs st ++ [get_paragraph_html para true].
Proof.
  unfold contribute.
  destruct (section_eqb (current_section st) trademarks); [now left|].
  destruct (current_section st) eqn:?, (current_about_title st) eqn:?;
    unfold_updates; try case_if; unfold_updates; auto.
Qed.

Lemma parse_step_body st para :
  body_paragraphs (parse_step st para) = body_paragraphs st \/
  (considered para = true /\
   body_paragraphs (parse_step st para)
   = body_paragraphs st ++ [get_paragraph_html para true]).
Proof.
  unfold parse_step, considered, text_of.
  destruct (Py.truthy (Py.strip (para_text para))); cbn [negb andb];
    [|now left].
  destruct (Py.eqb (Py.strip (para_text para)) marker_en_dash
            || Py.eqb (Py.strip (para_text para)) marker_hyphen);
    cbn [negb]; [now left|].
  unfold section_step.
  repeat case_if; unfold_updates; auto;
    destruct (contribute_body st para); auto.
Qed.

Lemma parse_from_body ps : forall st,
  exists added,
    body_paragraphs (parse_from st ps) = body_paragraphs st ++ added /\
    subseq added
      (map (fun para => get_paragraph_html para true)
           (filter considered ps)).
Proof.
  induction ps as [|para ps IH]; intro st.
  - exists []. split; [now rewrite app_nil_r | constructor].
  - rewrite parse_from_cons.
    destruct (IH (parse_step st para)) as (added & Hb & Hs).
    destruct (parse_step_body st para) as [E | [Hc E]].
    + exists added. rewrite Hb, E. split; [reflexivity|].
      cbn [filter]. destruct (considered para); [|exact Hs].
      cbn [map]. now constructor.
    + exists (get_paragraph_html para true :: added).
      rewrite Hb, E, <- app_assoc. split; [reflexivity|].
      cbn [filter]. rewrite Hc. cbn [map]. now constructor.
Qed.

Lemma subseq_length {A} (l1 l2 : list A) :
  subseq l1 l2 -> (length l1 <= length l2)%nat.
Proof. induction 1; simpl; lia. Qed.

Lemma subseq_In {A} (l1 l2 : list A) x :
  subseq l1 l2 -> In x l1 -> In x l2.
Proof.
  induction 1 as [|y l1 l2 Hs IH|y l1 l2 Hs IH]; simpl; intro Hin;
    [tauto | right; auto |].
  destruct Hin as [<- | Hin]; [now left | right; auto].
Qed.

(** X1: Every body paragraph is the rendering of a paragraph of the
    document, in document order; paragraphs that are skipped give none. *)
Theorem body_paragraphs_from_document :
  forall doc : list paragraph,
    subseq (body_paragraphs (parse_docx doc))
           (map (fun para => get_paragraph_html para true)
                (filter considered doc)) /\
    (length (body_paragraphs (parse_docx doc)) <= length doc)%nat.
Proof.
  intro doc. unfold parse_docx.
  destruct (parse_from_body doc initial_state) as (added & Hb & Hs).
  cbn [body_paragraphs initial_state app] in Hb. rewrite Hb.
  split; [exact Hs|].
  apply subseq_length in Hs. rewrite length_map in Hs.
  pose proof (filter_length_le considered doc). lia.
Qed.

(** A paragraph that is empty after trimming, or a closing marker,
    changes nothing. *)
Lemma parse_step_skipped st para :
  considered para = false -> parse_step st para = st.
Proof.
  unfold considered, text_of, parse_step.
  destruct (Py.truthy (Py.strip (para_text para))); cbn [negb andb];
    [|reflexivity].
  intro H. apply negb_false_iff in H. now rewrite H.
Qed.

(** X2: Leaving the skipped paragraphs out of a document does not change
    what is extracted from it. *)
Theorem skipped_paragraphs_do_not_matter :
  forall (st : parse_state) (ps : list paragraph),
    parse_from st (filter considered ps) = parse_from st ps.
Proof.
  intros st ps. revert st.
  induction ps as [|para ps IH]; intro st; [reflexivity|].
  cbn [filter]. destruct (considered para) eqn:E.
  - rewrite !parse_from_cons. apply IH.
  - rewrite parse_from_cons, (parse_step_skipped st para E). apply IH.
Qed.

(** *** Headline and subheadline *)

Lemma parse_step_headline_truthy st para :
  Py.truthy (headline st) = true ->
  Py.truthy (headline (parse_step st para)) = true.
Proof.
  intro H. rewrite parse_step_headline by exact H.
  destruct (replaces_headline para) eqn:E; [|exact H].
  now apply replaces_headline_truthy.
Qed.

Lemma parse_step_subheadline st para :
  subheadline (parse_step st para) = subheadline st \/
  (Py.truthy (headline st) = true /\
   Py.truthy (subheadline st) = false /\
   body_paragraphs st = [] /\
   headline (parse_step st para) = headline st /\
   body_paragraphs (parse_step st para) = [] /\
   subheadline (parse_step st para) = text_of para).
Proof.
  unfold parse_step. fold (text_of para).
  repeat case_if; unfold_updates; auto using section_step_subheadline.
  right.
  match goal with
  | H : captures_subheadline _ _ _ _ = true |- _ =>
      unfold captures_subheadline in H;
      destruct (Py.truthy (headline st)); [|discriminate];
      destruct (Py.truthy (subheadline st)); [discriminate|];
      destruct (body_paragraphs st); [|discriminate]
  end.
  repeat split.
Qed.

Lemma parse_step_subheadline_kept st para :
  Py.truthy (subheadline st) = true \/ body_paragraphs st <> [] ->
  subheadline (parse_step st para) = subheadline st.
Proof.
  intro H.
  destruct (parse_step_subheadline st para) as [E | (_ & Hs & Hb & _)];
    [exact E|].
  destruct H as [H | H]; congruence.
Qed.

(** X3: The subheadline is set at most once, and never after the first body
    paragraph. *)
Theorem subheadline_set_once :
  forall (st : parse_state) (ps : list paragraph),
    Py.truthy (subheadline st) = true \/ body_paragraphs st <> [] ->
    subheadline (parse_from st ps) = subheadline st.
Proof.
  intros st ps. revert st.
  induction ps as [|para ps IH]; intros st H; [reflexivity|].
  rewrite parse_from_cons.
  pose proof (parse_step_subheadline_kept st para H) as E.
  rewrite IH; [exact E|].
  destruct H as [H | H]; [left; now rewrite E | right].
  destruct (parse_step_body st para) as [Eb | [_ Eb]]; rewrite Eb;
    [exact H | now destruct (body_paragraphs st)].
Qed.

Lemma headline_under_subheadline_from ps : forall st,
  (Py.truthy (subheadline st) = true -> Py.truthy (headline st) = true) ->
  Py.truthy (subheadline (parse_from st ps)) = true ->
  Py.truthy (headline (parse_from st ps)) = true.
Proof.
  induction ps as [|para ps IH]; intros st H; [exact H|].
  rewrite parse_from_cons. apply IH. intro Hs.
  destruct (parse_step_subheadline st para)
    as [E | (Hh & _ & _ & Eh & _)].
  - rewrite E in Hs. now apply parse_step_headline_truthy, H.
  - now rewrite Eh.
Qed.

(** X4: A document ends with a subheadline only if it ends with a
    headline. *)
Theorem subheadline_needs_headline :
  forall doc : list paragraph,
    Py.truthy (subheadline (parse_docx doc)) = true ->
    Py.truthy (headline (parse_docx doc)) = true.
Proof.
  intro doc. apply headline_under_subheadline_from. discriminate.
Qed.

Lemma parse_step_no_headline st para :
  headline st = [] -> headline_style para = false ->
  headline (parse_step st para) = [] /\
  subheadline (parse_step st para) = subheadline st.
Proof.
  intros Hh Hs. unfold headline_style in Hs.
  apply orb_false_iff in Hs as [Hs H1].
  apply orb_false_iff in Hs as [Ht Ht2].
  unfold parse_step, captures_subheadline.
  rewrite Ht, Ht2, H1, Hh. cbn [Py.truthy negb andb orb].
  repeat case_if; unfold_updates;
    rewrite ?section_step_headline, ?section_step_subheadline; auto.
Qed.

(** X5: A document without a paragraph styled [Title], [Title2] or
    [Heading 1] has no headline and no subheadline. *)
Theorem no_headline_without_headline_style :
  forall doc : list paragraph,
    Forall (fun para => headline_style para = false) doc ->
    headline (parse_docx doc) = [] /\ subheadline (parse_docx doc) = [].
Proof.
  intros doc H. unfold parse_docx.
  assert (G : forall st,
             headline st = [] ->
             headline (parse_from st doc) = [] /\
             subheadline (parse_from st doc) = subheadline st).
  { induction H as [|para doc Hp Hd IH]; intros st Hh; [now split|].
    rewrite parse_from_cons.
    destruct (parse_step_no_headline st para Hh Hp) as [Eh Es].
    destruct (IH _ Eh) as [Eh' Es']. split; congruence. }
  now apply G.
Qed.

(** *** Date and product link *)

Lemma re_space_star_passes_on {A} : passes_on (@re_space_star A).
Proof.
  intros k s. induction s as [|c s IH]; intros r H; simpl in H.
  - now exists [].
  - destruct (Py.isspace c); [|now exists (c :: s)].
    destruct (re_space_star k s) as [r'|] eqn:E.
    + injection H as <-. destruct (IH _ eq_refl) as (s' & Hl & Hk).
      exists s'. simpl. split; [lia | exact Hk].
    + now exists (c :: s).
Qed.

Lemma re_space_plus_passes_on {A} : passes_on (@re_space_plus A).
Proof.
  intros k [|c s] r H; simpl in H; [discriminate|].
  destruct (Py.isspace c); [|discriminate].
  destruct (re_space_star_passes_on k s r H) as (s' & Hl & Hk).
  exists s'. simpl. split; [lia | exact Hk].
Qed.

Lemma re_digit_passes_on {A} : passes_on (@re_digit R A).
Proof.
  intros k [|c s] r H; simpl in H; [discriminate|].
  destruct (isdecimal c); [|discriminate].
  exists s. simpl. split; [lia | exact H].
Qed.

Lemma re_char_passes_on {A} c : passes_on (@re_char A c).
Proof.
  intros k [|x s] r H; simpl in H; [discriminate|].
  destruct (N.eqb x c); [|discriminate].
  exists s. simpl. split; [lia | exact H].
Qed.

Lemma re_digit_1_2_passes_on {A} : passes_on (@re_digit_1_2 R A).
Proof.
  intros k s r H. unfold re_digit_1_2 in H.
  apply re_digit_passes_on in H as (s1 & Hl1 & H).
  destruct (re_digit k s1) as [r'|] eqn:E.
  - injection H as <-. apply re_digit_passes_on in E as (s2 & Hl2 & E).
    exists s2. split; [lia | exact E].
  - exists s1. split; [lia | exact H].
Qed.

Lemma re_digit_4_passes_on {A} : passes_on (@re_digit_4 R A).
Proof.
  intros k s r H. unfold re_digit_4 in H.
  apply re_digit_passes_on in H as (s1 & Hl1 & H).
  apply re_digit_passes_on in H as (s2 & Hl2 & H).
  apply re_digit_passes_on in H as (s3 & Hl3 & H).
  apply re_digit_passes_on in H as (s4 & Hl4 & H).
  exists s4. split; [lia | exact H].
Qed.

(** A month name takes at least one character. *)
Lemma re_months_consumes {A} months (k : pystr -> option A) s r :
  Forall (fun m => m <> []) months ->
  re_months months k s = Some r ->
  exists s', (length s' < length s)%nat /\ k s' = Some r.
Proof.
  induction 1 as [|m months Hm Hms IH]; simpl; [discriminate|].
  destruct (Py.startswith m s) eqn:E.
  - destruct (k (skipn (length m) s)) as [r'|] eqn:Ek.
    + intros [= <-]. exists (skipn (length m) s). split; [|exact Ek].
      apply startswith_app in E as [rest ->].
      rewrite length_skipn, length_app.
      destruct m; [contradiction | simpl; lia].
    + exact IH.
  - exact IH.
Qed.

Lemma month_names_nonempty : Forall (fun m => m <> []) month_names.
Proof. repeat constructor; discriminate. Qed.

(** The date found at the start of a text is never empty. *)
Lemma match_date_truthy s d :
  match_date s = Some d -> Py.truthy d = true.
Proof.
  unfold match_date.
  destruct (re_months month_names _ s) as [rest|] eqn:E; [|discriminate].
  intros [= <-].
  apply (re_months_consumes _ _ _ _ month_names_nonempty) in E
    as (s1 & Hl1 & E).
  apply re_space_plus_passes_on in E as (s2 & Hl2 & E).
  apply re_digit_1_2_passes_on in E as (s3 & Hl3 & E).
  apply re_char_passes_on in E as (s4 & Hl4 & E).
  apply re_space_plus_passes_on in E as (s5 & Hl5 & E).
  apply re_digit_4_passes_on in E as (s6 & Hl6 & E).
  injection E as <-.
  assert (Hlt : (length s6 < length s)%nat) by lia.
  destruct s as [|c s]; [simpl in Hlt; lia|].
  cbn [length] in *.
  replace (S (length s) - length s6)%nat
    with (S (length s - length s6)) by lia.
  reflexivity.
Qed.

Lemma first_date_snoc fragments html :
  first_date (fragments ++ [html])
  = if Py.truthy (first_date fragments) then first_date fragments
    else match match_date html with Some d => d | None => [] end.
Proof.
  induction fragments as [|x fragments IH]; simpl.
  - destruct (match_date html); reflexivity.
  - destruct (match_date x) as [d|] eqn:E; [|exact IH].
    now rewrite (match_date_truthy x d E).
Qed.

Lemma falsy_is_empty (s : pystr) : Py.truthy s = false -> s = [].
Proof. destruct s; [reflexivity | discriminate]. Qed.

(** What one paragraph does to the date and to the body paragraphs
    together. *)
Lemma contribute_date st para :
  date st = first_date (body_paragraphs st) ->
  date (contribute st para) = first_date (body_paragraphs (contribute st para)).
Proof.
  intro H. unfold contribute.
  destruct (section_eqb (current_section st) trademarks); [exact H|].
  assert (Hbody :
            match match_date (get_paragraph_html para true) with
            | Some d => if negb (Py.truthy (date st)) then d else date st
            | None => date st
            end
            = first_date (body_paragraphs st
                          ++ [get_paragraph_html para true])).
  { rewrite first_date_snoc, <- H.
    destruct (Py.truthy (date st)) eqn:Et; cbn [negb];
      destruct (match_date (get_paragraph_html para true));
      try reflexivity; now apply falsy_is_empty. }
  destruct (current_section st) eqn:?, (current_about_title st) eqn:?;
    unfold_updates; try exact Hbody; try exact H.
  case_if; unfold_updates; exact H.
Qed.

Lemma parse_step_date st para :
  date st = first_date (body_paragraphs st) ->
  date (parse_step st para)
  = first_date (body_paragraphs (parse_step st para)).
Proof.
  intro H. unfold parse_step, section_step.
  repeat case_if; unfold_updates; auto using contribute_date.
Qed.

(** X6: The date of a document is the date at the start of the first body
    paragraph that starts with one. *)
Theorem date_is_first_date_in_body :
  forall doc : list paragraph,
    date (parse_docx doc) = first_date (body_paragraphs (parse_docx doc)).
Proof.
  intro doc. unfold parse_docx.
  assert (G : forall st,
             date st = first_date (body_paragraphs st) ->
             date (parse_from st doc)
             = first_date (body_paragraphs (parse_from st doc))).
  { induction doc as [|para doc IH]; intros st H; [exact H|].
    rewrite parse_from_cons. apply IH. now apply parse_step_date. }
  now apply G.
Qed.

Lemma first_product_link_query_free urls :
  Py.contains (py "?") (first_product_link urls) = false.
Proof.
  induction urls as [|url urls IH]; simpl; [reflexivity|].
  case_if; [apply clean_url_query_free | exact IH].
Qed.

Lemma contribute_product_link st para :
  product_link (contribute st para) = product_link st \/
  (Py.truthy (product_link st) = false /\
   product_link (contribute st para)
   = first_product_link (Dict.values (extract_hyperlinks para))).
Proof.
  unfold contribute.
  destruct (section_eqb (current_section st) trademarks); [now left|].
  destruct (current_section st) eqn:?, (current_about_title st) eqn:?;
    unfold_updates; try case_if; unfold_updates; auto;
    destruct (Py.truthy (product_link st)); cbn [negb]; auto.
Qed.

Lemma parse_step_product_link st para :
  product_link (parse_step st para) = product_link st \/
  (Py.truthy (product_link st) = false /\
   product_link (parse_step st para)
   = first_product_link (Dict.values (extract_hyperlinks para))).
Proof.
  unfold parse_step, section_step.
  repeat case_if; unfold_updates; auto using contribute_product_link.
Qed.

Lemma parse_from_product_link_clean ps : forall st,
  Py.contains (py "?") (product_link st) = false ->
  Py.contains (py "?") (product_link (parse_from st ps)) = false.
Proof.
  induction ps as [|para ps IH]; intros st H; [exact H|].
  rewrite parse_from_cons. apply IH.
  destruct (parse_step_product_link st para) as [E | [_ E]]; rewrite E;
    [exact H | apply first_product_link_query_free].
Qed.

Lemma parse_from_product_link_kept ps : forall st,
  Py.truthy (product_link st) = true ->
  product_link (parse_from st ps) = product_link st.
Proof.
  induction ps as [|para ps IH]; intros st H; [reflexivity|].
  rewrite parse_from_cons.
  destruct (parse_step_product_link st para) as [E | [E _]];
    [|congruence].
  rewrite IH; [exact E | now rewrite E].
Qed.

(** X7: The product link of a document never holds a question mark, and once
    a product link has been found no later paragraph changes it. *)
Theorem product_link_clean_and_first :
  forall (st : parse_state) (ps : list paragraph),
    (Py.contains (py "?") (product_link st) = false ->
     Py.contains (py "?") (product_link (parse_from st ps)) = false) /\
    (Py.truthy (product_link st) = true ->
     product_link (parse_from st ps) = product_link st) /\
    Py.contains (py "?") (product_link (parse_docx ps)) = false.
Proof.
  intros st ps.
  split; [apply parse_from_product_link_clean|].
  split; [apply parse_from_product_link_kept|].
  unfold parse_docx. now apply parse_from_product_link_clean.
Qed.

(** *** The About sections *)

Lemma about_prefix_truthy text :
  Py.startswith (py "About ") text = true -> Py.truthy text = true.
Proof. destruct text; [discriminate | reflexivity]. Qed.

Lemma contribute_about_consistent st para :
  about_consistent st -> about_consistent (contribute st para).
Proof.
  intro H. pose proof H as (Ht & Hs & Hk & Hn). unfold contribute.
  destruct (section_eqb (current_section st) trademarks); [exact H|].
  destruct (current_section st) eqn:Es,
           (current_about_title st) as [p|] eqn:Et;
    try exact H.
  destruct (Py.truthy p) eqn:Ep; [|exact H].
  destruct (Ht p eq_refl) as [_ [content Hc]].
  unfold about_consistent. unfold_updates. rewrite Es, Et, Hc.
  assert (Hin : In p (Dict.keys (about_sections st)))
    by (apply dict_get_in_keys; now exists content).
  rewrite dict_keys_set_present by exact Hin.
  repeat split; auto; try discriminate.
  - injection H0 as <-. exact Ep.
  - injection H0 as <-. rewrite dict_get_set_same. eauto.
Qed.

Lemma parse_step_about_consistent st para :
  about_consistent st -> about_consistent (parse_step st para).
Proof.
  intro H. unfold parse_step, section_step. fold (text_of para).
  repeat case_if; try exact H; auto using contribute_about_consistent;
    destruct H as (Ht & Hs & Hk & Hn); unfold about_consistent;
    unfold_updates; repeat split; auto; try discriminate.
  all: try match goal with
           | H : Some _ = Some _ |- _ => injection H as <-
           end.
  all: try (now apply about_prefix_truthy).
  all: try (rewrite dict_get_set_same; eauto).
  all: try (now apply Ht).
  all: try (apply dict_keys_set_Forall; assumption).
  all: try (now apply dict_keys_set_nodup).
Qed.

(** X8: For every document the section dict and the open section agree at
    the end, so that appending to the open section always finds its
    key; every title starts with "About " and no title is listed
    twice. *)
Theorem about_sections_consistent :
  forall doc : list paragraph, about_consistent (parse_docx doc).
Proof.
  intro doc. unfold parse_docx.
  assert (G : forall st,
             about_consistent st -> about_consistent (parse_from st doc)).
  { induction doc as [|para doc IH]; intros st H; [exact H|].
    rewrite parse_from_cons. now apply IH, parse_step_about_consistent. }
  apply G. unfold about_consistent. cbn.
  repeat split; try discriminate; constructor.
Qed.

End ExtractorInvariants.

(* ================================================================== *)
(** * Properties of the hyperlink extractor *)
(* ================================================================== *)

Lemma extract_one_cases rels acc h :
  (extract_one rels acc h = acc /\ forall url, ~ resolves rels h url) \/
  (exists url,
      resolves rels h url /\
      extract_one rels acc h = Dict.set acc (link_text_of h) url).
Proof.
  unfold extract_one, resolves.
  destruct (r_id h) as [rid|] eqn:Er;
    [|left; split; [reflexivity | intros url (x & H & _); discriminate]].
  destruct (Py.truthy rid) eqn:Et;
    [|left; split; [reflexivity|];
      intros url (x & [= <-] & H & _); congruence].
  destruct (Dict.get rels rid) as [target|] eqn:Eg;
    [|left; split; [reflexivity|];
      intros url (x & [= <-] & _ & H & _); congruence].
  destruct (Py.truthy target) eqn:Eu;
    [|left; split; [reflexivity|];
      intros url (x & [= <-] & _ & H & H' & _); congruence].
  destruct (Py.truthy (link_text_of h)) eqn:El;
    [|left; split; [reflexivity|];
      intros url (x & [= <-] & _ & _ & _ & H); congruence].
  right. exists target. split; [|reflexivity]. now exists rid.
Qed.

Lemma resolves_unique rels h url url' :
  resolves rels h url -> resolves rels h url' -> url = url'.
Proof.
  intros (rid & Hr & _ & Hg & _) (rid' & Hr' & _ & Hg' & _). congruence.
Qed.

(** What the loop keeps true of the map it builds. *)
Lemma extract_loop_sound rels links : forall acc,
  NoDup (Dict.keys acc) ->
  NoDup (Dict.keys (fold_left (extract_one rels) links acc)) /\
  forall t url,
    Dict.get (fold_left (extract_one rels) links acc) t = Some url ->
    Dict.get acc t = Some url \/
    exists h, In h links /\ link_text_of h = t /\ resolves rels h url.
Proof.
  induction links as [|h links IH]; intros acc Hn; cbn [fold_left].
  - split; [exact Hn | auto].
  - destruct (extract_one_cases rels acc h) as [[E _] | (u & Hr & E)];
      rewrite E.
    + destruct (IH acc Hn) as [Hn' Hs]. split; [exact Hn'|].
      intros t url Hg. destruct (Hs t url Hg) as [H | (h' & Hin & H)];
        [now left | right; exists h'; simpl; tauto].
    + destruct (IH (Dict.set acc (link_text_of h) u)
                   (dict_keys_set_nodup _ _ _ Hn)) as [Hn' Hs].
      split; [exact Hn'|].
      intros t url Hg. destruct (Hs t url Hg) as [H | (h' & Hin & H)];
        [|right; exists h'; simpl; tauto].
      destruct (Py.eqb (link_text_of h) t) eqn:Et.
      * apply eqb_eq in Et. subst t. rewrite dict_get_set_same in H.
        injection H as <-. right. exists h. simpl. tauto.
      * apply eqb_neq in Et. rewrite dict_get_set_other in H by exact Et.
        now left.
Qed.

Lemma extract_loop_last rels after : forall acc t url,
  Dict.get acc t = Some url ->
  (forall h u, In h after -> resolves rels h u -> link_text_of h <> t) ->
  Dict.get (fold_left (extract_one rels) after acc) t = Some url.
Proof.
  induction after as [|h after IH]; intros acc t url Hg Hd; [exact Hg|].
  cbn [fold_left]. apply IH; [|intros h' u Hin; apply Hd; now right].
  destruct (extract_one_cases rels acc h) as [[E _] | (u & Hr & E)];
    rewrite E; [exact Hg|].
  rewrite dict_get_set_other; [exact Hg|].
  apply (Hd h u); [now left | exact Hr].
Qed.

(** X9: The map of a paragraph has no link text twice; each of its entries
    has a non-empty text and a non-empty URL and comes from a hyperlink
    element of the paragraph; and of several elements with the same text
    the last one gives the URL. *)
Theorem extract_hyperlinks_last_wins :
  forall p : paragraph,
    NoDup (Dict.keys (extract_hyperlinks p)) /\
    (forall t url,
        Dict.get (extract_hyperlinks p) t = Some url ->
        Py.truthy t = true /\ Py.truthy url = true /\
        exists h, In h (para_links p) /\ link_text_of h = t /\
                  resolves (para_rels p) h url) /\
    (forall before h after url,
        para_links p = before ++ h :: after ->
        resolves (para_rels p) h url ->
        (forall h' u, In h' after -> resolves (para_rels p) h' u ->
                      link_text_of h' <> link_text_of h) ->
        Dict.get (extract_hyperlinks p) (link_text_of h) = Some url).
Proof.
  intro p. unfold extract_hyperlinks.
  destruct (extract_loop_sound (para_rels p) (para_links p) [])
    as [Hn Hs]; [constructor|].
  split; [exact Hn|]. split.
  - intros t url Hg. destruct (Hs t url Hg) as [H | (h & Hin & <- & Hr)];
      [discriminate|].
    pose proof Hr as (rid & _ & _ & _ & Hu & Ht).
    repeat split; auto. now exists h.
  - intros before h after url E Hr Hd. rewrite E, fold_left_app.
    cbn [fold_left]. apply extract_loop_last; [|exact Hd].
    destruct (extract_one_cases (para_rels p)
                (fold_left (extract_one (para_rels p)) before []) h)
      as [[_ Hno] | (u & Hr' & ->)]; [now destruct (Hno url)|].
    rewrite (resolves_unique _ _ _ _ Hr Hr'). apply dict_get_set_same.
Qed.

(** X10: When no link text of the map occurs in the text, or links are not
    asked for, the paragraph is rendered as its plain text. *)
Theorem plain_text_when_no_link_occurs :
  forall p : paragraph,
    get_paragraph_html p false = para_text p /\
    (Forall (fun t => Py.find t (para_text p) = -1)
            (Dict.keys (extract_hyperlinks p)) ->
     get_paragraph_html p true = para_text p).
Proof.
  intro p. split.
  - unfold get_paragraph_html. now rewrite andb_false_r.
  - intro H. rewrite get_paragraph_html_spliced.
    assert (E : link_positions_of (para_text p) (extract_hyperlinks p) = []).
    { induction (extract_hyperlinks p) as [|[t u] d IH]; [reflexivity|].
      cbn [Dict.keys map fst] in H. inversion H as [|? ? Ht Hd]; subst.
      cbn [link_positions_of]. rewrite Ht. cbn. now apply IH. }
    unfold selected. rewrite E. cbn [sort_by_key fold_right select].
    apply spliced_nothing.
Qed.

(* ================================================================== *)
(** * Properties of the file search *)
(* ================================================================== *)

Lemma last_such_cons {A} (test : A -> bool) x l :
  last_such test (x :: l)
  = match last_such test l with
    | Some y => Some y
    | None => if test x then Some x else None
    end.
Proof.
  unfold last_such. cbn [rev].
  induction (rev l) as [|y r IH]; cbn [app find].
  - reflexivity.
  - destruct (test y); [reflexivity | exact IH].
Qed.

Section SearchProperties.

Context {R : Runtime}.

(** What one file name does to the three entries. *)
Lemma find_step_entries (w : world) (folder_path : pystr)
    (files : found_files) (filename : pystr) :
  f_docx (find_step w folder_path files filename)
  = (if docx_candidate w folder_path filename
     then if is_none (f_docx files) || prefers filename
          then Some (Path.join folder_path filename)
          else f_docx files
     else f_docx files)
  /\ f_png (find_step w folder_path files filename)
     = (if png_candidate w folder_path filename
        then Some (Path.join folder_path filename)
        else f_png files)
  /\ f_pdf (find_step w folder_path files filename)
     = (if pdf_candidate w folder_path filename
        then if is_none (f_pdf files) || prefers filename
             then Some (Path.join folder_path filename)
             else f_pdf files
        else f_pdf files)
  /\ f_folder_name (find_step w folder_path files filename)
     = f_folder_name files.
Proof.
  unfold find_step, docx_candidate, png_candidate, pdf_candidate, prefers.
  destruct (w_isfile w (Path.join folder_path filename));
    cbn [negb andb]; [|tauto].
  destruct (Py.endswith (py ".docx") (lower filename)) eqn:Ed;
    destruct (Py.contains (py "instruction") (lower filename)) eqn:Ei;
    cbn [negb andb].
  - rewrite !andb_false_r.
    destruct (Py.endswith (py ".png") (lower filename)) eqn:Eg;
      [apply endswith_png_not_docx in Eg; congruence|].
    destruct (Py.endswith (py ".pdf") (lower filename)) eqn:Ef;
      [apply endswith_pdf_not_docx in Ef; congruence|].
    tauto.
  - destruct (Py.endswith (py ".png") (lower filename)) eqn:Eg;
      [apply endswith_png_not_docx in Eg; congruence|].
    destruct (Py.endswith (py ".pdf") (lower filename)) eqn:Ef;
      [apply endswith_pdf_not_docx in Ef; congruence|].
    cbn [andb].
    destruct (is_none (f_docx files)
              || Py.contains (py "publicrelations") (lower filename));
      cbn [f_docx f_png f_pdf f_folder_name]; tauto.
  - rewrite !andb_false_r.
    destruct (Py.endswith (py ".png") (lower filename)) eqn:Eg.
    + assert (Ef : Py.endswith (py ".pdf") (lower filename) = false).
      { destruct (Py.endswith (py ".pdf") (lower filename)) eqn:Ef;
          [apply endswith_pdf_not_png in Ef; congruence | reflexivity]. }
      rewrite ?Ef. cbn [andb f_docx f_png f_pdf f_folder_name]. tauto.
    + destruct (Py.endswith (py ".pdf") (lower filename)); cbn [andb];
        tauto.
  - destruct (Py.endswith (py ".png") (lower filename)) eqn:Eg.
    + assert (Ef : Py.endswith (py ".pdf") (lower filename) = false).
      { destruct (Py.endswith (py ".pdf") (lower filename)) eqn:Ef;
          [apply endswith_pdf_not_png in Ef; congruence | reflexivity]. }
      rewrite ?Ef. cbn [andb f_docx f_png f_pdf f_folder_name]. tauto.
    + destruct (Py.endswith (py ".pdf") (lower filename)); cbn [andb];
        [|tauto].
      destruct (Py.contains (py "order") (lower filename));
        cbn [negb andb]; [tauto|].
      destruct (is_none (f_pdf files)
                || Py.contains (py "publicrelations") (lower filename));
        cbn [f_docx f_png f_pdf f_folder_name]; tauto.
Qed.

(** A loop that keeps an entry as the three tests of [find_files] do:
    a preferred candidate always replaces it, another candidate only
    fills it when it is empty. *)
Lemma preferred_loop (candidate : pystr -> bool) (entry : pystr -> pystr)
    names : forall current,
  fold_left
    (fun cur n =>
       if candidate n
       then if is_none cur || prefers n then Some (entry n) else cur
       else cur)
    names current
  = match last_such (fun n => candidate n && prefers n) names with
    | Some n => Some (entry n)
    | None =>
        match current with
        | Some c => Some c
        | None => option_map entry (first_such candidate names)
        end
    end.
Proof.
  induction names as [|n names IH]; intro current.
  - cbn. now destruct current.
  - cbn [fold_left]. rewrite IH, last_such_cons.
    destruct (last_such (fun n0 => candidate n0 && prefers n0) names);
      [reflexivity|].
    unfold first_such. cbn [find].
    destruct (candidate n); cbn [andb].
    + destruct (prefers n); [now rewrite orb_true_r|].
      rewrite orb_false_r. now destruct current.
    + reflexivity.
Qed.

Lemma last_loop (candidate : pystr -> bool) (entry : pystr -> pystr)
    names : forall current,
  fold_left (fun cur n => if candidate n then Some (entry n) else cur)
            names current
  = match last_such candidate names with
    | Some n => Some (entry n)
    | None => current
    end.
Proof.
  induction names as [|n names IH]; intro current; [reflexivity|].
  cbn [fold_left]. rewrite IH, last_such_cons.
  destruct (last_such candidate names); [reflexivity|].
  now destruct (candidate n).
Qed.

Lemma find_loop_entries (w : world) (folder_path : pystr) names :
  forall files,
    let files' := fold_left (find_step w folder_path) names files in
    f_docx files'
    = fold_left
        (fun cur n =>
           if docx_candidate w folder_path n
           then if is_none cur || prefers n
                then Some (Path.join folder_path n) else cur
           else cur) names (f_docx files)
    /\ f_png files'
       = fold_left
           (fun cur n =>
              if png_candidate w folder_path n
              then Some (Path.join folder_path n) else cur)
           names (f_png files)
    /\ f_pdf files'
       = fold_left
           (fun cur n =>
              if pdf_candidate w folder_path n
              then if is_none cur || prefers n
                   then Some (Path.join folder_path n) else cur
              else cur) names (f_pdf files)
    /\ f_folder_name files' = f_folder_name files.
Proof.
  induction names as [|n names IH]; intro files; [cbn; tauto|].
  cbn [fold_left].
  destruct (find_step_entries w folder_path files n) as (Ed & Eg & Ef & En).
  destruct (IH (find_step w folder_path files n)) as (Hd & Hg & Hf & Hn).
  cbn zeta. rewrite Hd, Hg, Hf, Hn, Ed, Eg, Ef, En. tauto.
Qed.

(** X11: Which files [find_files] keeps: the last image of the folder; as
    the Word document and as the PDF the last candidate whose name holds
    "publicrelations", and without one the first candidate; nothing of
    a kind that the folder does not hold. *)
Theorem find_files_choice :
  forall (w : world) (folder_path : pystr),
    f_docx (find_files w folder_path)
    = option_map (Path.join folder_path)
        (preferred_choice (docx_candidate w folder_path)
           (w_listdir w folder_path))
    /\ f_png (find_files w folder_path)
       = option_map (Path.join folder_path)
           (last_such (png_candidate w folder_path)
              (w_listdir w folder_path))
    /\ f_pdf (find_files w folder_path)
       = option_map (Path.join folder_path)
           (preferred_choice (pdf_candidate w folder_path)
              (w_listdir w folder_path))
    /\ f_folder_name (find_files w folder_path)
       = Path.basename folder_path.
Proof.
  intros w folder_path. unfold find_files.
  destruct (find_loop_entries w folder_path (w_listdir w folder_path)
              {| f_docx := None; f_png := None; f_pdf := None;
                 f_folder_name := Path.basename folder_path |})
    as (Hd & Hg & Hf & Hn).
  cbn zeta in *. rewrite Hd, Hg, Hf, Hn.
  cbn [f_docx f_png f_pdf f_folder_name].
  rewrite !preferred_loop, last_loop. unfold preferred_choice.
  repeat split;
    match goal with
    | |- context [last_such ?t ?l] => destruct (last_such t l)
    end; reflexivity.
Qed.

End SearchProperties.

(* ================================================================== *)
(** * Properties of the outcomes of the folder processor *)
(* ================================================================== *)

Lemma has_char_app c (a b : pystr) :
  Py.has_char c (a ++ b) = Py.has_char c a || Py.has_char c b.
Proof. unfold Py.has_char. apply existsb_app. Qed.

Lemma has_char_firstn c n (s : pystr) :
  Py.has_char c s = false -> Py.has_char c (firstn n s) = false.
Proof.
  unfold Py.has_char. revert n.
  induction s as [|x s IH]; intros [|n] H; simpl in *; try reflexivity.
  apply orb_false_iff in H as [Hx Hs]. rewrite Hx. now apply IH.
Qed.

Lemma rfind_from_spec c (s : pystr) : forall i last,
  0 <= i -> last < i ->
  (Path.rfind_from c s i last = last /\ Py.has_char c s = false) \/
  (i <= Path.rfind_from c s i last /\
   Py.has_char c
     (skipn (Z.to_nat (Path.rfind_from c s i last - i + 1)) s) = false).
Proof.
  induction s as [|x s IH]; intros i last Hi Hl; cbn [Path.rfind_from].
  - left. now split.
  - assert (Hl' : (if N.eqb x c then i else last) < i + 1)
      by (destruct (N.eqb x c); lia).
    destruct (IH (i + 1) (if N.eqb x c then i else last)
                 ltac:(lia) Hl') as [[Er Hs] | [Hr Hs]].
    + rewrite Er. destruct (N.eqb x c) eqn:E.
      * right. split; [lia|].
        replace (i - i + 1) with 1 by lia. exact Hs.
      * left. split; [reflexivity|].
        unfold Py.has_char in *. cbn [existsb].
        now rewrite N.eqb_sym, E, Hs.
    + right. split; [lia|].
      set (r := Path.rfind_from c s (i + 1)
                  (if N.eqb x c then i else last)) in *.
      replace (Z.to_nat (r - i + 1))
        with (S (Z.to_nat (r - (i + 1) + 1))) by lia.
      exact Hs.
Qed.

(** A base name holds no slash. *)
Lemma basename_no_sep (p : pystr) :
  Py.has_char Path.sep (Path.basename p) = false.
Proof.
  unfold Path.basename, Path.rfind.
  destruct (rfind_from_spec Path.sep p 0 (-1) ltac:(lia) ltac:(lia))
    as [[Er Hs] | [Hr Hs]].
  - rewrite Er. rewrite slice_from_nonneg by lia. exact Hs.
  - rewrite slice_from_nonneg by lia.
    replace (Path.rfind_from Path.sep p 0 (-1) + 1)
      with (Path.rfind_from Path.sep p 0 (-1) - 0 + 1) by lia.
    exact Hs.
Qed.

Lemma splitext_root_no_sep (p : pystr) :
  Py.has_char Path.sep p = false ->
  Py.has_char Path.sep (Path.splitext_root p) = false.
Proof.
  intro H. unfold Path.splitext_root.
  repeat case_if; auto.
  unfold Py.slice_to. now apply has_char_firstn.
Qed.

Section OutcomeProperties.

Context {R : Runtime}.

Variable render_web : render_args -> pystr + pystr.
Variable render_email : render_args -> pystr + pystr.

Ltac split_outcome :=
  unfold process_press_release, process_found; cbv zeta;
  repeat match goal with
         | |- context [match ?x with _ => _ end] => destruct x eqn:?
         end.

(** X12: Every file that [process_press_release] writes lies directly in the
    folder it processes. *)
Theorem writes_stay_in_folder :
  forall (w : world) (folder_path t1 t2 : pystr)
         (image_url subject : option pystr) (cfg : option config)
         (wr : file_write),
    In wr (writes_of
             (process_press_release render_web render_email w folder_path
                t1 t2 image_url subject cfg)) ->
    exists filename,
      write_path wr = Path.join folder_path filename /\
      Py.has_char Path.sep filename = false.
Proof.
  intros w folder_path t1 t2 image_url subject cfg wr.
  assert (Hjpg : forall png,
             Py.has_char Path.sep
               (Path.splitext_root (Path.basename png) ++ py ".jpg")
             = false).
  { intro png. rewrite has_char_app, splitext_root_no_sep
      by apply basename_no_sep. reflexivity. }
  assert (Hhtml : forall suffix,
             Py.has_char Path.sep suffix = false ->
             Py.has_char Path.sep (Path.basename folder_path ++ suffix)
             = false).
  { intros suffix Hs. now rewrite has_char_app, basename_no_sep, Hs. }
  split_outcome; cbn [writes_of In app]; intro Hin;
    repeat match goal with
           | H : _ \/ _ |- _ => destruct H as [H | H]
           | H : False |- _ => destruct H
           end;
    subst wr; cbn [write_path];
    eexists; (split; [reflexivity|]); auto.
Qed.


End OutcomeProperties.

(* ================================================================== *)
(** * Further properties of the image normaliser *)
(* ================================================================== *)

(** X14: The result of [convert_png_to_jpg] is consistent: it has the output
    path it was given; success, the absence of an error text and the
    presence of dimensions go together; and an image of width zero gives
    a failure with the text of the division error. *)
Theorem convert_result_consistent :
  forall (opened : pystr + image)
         (codec : image -> Z -> Z -> Z -> option pystr)
         (output_path : pystr) (target_width quality : Z),
    cr_output_path
      (convert_png_to_jpg opened codec output_path target_width quality)
    = output_path /\
    (cr_success
       (convert_png_to_jpg opened codec output_path target_width quality)
     = true <->
     cr_error
       (convert_png_to_jpg opened codec output_path target_width quality)
     = None) /\
    (cr_success
       (convert_png_to_jpg opened codec output_path target_width quality)
     = true <->
     cr_dimensions
       (convert_png_to_jpg opened codec output_path target_width quality)
     <> None) /\
    (forall h mode,
        convert_png_to_jpg
          (inr {| img_width := 0; img_height := h; img_mode := mode |})
          codec output_path target_width quality
        = convert_failed output_path msg_zero_division).
Proof.
  intros opened codec output_path target_width quality.
  split; [|split; [|split]].
  - unfold convert_png_to_jpg.
    repeat match goal with
           | |- context [match ?x with _ => _ end] => destruct x eqn:?
           end; reflexivity.
  - unfold convert_png_to_jpg.
    repeat match goal with
           | |- context [match ?x with _ => _ end] => destruct x eqn:?
           end; cbn; split; congruence.
  - unfold convert_png_to_jpg.
    repeat match goal with
           | |- context [match ?x with _ => _ end] => destruct x eqn:?
           end; cbn; split; congruence.
  - intros h mode. reflexivity.
Qed.

(* ================================================================== *)
(** * Properties of the description *)
(* ================================================================== *)

Lemma after_close_shorter s rest :
  after_close s = Some rest -> (length rest < length s)%nat.
Proof.
  revert rest. induction s as [|c s IH]; intros rest H; simpl in H;
    [discriminate|].
  destruct (N.eqb c 62%N).
  - injection H as <-. simpl. lia.
  - apply IH in H. simpl. lia.
Qed.

Lemma tag_end_shorter s rest :
  tag_end s = Some rest -> (length rest < length s)%nat.
Proof.
  unfold tag_end. destruct s as [|x s]; [discriminate|].
  destruct (N.eqb x 62%N); [discriminate|]. apply after_close_shorter.
Qed.

(** Fuel beyond the length of the text changes nothing. *)
Lemma strip_tags_fuel_enough f1 : forall f2 s,
  (length s <= f1)%nat -> (length s <= f2)%nat ->
  strip_tags_fuel f1 s = strip_tags_fuel f2 s.
Proof.
  induction f1 as [|f1 IH]; intros f2 s H1 H2.
  - destruct s; [|simpl in H1; lia]. now destruct f2.
  - destruct f2 as [|f2]; [destruct s; [reflexivity | simpl in H2; lia]|].
    destruct s as [|c s]; [reflexivity|]. cbn [strip_tags_fuel].
    simpl in H1, H2.
    destruct (N.eqb c 60%N); [|f_equal; apply IH; lia].
    destruct (tag_end s) as [rest|] eqn:E; [|f_equal; apply IH; lia].
    apply tag_end_shorter in E. apply IH; lia.
Qed.

Lemma strip_tags_cons c s :
  strip_tags (c :: s)
  = if N.eqb c 60%N then
      match tag_end s with
      | Some rest => strip_tags rest
      | None => c :: strip_tags s
      end
    else c :: strip_tags s.
Proof.
  unfold strip_tags. cbn [length strip_tags_fuel].
  destruct (N.eqb c 60%N); [|reflexivity].
  destruct (tag_end s) as [rest|] eqn:E; [|reflexivity].
  apply tag_end_shorter in E. apply strip_tags_fuel_enough; lia.
Qed.

(** Text without [<] is kept. *)
Lemma strip_tags_plain a b :
  Py.has_char 60%N a = false -> strip_tags (a ++ b) = a ++ strip_tags b.
Proof.
  unfold Py.has_char.
  induction a as [|c a IH]; cbn [existsb app]; intro H; [reflexivity|].
  apply orb_false_iff in H as [Hc Ha].
  rewrite strip_tags_cons, N.eqb_sym, Hc. f_equal. now apply IH.
Qed.

Lemma after_close_app inner b :
  Py.has_char 62%N inner = false ->
  after_close (inner ++ 62%N :: b) = Some b.
Proof.
  unfold Py.has_char.
  induction inner as [|c inner IH]; cbn [existsb app after_close].
  - reflexivity.
  - intro H. apply orb_false_iff in H as [Hc Hi].
    rewrite N.eqb_sym, Hc. now apply IH.
Qed.

(** A tag is left out. *)
Lemma strip_tags_tag inner b :
  inner <> [] -> Py.has_char 62%N inner = false ->
  strip_tags (60%N :: inner ++ 62%N :: b) = strip_tags b.
Proof.
  intros Hne Hi. rewrite strip_tags_cons. cbn [N.eqb Pos.eqb].
  unfold tag_end. destruct inner as [|x inner]; [contradiction|].
  cbn [app].
  assert (Hx : N.eqb x 62%N = false).
  { unfold Py.has_char in Hi. cbn [existsb] in Hi.
    apply orb_false_iff in Hi as [Hx _]. now rewrite N.eqb_sym. }
  rewrite Hx.
  change (x :: inner ++ 62%N :: b) with ((x :: inner) ++ 62%N :: b).
  now rewrite after_close_app.
Qed.

Lemma strip_tags_anchor link_text url b :
  Py.has_char 60%N link_text = false ->
  Py.has_char 62%N (clean_url url) = false ->
  strip_tags (link_html link_text url ++ b) = link_text ++ strip_tags b.
Proof.
  intros Ht Hu. unfold link_html.
  change (py "<a href=")
    with (60%N :: [97; 32; 104; 114; 101; 102; 61]%N).
  change (py ">") with [62%N].
  change (py "</a>") with (60%N :: [47; 97]%N ++ [62%N]).
  repeat rewrite <- app_assoc. cbn [app].
  set (inner := [97; 32; 104; 114; 101; 102; 61]%N
                ++ [Py.dquote] ++ clean_url url ++ [Py.dquote]
                ++ py " target=" ++ [Py.dquote] ++ py "_blank"
                ++ [Py.dquote]).
  transitivity (strip_tags (60%N :: inner ++ 62%N
                            :: link_text ++ 60%N :: [47; 97]%N ++ 62%N :: b)).
  { f_equal. unfold inner. cbn [app]. repeat rewrite <- app_assoc.
    reflexivity. }
  rewrite strip_tags_tag.
  - rewrite strip_tags_plain by exact Ht. f_equal.
    apply strip_tags_tag; [discriminate | reflexivity].
  - unfold inner. discriminate.
  - unfold inner. rewrite !has_char_app, Hu. reflexivity.
Qed.

Lemma has_char_skipn c n (s : pystr) :
  Py.has_char c s = false -> Py.has_char c (skipn n s) = false.
Proof.
  unfold Py.has_char. revert n.
  induction s as [|x s IH]; intros [|n] H; simpl in *; try assumption;
    try reflexivity.
  apply orb_false_iff in H as [_ Hs]. now apply IH.
Qed.

Lemma has_char_slice_to c (s : pystr) i :
  Py.has_char c s = false -> Py.has_char c (Py.slice_to s i) = false.
Proof. apply has_char_firstn. Qed.

Lemma has_char_slice_from c (s : pystr) i :
  Py.has_char c s = false -> Py.has_char c (Py.slice_from s i) = false.
Proof. apply has_char_skipn. Qed.

(** The text up to [bound] in three pieces around a range below it. *)
Lemma slice_to_split (text : pystr) pos len bound :
  0 <= pos -> 0 <= len -> pos + len <= bound ->
  Py.slice_to text bound
  = Py.slice_to text pos
    ++ Py.slice_from (Py.slice_to text (pos + len)) pos
    ++ Py.slice_from (Py.slice_to text bound) (pos + len).
Proof.
  intros Hp Hl Hb.
  rewrite !slice_to_nonneg, !slice_from_nonneg by lia.
  rewrite <- (firstn_skipn (Z.to_nat (pos + len))
                (firstn (Z.to_nat bound) text)) at 1.
  rewrite firstn_firstn.
  replace (Nat.min (Z.to_nat (pos + len)) (Z.to_nat bound))
    with (Z.to_nat (pos + len)) by lia.
  rewrite app_assoc. f_equal.
  rewrite <- (firstn_skipn (Z.to_nat pos)
                (firstn (Z.to_nat (pos + len)) text)) at 1.
  f_equal. rewrite firstn_firstn. f_equal. lia.
Qed.

Lemma strip_tags_spliced (text : pystr) hyperlinks sel :
  Py.has_char 60%N text = false ->
  Forall (fun url => Py.has_char 62%N (clean_url url) = false)
         (Dict.values hyperlinks) ->
  Forall (occurs_in text hyperlinks) sel ->
  forall bound suffix,
    chain bound sel ->
    strip_tags (spliced text sel bound suffix)
    = Py.slice_to text bound ++ strip_tags suffix.
Proof.
  intros Ht Hu Ho. induction Ho as [|c sel Hc Ho IH];
    intros bound suffix Hch; cbn [spliced].
  - apply strip_tags_plain. now apply has_char_slice_to.
  - inversion Hch; subst.
    destruct Hc as (_ & _ & _ & Hsub & Hin).
    rewrite IH by assumption.
    assert (Hurl : Py.has_char 62%N (clean_url (c_url c)) = false).
    { rewrite Forall_forall in Hu. apply Hu.
      unfold Dict.values. apply in_map_iff.
      now exists (c_text c, c_url c). }
    assert (Htext : Py.has_char 60%N (c_text c) = false).
    { rewrite <- Hsub. now apply has_char_slice_from, has_char_slice_to. }
    rewrite strip_tags_anchor by assumption.
    rewrite strip_tags_plain
      by now apply has_char_slice_from, has_char_slice_to.
    rewrite <- Hsub.
    pose proof (slice_to_split text (c_pos c) (c_len c) bound
                  ltac:(assumption) ltac:(assumption) ltac:(assumption))
      as E.
    set (tail := Py.slice_from (Py.slice_to text bound)
                   (c_pos c + c_len c)) in *.
    rewrite E. now rewrite <- !app_assoc.
Qed.

Lemma strip_tags_nil : strip_tags [] = [].
Proof. reflexivity. Qed.

(** X15: Leaving the tags out of a rendered paragraph gives back the text of
    the paragraph, when the text holds no [<] and no cleaned URL of its
    hyperlinks holds a [>]. *)
Theorem strip_tags_of_rendered_paragraph :
  forall p : paragraph,
    Py.has_char 60%N (para_text p) = false ->
    Forall (fun url => Py.has_char 62%N (clean_url url) = false)
           (Dict.values (extract_hyperlinks p)) ->
    strip_tags (get_paragraph_html p true) = para_text p.
Proof.
  intros p Ht Hu. rewrite get_paragraph_html_spliced.
  rewrite (strip_tags_spliced _ (extract_hyperlinks p)); auto.
  - now rewrite strip_tags_nil, app_nil_r, slice_to_len.
  - unfold selected. apply select_Forall, sort_by_key_Forall,
      link_positions_occur.
  - unfold selected.
    eapply sorted_occurrences_chain;
      [apply sort_by_key_sorted
      | apply sort_by_key_Forall, link_positions_occur].
Qed.

Lemma rfind_from_bound c (s : pystr) : forall i last,
  last < i ->
  Path.rfind_from c s i last < i + Py.len s.
Proof.
  unfold Py.len.
  induction s as [|x s IH]; intros i last Hl; cbn [Path.rfind_from length].
  - lia.
  - specialize (IH (i + 1) (if N.eqb x c then i else last)).
    destruct (N.eqb x c); lia.
Qed.

Lemma before_last_space_length (s : pystr) :
  Py.len (before_last_space s) <= Py.len s.
Proof.
  unfold before_last_space. destruct (Z.ltb_spec (Path.rfind 32%N s) 0);
    [lia|].
  rewrite slice_to_nonneg by assumption.
  unfold Py.len. rewrite length_firstn. lia.
Qed.

(** X16: The description is never longer than 163 characters; a first body
    paragraph of at most 160 characters without tags is its own
    description; without a body paragraph the description is empty. *)
Theorem meta_description_bounded :
  forall body : list pystr,
    Py.len (meta_description body) <= 163 /\
    (forall first_para rest,
        body = first_para :: rest ->
        Py.len (strip_tags first_para) <= 160 ->
        meta_description body = strip_tags first_para) /\
    meta_description [] = [].
Proof.
  intro body. split; [|split; [|reflexivity]].
  - destruct body as [|first_para rest]; [cbn; lia|].
    cbn [meta_description].
    destruct (Z.gtb_spec (Py.len (strip_tags first_para)) 160); [|lia].
    unfold Py.len. rewrite length_app.
    pose proof (before_last_space_length
                  (Py.slice_to (strip_tags first_para) 160)) as Hb.
    unfold Py.len in Hb.
    rewrite slice_to_nonneg in Hb by lia. rewrite length_firstn in Hb.
    rewrite slice_to_nonneg by lia.
    change (length (py "...")) with 3%nat. lia.
  - intros first_para rest -> Hlen. cbn [meta_description].
    destruct (Z.gtb_spec (Py.len (strip_tags first_para)) 160);
      [lia | reflexivity].
Qed.

(* ================================================================== *)
(** * Properties of the ticket parser *)
(* ================================================================== *)

Lemma lstrip_idempotent (s : pystr) : Py.lstrip (Py.lstrip s) = Py.lstrip s.
Proof.
  induction s as [|c s IH]; [reflexivity|].
  cbn [Py.lstrip]. destruct (Py.isspace c) eqn:E; [exact IH|].
  cbn [Py.lstrip]. now rewrite E.
Qed.

Lemma lstrip_snoc (a : pystr) c :
  Py.isspace c = false -> Py.lstrip (a ++ [c]) = Py.lstrip a ++ [c].
Proof.
  intro H. induction a as [|x a IH]; cbn [app Py.lstrip].
  - now rewrite H.
  - destruct (Py.isspace x); [exact IH | reflexivity].
Qed.

Lemma rstrip_cons c (s : pystr) :
  Py.isspace c = false -> Py.rstrip (c :: s) = c :: Py.rstrip s.
Proof.
  intro H. unfold Py.rstrip. cbn [rev].
  rewrite lstrip_snoc by exact H. now rewrite rev_app_distr.
Qed.

Lemma lstrip_start (s : pystr) :
  Py.lstrip s = [] \/
  exists c rest, Py.lstrip s = c :: rest /\ Py.isspace c = false.
Proof.
  induction s as [|c s IH]; [now left|].
  cbn [Py.lstrip]. destruct (Py.isspace c) eqn:E; [exact IH|].
  right. now exists c, s.
Qed.

(** Trimming twice is trimming once. *)
Lemma strip_idempotent (s : pystr) : Py.strip (Py.strip s) = Py.strip s.
Proof.
  unfold Py.strip.
  assert (Hl : Py.lstrip (Py.rstrip (Py.lstrip s))
               = Py.rstrip (Py.lstrip s)).
  { destruct (lstrip_start s) as [E | (c & rest & E & Hc)]; rewrite E.
    - reflexivity.
    - rewrite rstrip_cons by exact Hc. cbn [Py.lstrip]. now rewrite Hc. }
  rewrite Hl. unfold Py.rstrip at 1 2.
  rewrite rev_involutive, lstrip_idempotent. reflexivity.
Qed.

Lemma has_char_lstrip c (s : pystr) :
  Py.has_char c s = false -> Py.has_char c (Py.lstrip s) = false.
Proof.
  unfold Py.has_char. induction s as [|x s IH]; [reflexivity|].
  cbn [existsb Py.lstrip]. intro H. apply orb_false_iff in H as [Hx Hs].
  destruct (Py.isspace x); [now apply IH|].
  cbn [existsb]. now rewrite Hx, Hs.
Qed.

Lemma existsb_rev {A} (f : A -> bool) (l : list A) :
  existsb f (rev l) = existsb f l.
Proof.
  induction l as [|x l IH]; [reflexivity|].
  cbn [rev existsb]. rewrite existsb_app, IH. cbn [existsb].
  rewrite orb_false_r. apply orb_comm.
Qed.

Lemma has_char_rev c (s : pystr) :
  Py.has_char c (rev s) = Py.has_char c s.
Proof. apply existsb_rev. Qed.

Lemma has_char_strip c (s : pystr) :
  Py.has_char c s = false -> Py.has_char c (Py.strip s) = false.
Proof.
  intro H. unfold Py.strip, Py.rstrip.
  rewrite has_char_rev. apply has_char_lstrip.
  rewrite has_char_rev. now apply has_char_lstrip.
Qed.

Lemma lazy_line_spec (s g : pystr) :
  Jira.lazy_line s = Some g ->
  g <> [] /\ Py.has_char 10%N g = false /\ exists rest, s = g ++ rest.
Proof.
  revert g. induction s as [|c s IH]; intros g H; cbn [Jira.lazy_line] in H;
    [discriminate|].
  destruct (N.eqb c 10%N) eqn:Ec; [discriminate|].
  assert (Hone : Py.has_char 10%N [c] = false)
    by (unfold Py.has_char; cbn [existsb]; now rewrite N.eqb_sym, Ec).
  destruct s as [|x s'].
  - injection H as <-. repeat split; [discriminate | exact Hone |].
    now exists [].
  - destruct (N.eqb x 10%N).
    + injection H as <-. repeat split; [discriminate | exact Hone |].
      now exists (x :: s').
    + destruct (Jira.lazy_line (x :: s')) as [g'|] eqn:E; [|discriminate].
      injection H as <-. destruct (IH g' eq_refl) as (_ & Hg & rest & Hs).
      repeat split; [discriminate | |].
      * unfold Py.has_char in *. cbn [existsb].
        now rewrite N.eqb_sym, Ec, Hg.
      * exists rest. now rewrite Hs.
Qed.

Lemma search_field_spec (label s g : pystr) :
  Jira.search_field label s = Some g ->
  g <> [] /\ Py.has_char 10%N g = false.
Proof.
  induction s as [|c s IH]; cbn [Jira.search_field];
    (destruct (Jira.match_field label _) as [g'|] eqn:E;
     [intros [= <-]; unfold Jira.match_field in E;
      destruct (Jira.ci_prefix label _) as [rest|]; [|discriminate];
      apply re_space_star_passes_on in E as (s' & _ & E);
      apply lazy_line_spec in E; tauto
     |]).
  - discriminate.
  - exact IH.
Qed.

Lemma field_is_trimmed_line (label description v : pystr) :
  Jira.field label description = Some v ->
  Py.has_char 10%N v = false /\ Py.strip v = v.
Proof.
  intro Hf. unfold Jira.field in Hf.
  destruct (Jira.search_field label description) as [g|] eqn:E;
    [|discriminate].
  injection Hf as <-. apply search_field_spec in E as [_ Hg].
  split; [now apply has_char_strip | apply strip_idempotent].
Qed.

(** X17: A field that the parser finds is a single line without leading or
    trailing white space. *)
Theorem ticket_fields_are_trimmed_lines :
  forall (description : pystr) (v : pystr),
    (Jira.folder_path (Jira.parse_jira_ticket description) = Some v \/
     Jira.image_url (Jira.parse_jira_ticket description) = Some v \/
     Jira.subject (Jira.parse_jira_ticket description) = Some v) ->
    Py.has_char 10%N v = false /\ Py.strip v = v.
Proof.
  intros description v H.
  destruct H as [H | [H | H]]; eapply field_is_trimmed_line; exact H.
Qed.

Lemma ci_match_refl p : Jira.ci_match p p = true.
Proof. unfold Jira.ci_match. now rewrite N.eqb_refl. Qed.

Lemma ci_prefix_self (label s : pystr) :
  Jira.ci_prefix label (label ++ s) = Some s.
Proof.
  induction label as [|p label IH]; [reflexivity|].
  cbn [app Jira.ci_prefix]. now rewrite ci_match_refl.
Qed.

Lemma lazy_line_value (value rest : pystr) :
  value <> [] -> Py.has_char 10%N value = false ->
  (rest = [] \/ exists tail, rest = 10%N :: tail) ->
  Jira.lazy_line (value ++ rest) = Some value.
Proof.
  intros Hne Hv Hrest. unfold Py.has_char in Hv.
  induction value as [|c value IH]; [contradiction|].
  cbn [existsb] in Hv. apply orb_false_iff in Hv as [Hc Hv].
  cbn [app Jira.lazy_line]. rewrite N.eqb_sym, Hc.
  destruct value as [|x value].
  - cbn [app]. destruct Hrest as [-> | [tail ->]]; [reflexivity|].
    now rewrite N.eqb_refl.
  - cbn [app]. cbn [existsb] in Hv.
    pose proof Hv as Hv'. apply orb_false_iff in Hv' as [Hx _].
    rewrite N.eqb_sym, Hx.
    change (x :: value ++ rest) with ((x :: value) ++ rest).
    rewrite IH; [reflexivity | discriminate | exact Hv].
Qed.

Lemma re_space_star_skips {A} (k : pystr -> option A) (ws s : pystr) r :
  k s = Some r ->
  (forall c rest, s = c :: rest -> Py.isspace c = false) ->
  forallb Py.isspace ws = true ->
  re_space_star k (ws ++ s) = Some r.
Proof.
  intros Hk Hs. induction ws as [|w ws IH]; cbn [forallb app]; intro Hw.
  - destruct s as [|c rest]; [exact Hk|].
    cbn [re_space_star]. now rewrite (Hs c rest eq_refl).
  - apply andb_true_iff in Hw as [Hw Hws].
    cbn [re_space_star]. now rewrite Hw, (IH Hws).
Qed.

Lemma search_field_skips (label pre tail : pystr) :
  Jira.label_free label pre tail = true ->
  Jira.search_field label (pre ++ tail) = Jira.search_field label tail.
Proof.
  induction pre as [|c pre IH]; [reflexivity|].
  cbn [Jira.label_free]. 
  destruct (Jira.ci_prefix label ((c :: pre) ++ tail)) eqn:E;
    [discriminate|].
  intro H. cbn [app Jira.search_field]. unfold Jira.match_field.
  cbn [app] in E. rewrite E. now apply IH.
Qed.

Lemma search_field_here (label s g : pystr) :
  Jira.match_field label s = Some g -> Jira.search_field label s = Some g.
Proof.
  intro H. destruct s; cbn [Jira.search_field]; now rewrite H.
Qed.

(** X18: A line that starts with the label gives its field: with no match of
    the label before it, the value is what follows the label and the
    white space after it up to the end of the line, trimmed. *)
Theorem ticket_field_of_label_line :
  forall (label pre ws value rest : pystr) (c : Py.char) (v : pystr),
    Jira.label_free label pre (label ++ ws ++ value ++ rest) = true ->
    forallb Py.isspace ws = true ->
    value = c :: v -> Py.isspace c = false ->
    Py.has_char 10%N value = false ->
    (rest = [] \/ exists tail, rest = 10%N :: tail) ->
    Jira.field label (pre ++ label ++ ws ++ value ++ rest)
    = Some (Py.strip value).
Proof.
  intros label pre ws value rest c v Hfree Hws Hval Hc Hnl Hrest.
  unfold Jira.field. rewrite search_field_skips by exact Hfree.
  rewrite (search_field_here _ _ value); [reflexivity|].
  unfold Jira.match_field. rewrite ci_prefix_self.
  apply re_space_star_skips; [| |exact Hws].
  - apply lazy_line_value; [subst; discriminate | exact Hnl | exact Hrest].
  - intros x tail E. subst value. cbn [app] in E. now injection E as <- _.
Qed.

(** A ticket is valid exactly when the three fields were found and are
    not empty; the list of missing fields is then empty. *)
Theorem valid_ticket_has_three_fields :
  forall data : Jira.ticket,
    fst (Jira.validate_parsed_data data) = true <->
    (exists f i s,
        Jira.folder_path data = Some f /\ Jira.image_url data = Some i /\
        Jira.subject data = Some s /\
        f <> [] /\ i <> [] /\ s <> []).
Proof.
  intro data. unfold Jira.validate_parsed_data. cbn [fst].
  destruct (Jira.folder_path data) as [[|a f]|];
    destruct (Jira.image_url data) as [[|b i]|];
    destruct (Jira.subject data) as [[|d s]|];
    cbn [not_found Py.truthy negb app];
    split; try discriminate;
    try (intros (f' & i' & s' & H1 & H2 & H3 & N1 & N2 & N3);
         congruence).
  intros _. do 3 eexists. repeat split; discriminate.
Qed.

(** X19: A ticket that validates has its three fields, each a non-empty
    single line without leading or trailing white space. *)
Theorem valid_ticket_fields :
  forall description : pystr,
    fst (Jira.validate_parsed_data (Jira.parse_jira_ticket description))
    = true ->
    exists f i s,
      Jira.folder_path (Jira.parse_jira_ticket description) = Some f /\
      Jira.image_url (Jira.parse_jira_ticket description) = Some i /\
      Jira.subject (Jira.parse_jira_ticket description) = Some s /\
      (f <> [] /\ Py.has_char 10%N f = false /\ Py.strip f = f) /\
      (i <> [] /\ Py.has_char 10%N i = false /\ Py.strip i = i) /\
      (s <> [] /\ Py.has_char 10%N s = false /\ Py.strip s = s).
Proof.
  intros description H.
  apply valid_ticket_has_three_fields in H
    as (f & i & s & Hf & Hi & Hs & Nf & Ni & Ns).
  exists f, i, s.
  pose proof (field_is_trimmed_line _ description f Hf) as [Hf1 Hf2].
  pose proof (field_is_trimmed_line _ description i Hi) as [Hi1 Hi2].
  pose proof (field_is_trimmed_line _ description s Hs) as [Hs1 Hs2].
  repeat split; assumption.
Qed.

(* ================================================================== *)
(** * Properties of the FTP upload *)
(* ================================================================== *)

Lemma stored_app t1 t2 :
  Ftp.stored (t1 ++ t2) = Ftp.stored t1 ++ Ftp.stored t2.
Proof.
  induction t1 as [|c t1 IH]; [reflexivity|].
  destruct c; cbn [app Ftp.stored]; rewrite IH; reflexivity.
Qed.

(** The loop over the directories stores nothing and does not count. *)
Lemma make_dirs_spec srv dirs : forall current st st' r,
  Ftp.make_dirs srv current dirs st = (st', r) ->
  Ftp.count st' = Ftp.count st /\
  Ftp.stored (Ftp.trace st') = Ftp.stored (Ftp.trace st).
Proof.
  induction dirs as [|d dirs IH]; intros current st st' r H.
  - injection H as <- <-. now split.
  - cbn [Ftp.make_dirs] in H. unfold Ftp.then_, Ftp.or_else, Ftp.call in H.
    destruct (srv (Ftp.trace st) (Ftp.Cwd (current ++ [Path.sep] ++ d))).
    + match type of H with
      | context [srv ?t ?c] => destruct (srv t c)
      end.
      * injection H as <- <-. cbn [Ftp.count Ftp.trace].
        now rewrite !stored_app, !app_nil_r.
      * apply IH in H as [Hc Hs]. cbn [Ftp.count Ftp.trace] in *.
        rewrite Hc, Hs, !stored_app. cbn. now rewrite !app_nil_r.
    + apply IH in H as [Hc Hs]. cbn [Ftp.count Ftp.trace] in *.
      rewrite Hc, Hs, !stored_app. cbn. now rewrite !app_nil_r.
Qed.

(** The loop over the files: the files stored are the first ones of the
    list, as many as counted, and one more when the last [STOR]
    raised. *)
Lemma store_files_spec srv remote_path files : forall st st' r,
  Ftp.store_files srv remote_path files st = (st', r) ->
  exists n extra : nat,
    Ftp.count st' = Ftp.count st + Z.of_nat n /\
    (n + extra <= length files)%nat /\ (extra <= 1)%nat /\
    Ftp.stored (Ftp.trace st')
    = Ftp.stored (Ftp.trace st)
      ++ map (fun f => remote_path ++ Ftp.remote_name f)
             (firstn (n + extra) files) /\
    (r = None -> n = length files /\ extra = 0%nat).
Proof.
  induction files as [|f files IH]; intros st st' r H.
  - injection H as <- <-. exists 0%nat, 0%nat. cbn.
    rewrite app_nil_r. repeat split; lia.
  - cbn [Ftp.store_files] in H.
    unfold Ftp.then_ at 1, Ftp.call at 1 in H.
    destruct (srv (Ftp.trace st) (Ftp.OpenLocal (Ftp.local_path f))).
    + injection H as <- <-. exists 0%nat, 0%nat.
      cbn [Ftp.count Ftp.trace firstn map length Nat.add].
      rewrite stored_app. cbn. rewrite !app_nil_r.
      repeat split; try lia; discriminate.
    + unfold Ftp.then_ at 1, Ftp.call at 1 in H.
      cbn [Ftp.trace Ftp.count] in H.
      match type of H with
      | context [srv ?t ?c] => destruct (srv t c)
      end.
      * injection H as <- <-. exists 0%nat, 1%nat.
        cbn [Ftp.count Ftp.trace firstn map length Nat.add].
        rewrite !stored_app. cbn. rewrite !app_nil_r.
        repeat split; try lia; discriminate.
      * unfold Ftp.then_ at 1, Ftp.count_one in H.
        cbn [Ftp.trace Ftp.count] in H.
        apply IH in H as (n & extra & Hc & Hl & He & Hs & Hr).
        cbn [Ftp.trace Ftp.count] in *.
        exists (S n), extra.
        rewrite Hc, Hs, !stored_app. cbn [Ftp.stored app].
        rewrite app_nil_r, <- !app_assoc.
        cbn [Nat.add firstn map length app].
        repeat split; try lia.
        -- destruct (Hr H). lia.
        -- now destruct (Hr H).
Qed.

Section UploadProperties.

Context {R : Runtime}.

(** X20: What the result of an upload says: the counter is the number of
    files stored, never more than there are files, and the files stored
    are the first ones of the list in order; with success every file has
    been stored and there is no error text; without success there is
    one. *)
Theorem upload_result_counts :
  forall (srv : Ftp.server) (files : list Ftp.file_info)
         (cfg : Ftp.ftp_config) (folder_name month_folder remote_path : pystr)
         (res : Ftp.upload_result) (t : list Ftp.command),
    format_path (Ftp.base_remote_path cfg) month_folder folder_name
    = Some remote_path ->
    Ftp.upload_to_ftp srv files cfg folder_name month_folder
    = Some (res, t) ->
    0 <= Ftp.uploaded res <= Z.of_nat (length files) /\
    (exists extra : nat,
        (extra <= 1)%nat /\
        Ftp.stored t
        = map (fun f => remote_path ++ Ftp.remote_name f)
              (firstn (Z.to_nat (Ftp.uploaded res) + extra) files)) /\
    (Ftp.success res = true ->
     Ftp.uploaded res = Z.of_nat (length files) /\
     Ftp.error res = None /\
     Ftp.stored t
     = map (fun f => remote_path ++ Ftp.remote_name f) files) /\
    (Ftp.success res = false <-> Ftp.error res <> None).
Proof.
  intros srv files cfg folder_name month_folder remote_path res t Hf H.
  unfold Ftp.upload_to_ftp in H. rewrite Hf in H. cbv zeta in H.
  unfold Ftp.then_ at 1 2, Ftp.call at 1 2 in H.
  cbn [Ftp.trace Ftp.count app] in H.
  assert (Early : forall e,
             (Some ({| Ftp.success := false; Ftp.error := Some e;
                       Ftp.uploaded := 0 |}, t) = Some (res, t) ->
              Ftp.stored t = [] ->
              0 <= Ftp.uploaded res <= Z.of_nat (length files) /\
              (exists extra : nat,
                  (extra <= 1)%nat /\
                  Ftp.stored t
                  = map (fun f => remote_path ++ Ftp.remote_name f)
                        (firstn (Z.to_nat (Ftp.uploaded res) + extra)
                           files)) /\
              (Ftp.success res = true ->
               Ftp.uploaded res = Z.of_nat (length files) /\
               Ftp.error res = None /\
               Ftp.stored t
               = map (fun f => remote_path ++ Ftp.remote_name f) files) /\
              (Ftp.success res = false <-> Ftp.error res <> None))).
  { intros e [= <-] Hs. cbn [Ftp.uploaded Ftp.success Ftp.error].
    rewrite Hs. repeat split; try lia; try discriminate.
    exists 0%nat. split; [lia | reflexivity]. }
  destruct (srv [] (Ftp.Connect (Ftp.host cfg) (Ftp.port cfg))) as [e|].
  { injection H as <- <-. now apply (Early e). }
  match type of H with
  | context [srv ?tr ?c] => destruct (srv tr c) as [e|]
  end.
  { injection H as <- <-. now apply (Early e). }
  unfold Ftp.then_ at 1 in H.
  match type of H with
  | context [Ftp.make_dirs ?s ?c ?d ?st] =>
      destruct (Ftp.make_dirs s c d st) as [st1 r1] eqn:Ed
  end.
  apply make_dirs_spec in Ed as [Hc1 Hs1].
  cbn [Ftp.trace Ftp.count Ftp.stored] in Hc1, Hs1.
  destruct r1 as [e|].
  { injection H as <- <-. rewrite Hc1.
    cbn [Ftp.uploaded Ftp.success Ftp.error].
    rewrite Hs1. repeat split; try lia; try discriminate.
    exists 0%nat. split; [lia | reflexivity]. }
  unfold Ftp.then_ at 1, Ftp.call at 1 in H.
  destruct (srv (Ftp.trace st1) (Ftp.Cwd [Path.sep])) as [e|].
  { injection H as <- <-. cbn [Ftp.uploaded Ftp.success Ftp.error
                                 Ftp.trace Ftp.count].
    rewrite Hc1, stored_app, Hs1.
    repeat split; try lia; try discriminate.
    exists 0%nat. split; [lia | reflexivity]. }
  unfold Ftp.then_ at 1 in H.
  match type of H with
  | context [Ftp.store_files ?s ?p ?f ?st] =>
      destruct (Ftp.store_files s p f st) as [st2 r2] eqn:Es
  end.
  apply store_files_spec in Es as (n & extra & Hc2 & Hl & He & Hs2 & Hr).
  cbn [Ftp.trace Ftp.count] in Hc2, Hs2.
  rewrite stored_app, Hs1 in Hs2. cbn [Ftp.stored app] in Hs2.
  rewrite Hc1 in Hc2.
  destruct r2 as [e|].
  { injection H as <- <-. cbn [Ftp.uploaded Ftp.success Ftp.error].
    rewrite Hc2, Hs2. repeat split; try lia; try discriminate.
    exists extra. split; [exact He|]. do 2 f_equal. lia. }
  destruct (Hr eq_refl) as [-> ->].
  unfold Ftp.call in H.
  destruct (srv (Ftp.trace st2) Ftp.Quit) as [e|];
    injection H as <- <-;
    cbn [Ftp.uploaded Ftp.success Ftp.error Ftp.trace Ftp.count];
    rewrite Hc2, stored_app, Hs2; cbn [Ftp.stored]; rewrite app_nil_r;
    repeat split; try lia; try discriminate;
    try (exists 0%nat; split; [lia|]; do 2 f_equal; lia);
    try (rewrite Nat.add_0_r, firstn_all; reflexivity);
    try (intro Hne; now destruct Hne).
Qed.

End UploadProperties.

(* ================================================================== *)
(** * Properties of the folder search *)
(* ================================================================== *)

Lemma scan_found folder_name entries p :
  Dropbox.scan folder_name entries = Dropbox.Found p ->
  exists e, In e entries /\ Dropbox.matches folder_name e p.
Proof.
  induction entries as [|e entries IH]; cbn [Dropbox.scan]; [discriminate|].
  destruct (Dropbox.is_folder e) eqn:Ef;
    [|intro H; destruct (IH H) as (e' & Hin & Hm); exists e'; simpl; tauto].
  destruct (Dropbox.name e) as [n|] eqn:En; [|discriminate].
  destruct (Py.contains folder_name n) eqn:Ec;
    [|intro H; destruct (IH H) as (e' & Hin & Hm); exists e'; simpl; tauto].
  destruct (Dropbox.path_display e) as [q|] eqn:Ep; [|discriminate].
  intros [= <-]. exists e. split; [now left|].
  unfold Dropbox.matches. repeat split; auto. now exists n.
Qed.

Lemma scan_subfolders_found s folder_name entries p :
  Dropbox.scan_subfolders s folder_name entries = Some p ->
  exists parent parent_path sub_entries e,
    In parent entries /\ Dropbox.is_folder parent = true /\
    Dropbox.path_display parent = Some parent_path /\
    Dropbox.list_folder s parent_path = Some sub_entries /\
    In e sub_entries /\ Dropbox.matches folder_name e p.
Proof.
  induction entries as [|x entries IH]; cbn [Dropbox.scan_subfolders];
    [discriminate|].
  assert (Hrest : Dropbox.scan_subfolders s folder_name entries = Some p ->
                  exists parent parent_path sub_entries e,
                    In parent (x :: entries) /\
                    Dropbox.is_folder parent = true /\
                    Dropbox.path_display parent = Some parent_path /\
                    Dropbox.list_folder s parent_path = Some sub_entries /\
                    In e sub_entries /\ Dropbox.matches folder_name e p).
  { intro H. destruct (IH H) as (a & b & c & d & Hin & Hr).
    exists a, b, c, d. simpl. tauto. }
  destruct (Dropbox.is_folder x) eqn:Ef; [|exact Hrest].
  destruct (Dropbox.path_display x) as [q|] eqn:Ep; [|exact Hrest].
  destruct (Dropbox.list_folder s q) as [subs|] eqn:El; [|exact Hrest].
  destruct (Dropbox.scan folder_name subs) as [r| |] eqn:Es;
    try exact Hrest.
  intros [= <-]. apply scan_found in Es as (e & Hin & Hm).
  exists x, q, subs, e. simpl. tauto.
Qed.

(** X21: A path that the search returns is the path of a folder whose name
    holds the name looked for, listed under the search path or under one
    of its folders. *)
Theorem found_folder_matches :
  forall (s : Dropbox.store) (folder_name search_path p : pystr),
    Dropbox.find_folder_by_name s folder_name search_path = Some p ->
    exists entries,
      Dropbox.list_folder s search_path = Some entries /\
      ((exists e, In e entries /\ Dropbox.matches folder_name e p) \/
       (exists parent parent_path sub_entries e,
           In parent entries /\ Dropbox.is_folder parent = true /\
           Dropbox.path_display parent = Some parent_path /\
           Dropbox.list_folder s parent_path = Some sub_entries /\
           In e sub_entries /\ Dropbox.matches folder_name e p)).
Proof.
  intros s folder_name search_path p. unfold Dropbox.find_folder_by_name.
  destruct (Dropbox.list_folder s search_path) as [entries|];
    [|discriminate].
  intro H. exists entries. split; [reflexivity|].
  destruct (Dropbox.scan folder_name entries) as [q| |] eqn:Es;
    [|discriminate|].
  - injection H as <-. left. now apply scan_found.
  - right. now apply scan_subfolders_found.
Qed.

Lemma scan_first folder_name before e after p :
  forallb (Dropbox.passed_over folder_name) before = true ->
  Dropbox.matches folder_name e p ->
  Dropbox.scan folder_name (before ++ e :: after) = Dropbox.Found p.
Proof.
  intros Hb (Hf & Hp & n & Hn & Hc).
  induction before as [|x before IH]; cbn [app Dropbox.scan].
  - now rewrite Hf, Hn, Hc, Hp.
  - cbn [forallb] in Hb. apply andb_true_iff in Hb as [Hx Hb].
    unfold Dropbox.passed_over in Hx.
    destruct (Dropbox.is_folder x); [|now apply IH].
    cbn [negb orb] in Hx.
    destruct (Dropbox.name x) as [m|]; [|discriminate].
    apply negb_true_iff in Hx. rewrite Hx. now apply IH.
Qed.

(** X22: The first folder under the search path whose name holds the name
    looked for is the one returned, whatever the folders below hold. *)
Theorem first_top_level_folder_wins :
  forall (s : Dropbox.store) (folder_name search_path p : pystr)
         (before after : list Dropbox.entry) (e : Dropbox.entry),
    Dropbox.list_folder s search_path = Some (before ++ e :: after) ->
    forallb (Dropbox.passed_over folder_name) before = true ->
    Dropbox.matches folder_name e p ->
    Dropbox.find_folder_by_name s folder_name search_path = Some p.
Proof.
  intros s folder_name search_path p before after e Hl Hb Hm.
  unfold Dropbox.find_folder_by_name. rewrite Hl.
  now rewrite (scan_first folder_name before e after p Hb Hm).
Qed.

(* ================================================================== *)
(** * Properties of the renderers *)
(* ================================================================== *)

Lemma startswith_trans (a b s : pystr) :
  Py.startswith a b = true -> Py.startswith b s = true ->
  Py.startswith a s = true.
Proof.
  intros Hab Hbs. apply startswith_app in Hab as [r1 ->].
  apply startswith_app in Hbs as [r2 ->].
  apply startswith_app. exists (r1 ++ r2). now rewrite app_assoc.
Qed.

Lemma find_from_absent (sub s : pystr) : forall i,
  0 <= i -> Py.find_from sub s i < 0 ->
  Py.startswith sub s = false /\
  match s with
  | [] => True
  | _ :: s' => Py.find_from sub s' (i + 1) < 0
  end.
Proof.
  intros i Hi H. destruct s as [|x s]; cbn [Py.find_from] in H.
  - destruct (Py.startswith sub []); [lia | now split].
  - destruct (Py.startswith sub (x :: s)); [lia | now split].
Qed.

(** Replacing a text that does not occur changes nothing. *)
Lemma replace_fuel_absent (old new : pystr) fuel : forall s i,
  0 <= i -> Py.find_from old s i < 0 ->
  Py.replace_fuel fuel old new s = s.
Proof.
  induction fuel as [|fuel IH]; intros s i Hi H; [reflexivity|].
  cbn [Py.replace_fuel].
  destruct (find_from_absent old s i Hi H) as [Hs Hrest]. rewrite Hs.
  destruct s as [|x s]; [reflexivity|]. f_equal.
  apply (IH s (i + 1)); [lia | exact Hrest].
Qed.

Lemma find_from_prefix (a b s : pystr) : forall i,
  0 <= i -> Py.startswith a b = true ->
  Py.find_from a s i < 0 -> Py.find_from b s i < 0.
Proof.
  intros i Hi Hab. revert i Hi.
  induction s as [|x s IH]; intros i Hi H; cbn [Py.find_from] in *.
  - destruct (Py.startswith b []) eqn:E; [|lia].
    rewrite (startswith_trans a b [] Hab E) in H. lia.
  - destruct (Py.startswith b (x :: s)) eqn:E.
    + rewrite (startswith_trans a b _ Hab E) in H. lia.
    + destruct (Py.startswith a (x :: s)); [lia|]. apply IH; [lia | exact H].
Qed.

Lemma replace_absent (marker old new s : pystr) :
  Py.startswith marker old = true ->
  Py.contains marker s = false ->
  Py.replace old new s = s.
Proof.
  intros Hm Hc. unfold Py.contains, Py.find in Hc.
  apply Z.leb_gt in Hc.
  unfold Py.replace. destruct old as [|o old]; [reflexivity|].
  apply (replace_fuel_absent _ _ _ s 0); [lia|].
  now apply (find_from_prefix marker).
Qed.

Lemma substitute_absent (template : pystr) replacements :
  placeholder_keys replacements ->
  Py.contains (py "{{") template = false ->
  substitute template replacements = template.
Proof.
  unfold placeholder_keys, substitute. intros Hk Hc.
  induction replacements as [|[k v] rest IH]; [reflexivity|].
  cbn [Dict.keys map fst] in Hk. inversion Hk as [|? ? Hk1 Hk2]; subst.
  cbn [fold_left fst snd].
  rewrite (replace_absent (py "{{") k v template Hk1 Hc). now apply IH.
Qed.

Section RendererProperties.

Context {R : Runtime}.

(** X23: A template without two opening braces in a row comes back unchanged
    from the email renderer, whatever the content; and the renderer
    fails only when the formatting of the base URL does. *)
Theorem email_template_without_placeholders :
  forall args : render_args,
    (generate_email_html args = None <-> base_url_of args = None) /\
    (Py.contains (py "{{") (ra_template args) = false ->
     base_url_of args <> None ->
     generate_email_html args = Some (ra_template args)).
Proof.
  intro args. unfold generate_email_html.
  destruct (base_url_of args) as [url|]; split;
    try (split; congruence); try congruence.
  intros Hc _. f_equal. apply substitute_absent; [|exact Hc].
  unfold placeholder_keys, email_replacements, contact_replacements.
  cbv zeta. cbn [Dict.keys map fst app].
  repeat constructor.
Qed.

End RendererProperties.

(** X24: The blocks of body paragraphs: nothing for no paragraph, and for
    two lists that are not empty the block of the one, a newline, and
    the block of the other. *)
Theorem format_body_paragraphs_append :
  forall (a b : list pystr) (for_email : bool),
    format_body_paragraphs [] for_email = [] /\
    (a <> [] -> b <> [] ->
     format_body_paragraphs (a ++ b) for_email
     = format_body_paragraphs a for_email ++ newline
       ++ format_body_paragraphs b for_email).
Proof.
  intros a b for_email. split; [now destruct for_email|].
  intros Ha Hb.
  assert (J : forall (f : pystr -> pystr) (x y : list pystr),
             x <> [] -> y <> [] ->
             Py.join newline (map f (x ++ y))
             = Py.join newline (map f x) ++ newline
               ++ Py.join newline (map f y)).
  { intros f x y Hx Hy. induction x as [|p x IH]; [contradiction|].
    destruct x as [|q x].
    - destruct y as [|r y]; [contradiction|]. reflexivity.
    - change (Py.join newline (map f ((p :: q :: x) ++ y)))
        with (f p ++ newline ++ Py.join newline (map f ((q :: x) ++ y))).
      rewrite IH by discriminate.
      change (Py.join newline (map f (p :: q :: x)))
        with (f p ++ newline ++ Py.join newline (map f (q :: x))).
      now rewrite <- !app_assoc. }
  unfold format_body_paragraphs. destruct for_email; now apply J.
Qed.

(* ================================================================== *)
(** * The further properties on sample inputs *)
(* ================================================================== *)

Lemma subheadline_set_once_witness :
  Py.truthy
    (subheadline (parse_docx (R := ascii_runtime) sample_document)) = true /\
  subheadline
    (parse_from (R := ascii_runtime)
       (parse_docx (R := ascii_runtime) sample_document)
       [styled "Subtitle" "Another subtitle"])
  = py "A new widget".
Proof.
  split; [reflexivity|].
  exact (@subheadline_set_once ascii_runtime
           (parse_docx (R := ascii_runtime) sample_document)
           [styled "Subtitle" "Another subtitle"] (or_introl eq_refl)).
Defined.

Lemma subheadline_needs_headline_witness :
  Py.truthy
    (subheadline (parse_docx (R := ascii_runtime) sample_document)) = true /\
  Py.truthy
    (headline (parse_docx (R := ascii_runtime) sample_document)) = true.
Proof.
  split; [reflexivity|].
  exact (@subheadline_needs_headline ascii_runtime sample_document eq_refl).
Defined.

Lemma no_headline_without_headline_style_witness :
  Forall (fun para => headline_style para = false)
         [styled "Normal" "Some text"; styled "Subtitle" "A subtitle"] /\
  headline
    (parse_docx (R := ascii_runtime)
       [styled "Normal" "Some text"; styled "Subtitle" "A subtitle"]) = [] /\
  subheadline
    (parse_docx (R := ascii_runtime)
       [styled "Normal" "Some text"; styled "Subtitle" "A subtitle"]) = [].
Proof.
  split; [repeat constructor|].
  exact (@no_headline_without_headline_style ascii_runtime
           [styled "Normal" "Some text"; styled "Subtitle" "A subtitle"]
           ltac:(repeat constructor)).
Defined.

Lemma product_link_clean_and_first_witness :
  Py.truthy
    (product_link (parse_docx (R := ascii_runtime) sample_document)) = true /\
  product_link
    (parse_from (R := ascii_runtime)
       (parse_docx (R := ascii_runtime) sample_document) [twice_linked])
  = py "https://www.mouser.com/new/".
Proof.
  split; [reflexivity|].
  exact (proj1 (proj2
           (@product_link_clean_and_first ascii_runtime
              (parse_docx (R := ascii_runtime) sample_document)
              [twice_linked])) eq_refl).
Defined.

Lemma extract_hyperlinks_last_wins_witness :
  para_links twice_linked
  = [ {| r_id := Some (py "rId1"); text_nodes := [Some (py "ABC")] |} ]
    ++ {| r_id := Some (py "rId2"); text_nodes := [Some (py "ABC")] |}
    :: [] /\
  Dict.get (extract_hyperlinks twice_linked) (py "ABC")
  = Some (py "https://www.example.org/abc?ref=pr").
Proof.
  split; [reflexivity|].
  refine (proj2 (proj2 (extract_hyperlinks_last_wins twice_linked))
            [ {| r_id := Some (py "rId1");
                 text_nodes := [Some (py "ABC")] |} ]
            {| r_id := Some (py "rId2"); text_nodes := [Some (py "ABC")] |}
            [] (py "https://www.example.org/abc?ref=pr") eq_refl _ _).
  - exists (py "rId2"). repeat split.
  - intros h' u [].
Defined.

Lemma plain_text_when_no_link_occurs_witness :
  Forall (fun t => Py.find t (para_text stale_link) = -1)
         (Dict.keys (extract_hyperlinks stale_link)) /\
  get_paragraph_html stale_link true = py "No link here".
Proof.
  split; [repeat constructor|].
  exact (proj2 (plain_text_when_no_link_occurs stale_link)
           ltac:(repeat constructor)).
Defined.

Lemma writes_stay_in_folder_witness :
  In (WriteJpeg (py "/tmp/Widget Launch/photo.jpg") (336, 252))
     (writes_of
        (process_press_release (R := ascii_runtime) echo_renderer
           echo_renderer complete_folder (py "/tmp/Widget Launch")
           (py "<html>{{headline}}") (py "<html>{{subject}}")
           None None None)) /\
  exists filename,
    write_path (WriteJpeg (py "/tmp/Widget Launch/photo.jpg") (336, 252))
    = Path.join (py "/tmp/Widget Launch") filename /\
    Py.has_char Path.sep filename = false.
Proof.
  split; [left; reflexivity|].
  exact (@writes_stay_in_folder ascii_runtime echo_renderer echo_renderer
           complete_folder (py "/tmp/Widget Launch")
           (py "<html>{{headline}}") (py "<html>{{subject}}")
           None None None
           (WriteJpeg (py "/tmp/Widget Launch/photo.jpg") (336, 252))
           (or_introl eq_refl)).
Defined.


Lemma convert_result_consistent_witness :
  cr_success
    (convert_png_to_jpg (inr (rgba_image 1000 5)) codec_ok
       (py "out.jpg") 336 95) = true /\
  cr_error
    (convert_png_to_jpg (inr (rgba_image 1000 5)) codec_ok
       (py "out.jpg") 336 95) = None.
Proof.
  split; [reflexivity|].
  exact (proj1 (proj1 (proj2
           (convert_result_consistent (inr (rgba_image 1000 5)) codec_ok
              (py "out.jpg") 336 95))) eq_refl).
Defined.

Lemma strip_tags_of_rendered_paragraph_witness :
  Py.has_char 60%N (para_text linked_once) = false /\
  Forall (fun url => Py.has_char 62%N (clean_url url) = false)
         (Dict.values (extract_hyperlinks linked_once)) /\
  strip_tags (get_paragraph_html linked_once true) = py "Visit Mouser today".
Proof.
  split; [reflexivity|]. split; [repeat constructor|].
  exact (strip_tags_of_rendered_paragraph linked_once eq_refl
           ltac:(repeat constructor)).
Defined.

Lemma meta_description_bounded_witness :
  Py.len (strip_tags (py "Short <b>bold</b> text.")) <= 160 /\
  meta_description [py "Short <b>bold</b> text."] = py "Short bold text.".
Proof.
  split; [discriminate|].
  exact (proj1 (proj2 (meta_description_bounded
                         [py "Short <b>bold</b> text."]))
           (py "Short <b>bold</b> text.") [] eq_refl
           ltac:(discriminate)).
Defined.

Lemma ticket_fields_are_trimmed_lines_witness :
  Jira.folder_path (Jira.parse_jira_ticket sample_description)
  = Some (py "/Mouser/Widget Launch") /\
  Py.has_char 10%N (py "/Mouser/Widget Launch") = false /\
  Py.strip (py "/Mouser/Widget Launch") = py "/Mouser/Widget Launch".
Proof.
  split; [reflexivity|].
  exact (ticket_fields_are_trimmed_lines sample_description
           (py "/Mouser/Widget Launch") (or_introl eq_refl)).
Defined.

Lemma ticket_field_of_label_line_witness :
  Jira.label_free (py "EMAIL SUBJECT LINE:")
    (py "Please publish." ++ [10%N])
    (py "EMAIL SUBJECT LINE:" ++ py "  " ++ py "New widget " ++ [])
  = true /\
  Jira.field (py "EMAIL SUBJECT LINE:")
    ((py "Please publish." ++ [10%N])
     ++ py "EMAIL SUBJECT LINE:" ++ py "  " ++ py "New widget " ++ [])
  = Some (py "New widget").
Proof.
  split; [reflexivity|].
  exact (ticket_field_of_label_line (py "EMAIL SUBJECT LINE:")
           (py "Please publish." ++ [10%N]) (py "  ") (py "New widget ")
           [] 78%N (py "ew widget ")
           eq_refl eq_refl eq_refl eq_refl eq_refl (or_introl eq_refl)).
Defined.

Lemma valid_ticket_fields_witness :
  fst (Jira.validate_parsed_data (Jira.parse_jira_ticket sample_description))
  = true /\
  exists f i s,
    Jira.folder_path (Jira.parse_jira_ticket sample_description) = Some f /\
    Jira.image_url (Jira.parse_jira_ticket sample_description) = Some i /\
    Jira.subject (Jira.parse_jira_ticket sample_description) = Some s /\
    (f <> [] /\ Py.has_char 10%N f = false /\ Py.strip f = f) /\
    (i <> [] /\ Py.has_char 10%N i = false /\ Py.strip i = i) /\
    (s <> [] /\ Py.has_char 10%N s = false /\ Py.strip s = s).
Proof.
  split; [reflexivity|].
  exact (valid_ticket_fields sample_description eq_refl).
Defined.

Lemma upload_result_counts_witness :
  format_path (Runtime := ascii_runtime)
    (Ftp.base_remote_path sample_ftp_config)
    (py "2026-01 - Mouser") (py "Widget Launch")
  = Some (py "/Mouser/2026-01 - Mouser/Widget Launch/") /\
  Ftp.stored
    (snd (match Ftp.upload_to_ftp (R := ascii_runtime) Ftp.willing
                  sample_files sample_ftp_config (py "Widget Launch")
                  (py "2026-01 - Mouser") with
          | Some r => r
          | None => ({| Ftp.success := false; Ftp.error := None;
                        Ftp.uploaded := 0 |}, [])
          end))
  = [py "/Mouser/2026-01 - Mouser/Widget Launch/Widget Launch.html";
     py "/Mouser/2026-01 - Mouser/Widget Launch/photo.jpg"].
Proof.
  split; [reflexivity|].
  exact (proj2 (proj2 (proj1 (proj2 (proj2
           (@upload_result_counts ascii_runtime Ftp.willing sample_files
              sample_ftp_config (py "Widget Launch") (py "2026-01 - Mouser")
              (py "/Mouser/2026-01 - Mouser/Widget Launch/")
              _ _ eq_refl eq_refl))) eq_refl))).
Defined.

Lemma found_folder_matches_witness :
  Dropbox.find_folder_by_name Dropbox.month_store (py "Widget")
    (py "/Mouser")
  = Some (py "/Mouser/2026-01/Widget Launch") /\
  exists entries,
    Dropbox.list_folder Dropbox.month_store (py "/Mouser") = Some entries /\
    ((exists e, In e entries /\
                Dropbox.matches (py "Widget") e
                  (py "/Mouser/2026-01/Widget Launch")) \/
     (exists parent parent_path sub_entries e,
         In parent entries /\ Dropbox.is_folder parent = true /\
         Dropbox.path_display parent = Some parent_path /\
         Dropbox.list_folder Dropbox.month_store parent_path
         = Some sub_entries /\
         In e sub_entries /\
         Dropbox.matches (py "Widget") e
           (py "/Mouser/2026-01/Widget Launch"))).
Proof.
  split; [reflexivity|].
  exact (found_folder_matches Dropbox.month_store (py "Widget")
           (py "/Mouser") (py "/Mouser/2026-01/Widget Launch") eq_refl).
Defined.

Lemma first_top_level_folder_wins_witness :
  Dropbox.list_folder Dropbox.month_store (py "Mouser")
  = Some ([] ++ {| Dropbox.tag := Some (py "folder");
                   Dropbox.name := Some (py "2026-01");
                   Dropbox.path_display := Some (py "/Mouser/2026-01") |}
          :: []) /\
  Dropbox.find_folder_by_name Dropbox.month_store (py "2026") (py "Mouser")
  = Some (py "/Mouser/2026-01").
Proof.
  split; [reflexivity|].
  refine (first_top_level_folder_wins Dropbox.month_store (py "2026")
            (py "Mouser") (py "/Mouser/2026-01") [] []
            {| Dropbox.tag := Some (py "folder");
               Dropbox.name := Some (py "2026-01");
               Dropbox.path_display := Some (py "/Mouser/2026-01") |}
            eq_refl eq_refl _).
  repeat split. now exists (py "2026-01").
Defined.

Lemma email_template_without_placeholders_witness :
  Py.contains (py "{{") (ra_template sample_args) = false /\
  base_url_of (R := ascii_runtime) sample_args <> None /\
  generate_email_html (R := ascii_runtime) sample_args
  = Some (py "<html><body>Nothing to fill in</body></html>").
Proof.
  split; [reflexivity|]. split; [discriminate|].
  exact (proj2 (@email_template_without_placeholders ascii_runtime
                  sample_args) eq_refl ltac:(discriminate)).
Defined.

Lemma format_body_paragraphs_append_witness :
  [py "First."] <> [] /\ [py "Second."] <> [] /\
  format_body_paragraphs ([py "First."] ++ [py "Second."]) false
  = py "                    <p>First.</p>" ++ newline
    ++ py "                    <p>Second.</p>".
Proof.
  split; [discriminate|]. split; [discriminate|].
  exact (proj2 (format_body_paragraphs_append [py "First."] [py "Second."]
                  false) ltac:(discriminate) ltac:(discriminate)).
Defined.
